(** * Sound-wave analysis: a shallow embedding of the signal pipeline

    The Python sources embedded here are
      - [sound_analysis/tools.py]            (decibel helpers, normalisation),
      - [sound_analysis/audio_processing.py] (filters, harmonic detection),
      - [sound_analysis/analyzer.py]         (WAV loading, level analysis, the
                                              command-line pipeline),
      - [sound_analysis/plotly_viz.py]       (the six dashboard figures),
      - [sound_analysis/visualization.py]    (the plots of the command-line
                                              tool),
      - [main.py] and [streamlit_app.py]     (the two entry points: the menus
                                              and the dashboard analysis).

    Conventions of the embedding.
      - A waveform is the [int16] array that [load_wave_data] builds with
        [np.frombuffer(raw_data, dtype=np.int16)]: a [list Z] whose element-wise
        integer operations wrap around modulo [2^16], as numpy's do.
      - [float64] results are idealised: finite values are exact reals (or exact
        rationals where the code only divides), and the three special values
        that numpy produces without raising are kept as constructors of
        [xreal].
      - A raised Python exception is the [Raise] outcome of [result]; the
        exceptions derived from [Exception] that the code can meet are
        modelled, and of the others [KeyboardInterrupt], which the calls
        into the outside world (opening a file, matplotlib, the menus'
        input) may raise; [print] is taken not to raise.
      - [np.frombuffer] runs on a little-endian host.
      - Library routines whose numerical output plays no part in the
        statements (the Butterworth design, Welch's method, the spectrogram,
        matplotlib) are parameters; [np.fft], [np.fft.fftfreq],
        [scipy.signal.find_peaks] and [np.argsort] are modelled after their
        definitions. *)

From Stdlib Require Import ZArith List Reals Lra Lia QArith Qabs Bool String Ascii DecimalString.
From stdpp Require Import strings gmap sorting.
Import ListNotations.


(* ===================================================================== *)
(** * Exceptions and outcomes *)
(* ===================================================================== *)

(** The exception classes that the modelled code can raise.  All but the
    last are subclasses of Python's [Exception]; [Exception_] is the base
    class itself, which [get_wave_info] and [load_wave_data] raise when they
    wrap an error.  [KeyboardInterrupt] derives from [BaseException] only:
    it is what the interpreter raises, without arguments, in the call that
    is running when the user presses Ctrl-C. *)
Inductive exn : Type :=
  | ValueError (msg : string)
  | ZeroDivisionError (msg : string)
  | OSError (msg : string)
  | WaveError (msg : string)
  | Exception_ (msg : string)
  | KeyboardInterrupt.

(** [str(e)] *)
Definition str (e : exn) : string :=
  match e with
  | ValueError m | ZeroDivisionError m | OSError m | WaveError m
  | Exception_ m => m
  | KeyboardInterrupt => EmptyString
  end.

(** [isinstance(e, Exception)]: what a clause [except Exception] catches. *)
Definition is_Exception (e : exn) : bool :=
  match e with
  | KeyboardInterrupt => false
  | _ => true
  end.

Inductive result (A : Type) : Type :=
  | Ok (a : A)
  | Raise (e : exn).
Arguments Ok {A} a.
Arguments Raise {A} e.

(** Sequencing: a raised exception skips the rest of the block. *)
#[global] Instance result_ret : MRet result := fun A a => Ok a.
#[global] Instance result_bind : MBind result := fun A B k m =>
  match m with
  | Ok a => k a
  | Raise e => Raise e
  end.

Definition is_ok {A : Type} (m : result A) : bool :=
  match m with Ok _ => true | Raise _ => false end.

(* ===================================================================== *)
(** * numpy scalars and arrays *)
(* ===================================================================== *)

Open Scope Z_scope.

(** ** [int16] with wrap-around *)

(** Two's-complement reduction of an integer to the [int16] range. *)
Definition wrap16 (z : Z) : Z := (z + 32768) mod 65536 - 32768.

(** [np.abs] on an [int16] element: the absolute value, wrapped. *)
Definition np_abs16 (x : Z) : Z := wrap16 (Z.abs x).

(** [x ** 2] on an [int16] element: the square, wrapped. *)
Definition np_square16 (x : Z) : Z := wrap16 (x * x).

(** ** Reductions *)

Definition zero_size_max : string :=
  "zero-size array to reduction operation maximum which has no identity".
Definition zero_size_min : string :=
  "zero-size array to reduction operation minimum which has no identity".

(** [np.max] of an integer array; raises [ValueError] on the empty array. *)
Definition np_max (a : list Z) : result Z :=
  match a with
  | [] => Raise (ValueError zero_size_max)
  | x :: t => Ok (fold_left Z.max t x)
  end.

(** [np.min] of an integer array; raises [ValueError] on the empty array. *)
Definition np_min (a : list Z) : result Z :=
  match a with
  | [] => Raise (ValueError zero_size_min)
  | x :: t => Ok (fold_left Z.min t x)
  end.

Definition zsum (a : list Z) : Z := fold_right Z.add 0 a.

(** [waveform[waveform != 0]]: boolean-mask selection of the nonzero samples. *)
Definition nonzero (a : list Z) : list Z :=
  List.filter (fun x => negb (x =? 0)) a.

Close Scope Z_scope.

(** ** [float64], idealised *)

Open Scope R_scope.

Inductive xreal : Type :=
  | Fin (r : R)
  | PInf
  | NInf
  | NaN.

(** The literal [1e-6]. *)
Definition micro : R := / 1000000.

Definition log10 (r : R) : R := ln r / ln 10.

(** [np.log10]: [-inf] at zero and [nan] below it (numpy warns, it does not
    raise). *)
Definition np_log10 (x : xreal) : xreal :=
  match x with
  | Fin r =>
      match total_order_T 0 r with
      | inleft (left _) => Fin (log10 r)
      | inleft (right _) => NInf
      | inright _ => NaN
      end
  | PInf => PInf
  | NInf => NaN
  | NaN => NaN
  end.

(** [np.sqrt]: [nan] below zero. *)
Definition np_sqrt (x : xreal) : xreal :=
  match x with
  | Fin r => if Rlt_dec r 0 then NaN else Fin (sqrt r)
  | PInf => PInf
  | NInf => NaN
  | NaN => NaN
  end.

(** [c * x] and [x / c] for a positive finite constant [c]. *)
Definition xscale (c : R) (x : xreal) : xreal :=
  match x with
  | Fin r => Fin (c * r)
  | other => other
  end.

Definition xdivc (x : xreal) (c : R) : xreal :=
  match x with
  | Fin r => Fin (r / c)
  | other => other
  end.

(** [x - y] on [float64]. *)
Definition xsub (x y : xreal) : xreal :=
  match x, y with
  | NaN, _ | _, NaN => NaN
  | Fin a, Fin b => Fin (a - b)
  | Fin _, PInf => NInf
  | Fin _, NInf => PInf
  | PInf, PInf => NaN
  | PInf, _ => PInf
  | NInf, NInf => NaN
  | NInf, _ => NInf
  end.

(** [np.mean] of an integer array, accumulated in [float64]; the mean of the
    empty array is [nan] (with a warning, not an exception). *)
Definition np_mean (a : list Z) : xreal :=
  match a with
  | [] => NaN
  | _ :: _ => Fin (IZR (zsum a) / INR (length a))
  end.

(* ===================================================================== *)
(** * [sound_analysis/tools.py] *)
(* ===================================================================== *)

(** [wave_to_db(waveform)] *)
Definition wave_to_db (waveform : list Z) : xreal :=
  let sq_amplitude := map np_square16 waveform in
  let mean_squared_amplitude := np_mean sq_amplitude in
  let decibels := xscale 10 (np_log10 (xdivc mean_squared_amplitude micro)) in
  decibels.

(** [wave_to_db_rms(waveform)] *)
Definition wave_to_db_rms (waveform : list Z) : xreal :=
  let sq_amplitude := np_mean (map np_square16 waveform) in
  let rms_value := np_sqrt sq_amplitude in
  let decibels := xscale 20 (np_log10 (xdivc rms_value micro)) in
  decibels.

Record db_range : Type := mk_db_range {
  max_db : xreal;
  min_db : xreal;
  dynamic_range : xreal
}.

(** [20 * np.log10(amplitude / 1e-6) if amplitude > 0 else -np.inf] *)
Definition amplitude_db (amplitude : Z) : xreal :=
  if (0 <? amplitude)%Z
  then xscale 20 (np_log10 (Fin (IZR amplitude / micro)))
  else NInf.

(** [detect_db_range(waveform)] *)
Definition detect_db_range (waveform : list Z) : result db_range :=
  max_amplitude ← np_max (map np_abs16 waveform);
  min_amplitude ← np_min (map np_abs16 (nonzero waveform));
  let max_db := amplitude_db max_amplitude in
  let min_db := amplitude_db min_amplitude in
  let dynamic_range :=
    match min_db with
    | NInf => Fin 0
    | _ => xsub max_db min_db
    end in
  Ok (mk_db_range max_db min_db dynamic_range).

(** A numpy array as [normalize_waveform] returns it: either the [int16]
    input itself or the [float64] array that true division produces. *)
Inductive ndarray : Type :=
  | Int16Array (a : list Z)
  | Float64Array (a : list Q).

(** [waveform / max_val]: element-wise true division of integers. *)
Definition true_divide (a : list Z) (d : Z) : list Q :=
  map (fun x => (inject_Z x / inject_Z d)%Q) a.

(** [normalize_waveform(waveform)] *)
Definition normalize_waveform (waveform : list Z) : result ndarray :=
  max_val ← np_max (map np_abs16 waveform);
  if (0 <? max_val)%Z
  then Ok (Float64Array (true_divide waveform max_val))
  else Ok (Int16Array waveform).

Close Scope R_scope.

(* ===================================================================== *)
(** * [sound_analysis/audio_processing.py] *)
(* ===================================================================== *)

(** ** Butterworth filters *)

(** Python's true division [a / b] on numbers: raises on a zero divisor. *)
Definition py_truediv (a b : Q) : result Q :=
  if Qeq_bool b 0
  then Raise (ZeroDivisionError "float division by zero")
  else Ok (a / b)%Q.

Inductive btype : Type := Low | High | Band.

Section Filters.

(** [scipy.signal.butter] and [scipy.signal.filtfilt] are library code and
    parameters of the embedding; [signal_filtfilt] stands for the filtering
    followed by the conversion [.astype(waveform.dtype)]. *)
Variable coefficients : Type.
Variable signal_butter : nat -> list Q -> btype -> result coefficients.
Variable signal_filtfilt : coefficients -> list Z -> result (list Z).

(** [apply_lowpass_filter(waveform, sample_rate, cutoff_freq, order=5)] *)
Definition apply_lowpass_filter
    (waveform : list Z) (sample_rate cutoff_freq : Q) (order : nat)
    : result (list Z) :=
  let nyquist := (sample_rate / 2)%Q in
  normalized_cutoff ← py_truediv cutoff_freq nyquist;
  if Qle_bool 1 normalized_cutoff
  then Ok waveform
  else
    ba ← signal_butter order [normalized_cutoff] Low;
    signal_filtfilt ba waveform.

(** [apply_highpass_filter(waveform, sample_rate, cutoff_freq, order=5)] *)
Definition apply_highpass_filter
    (waveform : list Z) (sample_rate cutoff_freq : Q) (order : nat)
    : result (list Z) :=
  let nyquist := (sample_rate / 2)%Q in
  normalized_cutoff ← py_truediv cutoff_freq nyquist;
  if Qle_bool normalized_cutoff 0
  then Ok waveform
  else
    ba ← signal_butter order [normalized_cutoff] High;
    signal_filtfilt ba waveform.

(** [apply_bandpass_filter(waveform, sample_rate, low_freq, high_freq, order=5)] *)
Definition apply_bandpass_filter
    (waveform : list Z) (sample_rate low_freq high_freq : Q) (order : nat)
    : result (list Z) :=
  let nyquist := (sample_rate / 2)%Q in
  low ← py_truediv low_freq nyquist;
  high ← py_truediv high_freq nyquist;
  let low := if Qle_bool low 0 then (1 # 1000)%Q else low in
  let high := if Qle_bool 1 high then (999 # 1000)%Q else high in
  if Qle_bool high low
  then Ok waveform
  else
    ba ← signal_butter order [low; high] Band;
    signal_filtfilt ba waveform.

End Filters.

(** ** The discrete Fourier transform *)

Open Scope R_scope.

(** A [complex128] value, as (real part, imaginary part). *)
Definition complex : Type := (R * R)%type.

(** [np.abs] on a complex number. *)
Definition cabs (z : complex) : R := sqrt (fst z * fst z + snd z * snd z).

(** The angle [2 pi k t / n] of the DFT kernel. *)
Definition dft_angle (n k t : nat) : R := 2 * PI * INR k * INR t / INR n.

(** [sum_{t} a[t] * cos (angle t)] and the same with [sin], for the samples
    [a] placed at the positions [t0, t0+1, ...]. *)
Fixpoint dft_cos_sum (n k t0 : nat) (a : list Z) : R :=
  match a with
  | [] => 0
  | x :: a' => IZR x * cos (dft_angle n k t0) + dft_cos_sum n k (S t0) a'
  end.

Fixpoint dft_sin_sum (n k t0 : nat) (a : list Z) : R :=
  match a with
  | [] => 0
  | x :: a' => IZR x * sin (dft_angle n k t0) + dft_sin_sum n k (S t0) a'
  end.

(** Bin [k] of the transform: [sum_t a[t] * exp (-2 pi i k t / n)]. *)
Definition dft_bin (a : list Z) (k : nat) : complex :=
  let n := length a in
  (dft_cos_sum n k 0 a, - dft_sin_sum n k 0 a).

(** [np.fft.fft(waveform)]: raises on an empty input. *)
Definition np_fft (a : list Z) : result (list complex) :=
  match a with
  | [] => Raise (ValueError "Invalid number of FFT data points (0) specified.")
  | _ :: _ => Ok (map (dft_bin a) (seq 0 (length a)))
  end.

(** The integer bin numbers of [np.fft.fftfreq(n, d)], in its output order:
    [0, 1, ..., (n-1)//2, -(n//2), ..., -1]. *)
Definition fftfreq_bins (n : nat) : list Z :=
  map Z.of_nat (seq 0 ((n - 1) / 2 + 1))
  ++ map (fun i => (Z.of_nat i - Z.of_nat (n / 2))%Z) (seq 0 (n / 2)).

(** [np.fft.fftfreq(n, d)]: the bin numbers times [1.0 / (n * d)]. *)
Definition np_fftfreq (n : nat) (d : R) : list R :=
  let val := 1 / (INR n * d) in
  map (fun k => IZR k * val) (fftfreq_bins n).

(** [1 / sample_rate] on a Python integer. *)
Definition py_inv (sample_rate : Z) : result R :=
  if (sample_rate =? 0)%Z
  then Raise (ZeroDivisionError "division by zero")
  else Ok (1 / IZR sample_rate).

Definition Rltb (x y : R) : bool := if Rlt_dec x y then true else false.
Definition Rleb (x y : R) : bool := if Rle_dec x y then true else false.

(** [a[mask]]: selection by a boolean mask of the same length. *)
Fixpoint select {A : Type} (mask : list bool) (a : list A) : list A :=
  match mask, a with
  | b :: mask', x :: a' => if b then x :: select mask' a' else select mask' a'
  | _, _ => []
  end.

(** [np.max] of a [float64] array; raises [ValueError] on the empty array. *)
Definition np_max_float (a : list R) : result R :=
  match a with
  | [] => Raise (ValueError zero_size_max)
  | x :: t => Ok (fold_left Rmax t x)
  end.

(** [x / y] on [float64]: a zero divisor gives [nan] or an infinity. *)
Definition np_divide (x y : R) : xreal :=
  if Req_dec_T y 0
  then (if Req_dec_T x 0 then NaN else if Rlt_dec 0 x then PInf else NInf)
  else Fin (x / y).

Definition xadd_c (x : xreal) (c : R) : xreal :=
  match x with
  | Fin r => Fin (r + c)
  | other => other
  end.

Close Scope R_scope.

(** ** [scipy.signal.find_peaks]

    The library routine is modelled after its implementation
    ([_local_maxima_1d] followed by the selection on [height]); it is generic in
    the sample type so that it can be run on integers and rationals as well as
    on the real magnitudes of the spectrum. *)

Section FindPeaks.

Context {A : Type}.
Variable lt : A -> A -> bool.

Definition lt_at (x : list A) (i j : nat) : bool :=
  match x !! i, x !! j with
  | Some a, Some b => lt a b
  | _, _ => false
  end.

(** [x[i] == x[j]] *)
Definition eq_at (x : list A) (i j : nat) : bool :=
  match x !! i, x !! j with
  | Some a, Some b => negb (lt a b) && negb (lt b a)
  | _, _ => false
  end.

(** [while i_ahead < i_max and x[i_ahead] == x[i]: i_ahead += 1] *)
Fixpoint look_ahead (x : list A) (i_max i : nat) (fuel i_ahead : nat) : nat :=
  match fuel with
  | O => i_ahead
  | S fuel' =>
      if (i_ahead <? i_max) && eq_at x i_ahead i
      then look_ahead x i_max i fuel' (S i_ahead)
      else i_ahead
  end.

(** The main loop of [_local_maxima_1d], from sample [i] on. *)
Fixpoint local_maxima_loop (x : list A) (i_max : nat) (fuel i : nat)
    : list nat :=
  match fuel with
  | O => []
  | S fuel' =>
      if i <? i_max then
        if lt_at x (i - 1) i then
          let i_ahead := look_ahead x i_max i (length x) (i + 1) in
          if lt_at x i_ahead i then
            let left_edge := i in
            let right_edge := i_ahead - 1 in
            ((left_edge + right_edge) / 2)
              :: local_maxima_loop x i_max fuel' (i_ahead + 1)
          else local_maxima_loop x i_max fuel' (i + 1)
        else local_maxima_loop x i_max fuel' (i + 1)
      else []
  end.

(** [_local_maxima_1d(x)]: the midpoints of the (possibly flat) local
    maxima; the first and the last sample are never maxima. *)
Definition local_maxima_1d (x : list A) : list nat :=
  local_maxima_loop x (length x - 1) (length x) 1.

(** [find_peaks(x, height=hmin)[0]]: the local maxima not lower than [hmin]. *)
Definition find_peaks (x : list A) (hmin : A) : list nat :=
  List.filter (fun p =>
            match x !! p with
            | Some v => negb (lt v hmin)
            | None => false
            end)
         (local_maxima_1d x).

(** ** [np.argsort]: indices that sort the array, as a stable insertion
    sort yields them. *)
Fixpoint insert_index (x : list A) (i : nat) (sorted : list nat) : list nat :=
  match sorted with
  | [] => [i]
  | j :: rest =>
      if lt_at x i j then i :: j :: rest
      else j :: insert_index x i rest
  end.

Definition np_argsort (x : list A) : list nat :=
  fold_left (fun acc i => insert_index x i acc) (seq 0 (length x)) [].

End FindPeaks.

(** ** [detect_harmonics] *)

Record harmonic : Type := mk_harmonic {
  frequency : R;
  magnitude_db : xreal
}.

(** [magnitude[peaks]]: selection by a list of indices. *)
Definition take_indices {A : Type} (a : list A) (idx : list nat) : list A :=
  omap (fun i => a !! i) idx.

(** Lines 120 to 127 of [audio_processing.py]: the transform, its frequency
    axis, and the restriction of both to the positive frequencies. *)
Definition positive_spectrum (waveform : list Z) (sample_rate : Z)
    : result (list R * list R) :=
  fft ← np_fft waveform;
  d ← py_inv sample_rate;
  let freqs := np_fftfreq (length fft) d in
  let magnitude := map cabs fft in
  let positive_mask := map (fun f => Rltb 0 f) freqs in
  let freqs := select positive_mask freqs in
  let magnitude := select positive_mask magnitude in
  Ok (freqs, magnitude).

(** [20 * np.log10(peak_magnitude / np.max(magnitude) + 1e-10)] *)
Definition relative_db (peak_magnitude max_magnitude : R) : xreal :=
  xscale 20 (np_log10 (xadd_c (np_divide peak_magnitude max_magnitude)
                              (/ 10000000000)%R)).

(** [detect_harmonics(waveform, sample_rate, num_harmonics=10)].  The loop
    body indexes [peaks], [freqs] and [peak_magnitudes]; these lookups are
    always in range (lemma [detect_harmonics_count] below), so no entry is
    dropped by [omap]. *)
Definition detect_harmonics (waveform : list Z) (sample_rate : Z)
    (num_harmonics : nat) : result (list harmonic) :=
  '(freqs, magnitude) ← positive_spectrum waveform sample_rate;
  max_magnitude ← np_max_float magnitude;
  let peaks := find_peaks Rltb magnitude (max_magnitude * (/ 100))%R in
  if (length peaks =? 0)%nat then Ok []
  else
    let peak_magnitudes := take_indices magnitude peaks in
    let sorted_indices := rev (np_argsort Rltb peak_magnitudes) in
    Ok (omap (fun i =>
                p ← peaks !! i;
                freq ← freqs !! p;
                pm ← peak_magnitudes !! i;
                Some (mk_harmonic freq (relative_db pm max_magnitude)))
             (firstn num_harmonics sorted_indices)).

(** ** Auxiliary sums used to evaluate the transform of a pulse train *)

Section PulseSumsDef.

Open Scope R_scope.

(** [sum_{j < m} cos (j * theta)] and [sum_{j < m} sin (j * theta)]. *)
Fixpoint cos_sum (theta : R) (m : nat) : R :=
  match m with
  | O => 0
  | S m' => cos_sum theta m' + cos (INR m' * theta)
  end.

Fixpoint sin_sum (theta : R) (m : nat) : R :=
  match m with
  | O => 0
  | S m' => sin_sum theta m' + sin (INR m' * theta)
  end.

End PulseSumsDef.

(** Fifteen samples holding a pulse every three samples plus a pulse every
    five samples; its spectrum has lines at the bins 3 (and 6) and 5. *)
Definition two_pulse_trains : list Z :=
  [2; 0; 0; 1; 0; 1; 1; 0; 0; 1; 1; 0; 1; 0; 0]%Z.

(* ===================================================================== *)
(** * [sound_analysis/analyzer.py]: level analysis *)
(* ===================================================================== *)

Record audio_levels : Type := mk_audio_levels {
  max_amplitude : Z;
  min_amplitude : Z;
  mean_amplitude : xreal;
  avg_db : xreal;
  rms_db : xreal;
  levels_db_range : db_range
}.

(** [analyze_audio_levels(waveform)] *)
Definition analyze_audio_levels (waveform : list Z) : result audio_levels :=
  max_amplitude ← np_max (map np_abs16 waveform);
  min_amplitude ← np_min (map np_abs16 waveform);
  let mean_amplitude := np_mean (map np_abs16 waveform) in
  let avg_db := wave_to_db waveform in
  let rms_db := wave_to_db_rms waveform in
  db_range ← detect_db_range waveform;
  Ok (mk_audio_levels max_amplitude min_amplitude mean_amplitude
        avg_db rms_db db_range).

(* ===================================================================== *)
(** * WAV files as Python's [wave] module presents them *)
(* ===================================================================== *)

(** An opened [wave.Wave_read] object: the header fields and the bytes of the
    data chunk. *)
Record Wave_read : Type := mk_Wave_read {
  nchannels : Z;
  sampwidth : Z;
  framerate : Z;
  nframes : Z;
  frames : list Byte.byte
}.

(** An uncompressed PCM file as [wave.open] accepts it: at least one channel,
    one to four bytes per sample, and a data chunk of whole frames. *)
Definition pcm_wav (f : Wave_read) : Prop :=
  (1 <= nchannels f)%Z /\ (1 <= sampwidth f <= 4)%Z /\ (0 <= framerate f)%Z
  /\ (0 <= nframes f)%Z
  /\ Z.of_nat (length (frames f)) = (nframes f * (nchannels f * sampwidth f))%Z.

(** [wav_obj.readframes(n)]: at most [n] frames of the data chunk. *)
Definition readframes (f : Wave_read) (n : Z) : list Byte.byte :=
  firstn (Z.to_nat (n * (nchannels f * sampwidth f))) (frames f).

Definition byte_value (b : Byte.byte) : Z := Z.of_N (Byte.to_N b).

(** Little-endian two's-complement decoding of consecutive byte pairs. *)
Fixpoint int16_pairs (raw : list Byte.byte) : list Z :=
  match raw with
  | lo :: hi :: rest =>
      wrap16 (byte_value lo + 256 * byte_value hi) :: int16_pairs rest
  | _ => []
  end.

(** [np.frombuffer(raw_data, dtype=np.int16)] on a little-endian host. *)
Definition np_frombuffer_int16 (raw : list Byte.byte) : result (list Z) :=
  if (length raw mod 2 =? 0)%nat
  then Ok (int16_pairs raw)
  else Raise (ValueError "buffer size must be a multiple of element size").

(** [a[::step]] for a positive step. *)
Fixpoint stride_from {A : Type} (step skip : nat) (a : list A) : list A :=
  match a with
  | [] => []
  | x :: a' =>
      match skip with
      | O => x :: stride_from step (step - 1) a'
      | S skip' => stride_from step skip' a'
      end
  end.

Definition stride {A : Type} (step : nat) (a : list A) : list A :=
  stride_from step 0 a.

(** Python's [a / b] on integers. *)
Definition py_int_truediv (a b : Z) : result Q :=
  if (b =? 0)%Z
  then Raise (ZeroDivisionError "division by zero")
  else Ok (inject_Z a / inject_Z b)%Q.

Record wave_info : Type := mk_wave_info {
  info_sample_rate : Z;
  info_total_samples : Z;
  info_channels : Z;
  info_sample_width : Z;
  info_duration : Q;
  info_channel_type : string
}.

Record wave_data : Type := mk_wave_data {
  wd_waveform : list Z;
  wd_sample_rate : Z;
  wd_duration : Q;
  wd_channels : Z
}.

Record analysis : Type := mk_analysis {
  an_file_info : wave_info;
  an_wave_data : wave_data;
  an_audio_levels : audio_levels
}.

(* ===================================================================== *)
(** * Observable behaviour: calls, console output, plotting *)
(* ===================================================================== *)

(** The functions of the package whose calls are recorded. *)
Inductive func : Type :=
  | F_get_wave_info
  | F_load_wave_data
  | F_analyze_audio_levels
  | F_detect_harmonics
  | F_apply_lowpass_filter
  | F_apply_highpass_filter
  | F_apply_bandpass_filter
  | F_plot_waveform
  | F_plot_spectrogram
  | F_plot_combined_analysis.

(** The lines that [perform_complete_analysis] and the plotting helpers print,
    with the values they format. *)
Inductive out_line : Type :=
  | L_analysis_results
  | L_rule
  | L_file (filename : string)
  | L_sample_rate (hz : Z)
  | L_duration (seconds : Q)
  | L_channels (n : Z) (channel_type : string)
  | L_total_samples (n : Z)
  | L_sound_levels
  | L_average_db (x : xreal)
  | L_rms_db (x : xreal)
  | L_dynamic_range (x : xreal)
  | L_max_db (x : xreal)
  | L_min_db (x : xreal)
  | L_generating
  | L_waveform_saved (path : string)
  | L_spectrogram_saved (path : string)
  | L_completed
  | L_error (message : string).

(** Requests to matplotlib: the drawing of a figure (from [plt.figure] to
    [plt.tight_layout]), [plt.savefig] and [plt.show]. *)
Inductive plt_cmd : Type :=
  | Plt_draw_waveform (title : string) (points : nat)
  | Plt_draw_specgram (title : string) (points : nat) (fs : Z)
  | Plt_savefig (path : string)
  | Plt_show.

(** What the program does, in order: a call of one of its functions, the
    statements [wave.open(path, "rb")] and [wav_obj.close()], a call of
    [print], of [os.makedirs] and of matplotlib.  [Wave_close] is the call
    of [close] that the program makes; what the finaliser of a [Wave_read]
    object does when the interpreter drops it is no event of the program. *)
Inductive event : Type :=
  | Call (f : func)
  | Wave_open (path : string)
  | Wave_close
  | Print (line : out_line)
  | Makedirs (dir : string)
  | Plt (c : plt_cmd).

(** A computation that has produced a trace of events and then either a value
    or a raised exception. *)
Inductive IO (A : Type) : Type :=
  | mkIO (trace : list event) (outcome : result A).
Arguments mkIO {A} trace outcome.

Definition io_trace {A : Type} (m : IO A) : list event :=
  match m with mkIO t _ => t end.
Definition io_outcome {A : Type} (m : IO A) : result A :=
  match m with mkIO _ r => r end.

#[global] Instance IO_ret : MRet IO := fun A a => mkIO [] (Ok a).
#[global] Instance IO_bind : MBind IO := fun A B k m =>
  match m with
  | mkIO t (Ok a) =>
      match k a with
      | mkIO t' r => mkIO (t ++ t') r
      end
  | mkIO t (Raise e) => mkIO t (Raise e)
  end.

Definition emit (ev : event) : IO unit := mkIO [ev] (Ok tt).
Definition print (l : out_line) : IO unit := emit (Print l).
Definition io_raise {A : Type} (e : exn) : IO A := mkIO [] (Raise e).
Definition io_lift {A : Type} (r : result A) : IO A := mkIO [] r.

(** [try: body / except Exception as e: handler e]; an exception that is
    not derived from [Exception] passes through. *)
Definition try_except {A : Type} (body : IO A) (handler : exn -> IO A) : IO A :=
  match body with
  | mkIO t (Ok a) => mkIO t (Ok a)
  | mkIO t (Raise e) =>
      if is_Exception e then
        match handler e with
        | mkIO t' r => mkIO (t ++ t') r
        end
      else mkIO t (Raise e)
  end.

(** What lies outside the program: the files that [wave.open] finds, the
    outcome of directory creation and of matplotlib requests, and the
    [os.path] string functions. *)
Record environment : Type := mk_environment {
  wave_open : string -> result Wave_read;
  os_makedirs : string -> result unit;
  plt_request : plt_cmd -> result unit;
  os_path_basename : string -> string;
  os_path_splitext_root : string -> string;
  os_path_join : string -> string -> string
}.

Section Analyzer.

Variable env : environment.

Definition io_wave_open (path : string) : IO Wave_read :=
  emit (Wave_open path);; io_lift (wave_open env path).

Definition io_plt (c : plt_cmd) : IO unit :=
  emit (Plt c);; io_lift (plt_request env c).

(** [get_wave_info(file_path)] *)
Definition get_wave_info (file_path : string) : IO wave_info :=
  emit (Call F_get_wave_info);;
  try_except
    (wav_obj ← io_wave_open file_path;
     let sample_rate := framerate wav_obj in
     let total_samples := nframes wav_obj in
     let channels := nchannels wav_obj in
     let sample_width := sampwidth wav_obj in
     duration ← io_lift (py_int_truediv total_samples sample_rate);
     let channel_type :=
       if (channels =? 1)%Z then "Mono"%string else "Stereo"%string in
     emit Wave_close;;
     mret (mk_wave_info sample_rate total_samples channels sample_width
             duration channel_type))
    (fun e =>
       io_raise (Exception_ ("Error reading WAV file info: " +:+ str e))).

(** [load_wave_data(file_path)] *)
Definition load_wave_data (file_path : string) : IO wave_data :=
  emit (Call F_load_wave_data);;
  try_except
    (wav_obj ← io_wave_open file_path;
     let sample_rate := framerate wav_obj in
     let total_samples := nframes wav_obj in
     let channels := nchannels wav_obj in
     let raw_data := readframes wav_obj total_samples in
     audio_data ← io_lift (np_frombuffer_int16 raw_data);
     let waveform :=
       if (channels =? 1)%Z then audio_data else stride 2 audio_data in
     emit Wave_close;;
     duration ← io_lift (py_int_truediv total_samples sample_rate);
     mret (mk_wave_data waveform sample_rate duration channels))
    (fun e =>
       io_raise (Exception_ ("Error loading WAV data: " +:+ str e))).

(** [plot_waveform(waveform, sample_rate, duration, title, save_path)] of
    [visualization.py] *)
Definition plot_waveform (waveform : list Z) (sample_rate : Z) (duration : Q)
    (title : string) (save_path : option string) : IO unit :=
  emit (Call F_plot_waveform);;
  io_plt (Plt_draw_waveform title (length waveform));;
  (match save_path with
   | Some (String c s) =>
       io_plt (Plt_savefig (String c s));;
       print (L_waveform_saved (String c s))
   | _ => mret tt                      (* [None] and the empty path are falsy *)
   end);;
  io_plt Plt_show.

(** [plot_spectrogram(waveform, sample_rate, title, save_path)] of
    [visualization.py] *)
Definition plot_spectrogram (waveform : list Z) (sample_rate : Z)
    (title : string) (save_path : option string) : IO unit :=
  emit (Call F_plot_spectrogram);;
  io_plt (Plt_draw_specgram title (length waveform) sample_rate);;
  (match save_path with
   | Some (String c s) =>
       io_plt (Plt_savefig (String c s));;
       print (L_spectrogram_saved (String c s))
   | _ => mret tt
   end);;
  io_plt Plt_show.

(** The body of the [try] block of [perform_complete_analysis]. *)
Definition perform_complete_analysis_body
    (file_path : string) (show_plots save_figures : bool) : IO analysis :=
  file_info ← get_wave_info file_path;
  wave_data ← load_wave_data file_path;
  let waveform := wd_waveform wave_data in
  let sample_rate := wd_sample_rate wave_data in
  let duration := wd_duration wave_data in
  emit (Call F_analyze_audio_levels);;
  audio_levels ← io_lift (analyze_audio_levels waveform);
  let filename := os_path_basename env file_path in
  print L_analysis_results;;
  print L_rule;;
  print (L_file filename);;
  print (L_sample_rate (info_sample_rate file_info));;
  print (L_duration duration);;
  print (L_channels (info_channels file_info)
                    (info_channel_type file_info));;
  print (L_total_samples (info_total_samples file_info));;
  print L_sound_levels;;
  print (L_average_db (avg_db audio_levels));;
  print (L_rms_db (rms_db audio_levels));;
  print (L_dynamic_range (dynamic_range (levels_db_range audio_levels)));;
  print (L_max_db (max_db (levels_db_range audio_levels)));;
  print (L_min_db (min_db (levels_db_range audio_levels)));;
  (if show_plots then
     print L_generating;;
     paths ←
       (if save_figures then
          let figures_dir := "figures"%string in
          emit (Makedirs figures_dir);;
          io_lift (os_makedirs env figures_dir);;
          let base_name := os_path_splitext_root env filename in
          let waveform_path :=
            os_path_join env figures_dir (base_name +:+ "_waveform.png") in
          let spectrogram_path :=
            os_path_join env figures_dir (base_name +:+ "_spectrogram.png") in
          mret (Some waveform_path, Some spectrogram_path)
        else mret (None, None));
     plot_waveform waveform sample_rate duration
       (filename +:+ " - Waveform") (fst paths);;
     plot_spectrogram waveform sample_rate
       (filename +:+ " - Spectrogram") (snd paths)
   else mret tt);;
  print L_completed;;
  mret (mk_analysis file_info wave_data audio_levels).

(** [perform_complete_analysis(file_path, show_plots=True, save_figures=False)];
    the Python value [None] is the Rocq value [None]. *)
Definition perform_complete_analysis
    (file_path : string) (show_plots save_figures : bool)
    : IO (option analysis) :=
  try_except
    (r ← perform_complete_analysis_body file_path show_plots save_figures;
     mret (Some r))
    (fun e => print (L_error (str e));; mret None).

End Analyzer.

(* ===================================================================== *)
(** * [sound_analysis/plotly_viz.py] *)
(* ===================================================================== *)

Inductive trace_kind : Type := Scatter | Heatmap | Histogram.

(** A Plotly figure, reduced to its trace type, the title it was given and
    the number of data points handed to the trace. *)
Record Figure : Type := mk_Figure {
  fig_kind : trace_kind;
  fig_title : string;
  fig_points : nat
}.

Section PlotlyViz.

(** [scipy.signal.spectrogram] and [scipy.signal.welch] are library code:
    their outcome (the shape of the result, or the exception raised) is a
    parameter. *)
Variable signal_spectrogram :
  list Z -> Z -> nat -> nat -> result (nat * nat).
Variable signal_welch : list Z -> Z -> nat -> result nat.

(** [create_waveform_plot(waveform, sample_rate, duration, title)] *)
Definition create_waveform_plot (waveform : list Z) (sample_rate : Z)
    (duration : Q) (title : string) : result Figure :=
  let max_points := 50000%Z in
  let waveform :=
    if (max_points <? Z.of_nat (length waveform))%Z
    then stride (Z.to_nat (Z.of_nat (length waveform) / max_points)) waveform
    else waveform in
  Ok (mk_Figure Scatter title (length waveform)).

(** [create_frequency_spectrum_plot(waveform, sample_rate, title)] *)
Definition create_frequency_spectrum_plot (waveform : list Z)
    (sample_rate : Z) (title : string) : result Figure :=
  '(freqs, magnitude) ← positive_spectrum waveform sample_rate;
  _ ← np_max_float magnitude;              (* [magnitude.max()] *)
  Ok (mk_Figure Scatter title (length freqs)).

(** [create_spectrogram_plot(waveform, sample_rate, title)] *)
Definition create_spectrogram_plot (waveform : list Z) (sample_rate : Z)
    (title : string) : result Figure :=
  let nperseg := Nat.min 1024 (length waveform / 8) in
  '(n_freqs, n_times) ←
    signal_spectrogram waveform sample_rate nperseg (nperseg / 2);
  Ok (mk_Figure Heatmap title (n_freqs * n_times)).

(** [create_psd_plot(waveform, sample_rate, title)] *)
Definition create_psd_plot (waveform : list Z) (sample_rate : Z)
    (title : string) : result Figure :=
  n_freqs ←
    signal_welch waveform sample_rate (Nat.min 1024 (length waveform / 4));
  Ok (mk_Figure Scatter title n_freqs).

(** [create_phase_plot(waveform, sample_rate, title)] *)
Definition create_phase_plot (waveform : list Z) (sample_rate : Z)
    (title : string) : result Figure :=
  fft ← np_fft waveform;
  d ← py_inv sample_rate;
  let freqs := np_fftfreq (length fft) d in
  let positive_mask := map (fun f => Rltb 0 f) freqs in
  let freqs := select positive_mask freqs in
  let freqs :=
    if (5000 <? Z.of_nat (length freqs))%Z
    then stride (Z.to_nat (Z.of_nat (length freqs) / 5000)) freqs
    else freqs in
  Ok (mk_Figure Scatter title (length freqs)).

(** [create_histogram_plot(waveform, title)] *)
Definition create_histogram_plot (waveform : list Z) (title : string)
    : result Figure :=
  Ok (mk_Figure Histogram title (length waveform)).

(** [create_all_visualizations(waveform, sample_rate, duration, filename)];
    the dictionary is the list of its items in insertion order. *)
Definition create_all_visualizations (waveform : list Z) (sample_rate : Z)
    (duration : Q) (filename : string)
    : result (list (string * Figure)) :=
  f_waveform ← create_waveform_plot waveform sample_rate duration
                 ("Waveform - " +:+ filename);
  f_spectrum ← create_frequency_spectrum_plot waveform sample_rate
                 ("Frequency Spectrum - " +:+ filename);
  f_spectrogram ← create_spectrogram_plot waveform sample_rate
                    ("Spectrogram - " +:+ filename);
  f_psd ← create_psd_plot waveform sample_rate
            ("Power Spectral Density - " +:+ filename);
  f_phase ← create_phase_plot waveform sample_rate
              ("Phase Response - " +:+ filename);
  f_histogram ← create_histogram_plot waveform
                  ("Amplitude Distribution - " +:+ filename);
  Ok [ ("waveform", f_waveform);
       ("spectrum", f_spectrum);
       ("spectrogram", f_spectrogram);
       ("psd", f_psd);
       ("phase", f_phase);
       ("histogram", f_histogram) ]%string.

End PlotlyViz.

(* ===================================================================== *)
(** * Vocabulary of the statements *)
(* ===================================================================== *)

(** The package functions called during a run, in call order. *)
Definition calls (t : list event) : list func :=
  omap (fun ev => match ev with Call f => Some f | _ => None end) t.

(** [steps m cs]: the calls made by [m] are an initial part of [cs], and all
    of [cs] when [m] does not raise. *)
Definition steps {A : Type} (m : IO A) (cs : list func) : Prop :=
  calls (io_trace m) `prefix_of` cs
  /\ (is_ok (io_outcome m) = true -> calls (io_trace m) = cs).

(** The 16-bit sample number [j] of a byte buffer (little endian). *)
Definition sample_at (raw : list Byte.byte) (j : nat) : option Z :=
  lo ← raw !! (2 * j)%nat;
  hi ← raw !! (2 * j + 1)%nat;
  Some (wrap16 (byte_value lo + 256 * byte_value hi)).

(** A flat peak of [x] around index [p]: a run [left .. right] of equal
    samples that contains [p], does not touch either end of [x], and is
    strictly higher than the sample before it and the sample after it. *)
Definition flat_peak {A : Type} (lt : A -> A -> bool) (x : list A) (p : nat)
    : Prop :=
  exists left right : nat,
    (1 <= left)%nat /\ (left <= p <= right)%nat /\ (right + 1 < length x)%nat
    /\ (forall j, (left <= j <= right)%nat -> eq_at lt x j left = true)
    /\ lt_at lt x (left - 1) left = true
    /\ lt_at lt x (right + 1) left = true.

(** ** Fixtures *)

(** An environment in which every path leads to the file [f], directories
    can be created and matplotlib never fails. *)
Definition single_file_environment (f : result Wave_read) : environment :=
  mk_environment
    (fun _ => f)
    (fun _ => Ok tt)
    (fun _ => Ok tt)
    (fun p => p)
    (fun p => p)
    (fun dir name => dir +:+ "/" +:+ name).

(** Two frames of 8-bit mono PCM. *)
Definition wav_8bit_mono : Wave_read :=
  mk_Wave_read 1 1 8000 2 [Byte.x80; Byte.x80].

(** Two frames of 16-bit mono PCM: the samples 1 and -1. *)
Definition wav_16bit_mono : Wave_read :=
  mk_Wave_read 1 2 8000 2 [Byte.x01; Byte.x00; Byte.xff; Byte.xff].

(** Two frames of 16-bit stereo PCM: left 1, right 2, left -1, right -2. *)
Definition wav_16bit_stereo : Wave_read :=
  mk_Wave_read 2 2 8000 2
    [Byte.x01; Byte.x00; Byte.x02; Byte.x00;
     Byte.xff; Byte.xff; Byte.xfe; Byte.xff].

(** [silent m]: [m] calls no function of the package. *)
Definition silent {A : Type} (m : IO A) : Prop := calls (io_trace m) = [].


(* ===================================================================== *)
(** * The object store

    For the statements about state the arrays live in a store of numpy array
    objects, and Python variables hold addresses.  Every numpy call used by
    [analyze_audio_levels] and [detect_harmonics] reads its operands and puts
    its result in a newly created array. *)
(* ===================================================================== *)

Inductive array : Type :=
  | A_int16 (a : list Z)
  | A_bool (a : list bool)
  | A_float64 (a : list R)
  | A_complex128 (a : list complex)
  | A_intp (a : list nat).

Abbreviation store := (gmap nat array).

(** A computation over the store. *)
Inductive ST (A : Type) : Type :=
  | mkST (run : store -> result A * store).
Arguments mkST {A} run.

Definition run_st {A : Type} (m : ST A) (s : store) : result A * store :=
  match m with mkST run => run s end.

#[global] Instance ST_ret : MRet ST := fun A a => mkST (fun s => (Ok a, s)).
#[global] Instance ST_bind : MBind ST := fun A B k m =>
  mkST (fun s =>
          match run_st m s with
          | (Ok a, s') => run_st (k a) s'
          | (Raise e, s') => (Raise e, s')
          end).

Definition st_lift {A : Type} (r : result A) : ST A := mkST (fun s => (r, s)).

(** Creation of a new array object. *)
Definition st_alloc (v : array) : ST nat :=
  mkST (fun s => let l := fresh (dom s) in (Ok l, <[l := v]> s)).

(** The array a variable refers to. *)
Definition st_read (l : nat) : ST array :=
  mkST (fun s =>
          match s !! l with
          | Some v => (Ok v, s)
          | None => (Raise (Exception_ "no such object"), s)
          end).

Definition wrong_dtype {A : Type} : result A := Raise (Exception_ "wrong dtype").

Definition as_int16 (v : array) : result (list Z) :=
  match v with A_int16 a => Ok a | _ => wrong_dtype end.
Definition as_bool (v : array) : result (list bool) :=
  match v with A_bool a => Ok a | _ => wrong_dtype end.
Definition as_float64 (v : array) : result (list R) :=
  match v with A_float64 a => Ok a | _ => wrong_dtype end.
Definition as_complex128 (v : array) : result (list complex) :=
  match v with A_complex128 a => Ok a | _ => wrong_dtype end.
Definition as_intp (v : array) : result (list nat) :=
  match v with A_intp a => Ok a | _ => wrong_dtype end.

(** The three shapes of numpy call: a reduction to a scalar, an operation
    with one array operand, an operation with two. *)
Definition st_reduce {X B : Type} (get : array -> result X)
    (f : X -> result B) (l : nat) : ST B :=
  v ← st_read l;
  x ← st_lift (get v);
  st_lift (f x).

Definition st_unary {X : Type} (get : array -> result X)
    (f : X -> result array) (l : nat) : ST nat :=
  v ← st_read l;
  x ← st_lift (get v);
  y ← st_lift (f x);
  st_alloc y.

Definition st_binary {X Y : Type} (get1 : array -> result X)
    (get2 : array -> result Y) (f : X -> Y -> result array)
    (l1 l2 : nat) : ST nat :=
  v1 ← st_read l1;
  x ← st_lift (get1 v1);
  v2 ← st_read l2;
  y ← st_lift (get2 v2);
  z ← st_lift (f x y);
  st_alloc z.

(** ** The numpy calls of the two analyses *)

(** [np.abs(a)] on [int16] *)
Definition st_np_abs16 : nat -> ST nat :=
  st_unary as_int16 (fun a => Ok (A_int16 (map np_abs16 a))).
(** [a ** 2] on [int16] *)
Definition st_np_square16 : nat -> ST nat :=
  st_unary as_int16 (fun a => Ok (A_int16 (map np_square16 a))).
(** [a != 0] *)
Definition st_np_ne0 : nat -> ST nat :=
  st_unary as_int16 (fun a => Ok (A_bool (map (fun x => negb (x =? 0)%Z) a))).
(** [a[mask]] on [int16] *)
Definition st_np_mask16 : nat -> nat -> ST nat :=
  st_binary as_int16 as_bool (fun a m => Ok (A_int16 (select m a))).
Definition st_np_max : nat -> ST Z := st_reduce as_int16 np_max.
Definition st_np_min : nat -> ST Z := st_reduce as_int16 np_min.
Definition st_np_mean : nat -> ST xreal :=
  st_reduce as_int16 (fun a => Ok (np_mean a)).

(** [np.fft.fft(a)] *)
Definition st_np_fft : nat -> ST nat :=
  st_unary as_int16 (fun a => r ← np_fft a; Ok (A_complex128 r)).
(** [np.abs(a)] on [complex128] *)
Definition st_np_cabs : nat -> ST nat :=
  st_unary as_complex128 (fun a => Ok (A_float64 (map cabs a))).
(** [len(a)] *)
Definition st_len_complex128 : nat -> ST nat :=
  st_reduce as_complex128 (fun a => Ok (length a)).
Definition st_len_intp : nat -> ST nat :=
  st_reduce as_intp (fun a => Ok (length a)).
(** [a > 0] *)
Definition st_np_gt0 : nat -> ST nat :=
  st_unary as_float64 (fun a => Ok (A_bool (map (fun f => Rltb 0 f) a))).
(** [a[mask]] on [float64] *)
Definition st_np_mask64 : nat -> nat -> ST nat :=
  st_binary as_float64 as_bool (fun a m => Ok (A_float64 (select m a))).
Definition st_np_max_float : nat -> ST R := st_reduce as_float64 np_max_float.
(** [signal.find_peaks(a, height=h)[0]] *)
Definition st_find_peaks (h : R) : nat -> ST nat :=
  st_unary as_float64 (fun a => Ok (A_intp (find_peaks Rltb a h))).
(** [a[idx]] *)
Definition st_np_take : nat -> nat -> ST nat :=
  st_binary as_float64 as_intp (fun a idx => Ok (A_float64 (take_indices a idx))).
(** [np.argsort(a)] *)
Definition st_np_argsort : nat -> ST nat :=
  st_unary as_float64 (fun a => Ok (A_intp (np_argsort Rltb a))).
(** [a[::-1]] *)
Definition st_np_reverse : nat -> ST nat :=
  st_unary as_intp (fun a => Ok (A_intp (rev a))).

(** ** The analyses over the store *)

(** [wave_to_db] with its argument held in the store. *)
Definition wave_to_db_st (waveform : nat) : ST xreal :=
  sq_amplitude ← st_np_square16 waveform;
  mean_squared_amplitude ← st_np_mean sq_amplitude;
  mret (xscale 10 (np_log10 (xdivc mean_squared_amplitude micro))).

Definition wave_to_db_rms_st (waveform : nat) : ST xreal :=
  squared ← st_np_square16 waveform;
  sq_amplitude ← st_np_mean squared;
  let rms_value := np_sqrt sq_amplitude in
  mret (xscale 20 (np_log10 (xdivc rms_value micro))).

Definition detect_db_range_st (waveform : nat) : ST db_range :=
  magnitudes ← st_np_abs16 waveform;
  max_amplitude ← st_np_max magnitudes;
  mask ← st_np_ne0 waveform;
  selected ← st_np_mask16 waveform mask;
  magnitudes' ← st_np_abs16 selected;
  min_amplitude ← st_np_min magnitudes';
  let max_db := amplitude_db max_amplitude in
  let min_db := amplitude_db min_amplitude in
  let dynamic_range :=
    match min_db with
    | NInf => Fin 0
    | _ => xsub max_db min_db
    end in
  mret (mk_db_range max_db min_db dynamic_range).

Definition analyze_audio_levels_st (waveform : nat) : ST audio_levels :=
  t1 ← st_np_abs16 waveform;
  max_amplitude ← st_np_max t1;
  t2 ← st_np_abs16 waveform;
  min_amplitude ← st_np_min t2;
  t3 ← st_np_abs16 waveform;
  mean_amplitude ← st_np_mean t3;
  avg_db ← wave_to_db_st waveform;
  rms_db ← wave_to_db_rms_st waveform;
  db_range ← detect_db_range_st waveform;
  mret (mk_audio_levels max_amplitude min_amplitude mean_amplitude
          avg_db rms_db db_range).

Definition detect_harmonics_st (waveform : nat) (sample_rate : Z)
    (num_harmonics : nat) : ST (list harmonic) :=
  fft ← st_np_fft waveform;
  n ← st_len_complex128 fft;
  d ← st_lift (py_inv sample_rate);
  freqs ← st_alloc (A_float64 (np_fftfreq n d));
  magnitude ← st_np_cabs fft;
  positive_mask ← st_np_gt0 freqs;
  freqs ← st_np_mask64 freqs positive_mask;
  magnitude ← st_np_mask64 magnitude positive_mask;
  max_magnitude ← st_np_max_float magnitude;
  peaks ← st_find_peaks (max_magnitude * (/ 100))%R magnitude;
  n_peaks ← st_len_intp peaks;
  if (n_peaks =? 0)%nat then mret []
  else
    peak_magnitudes ← st_np_take magnitude peaks;
    sorted ← st_np_argsort peak_magnitudes;
    sorted_indices ← st_np_reverse sorted;
    order ← st_reduce as_intp Ok sorted_indices;
    peaks_v ← st_reduce as_intp Ok peaks;
    freqs_v ← st_reduce as_float64 Ok freqs;
    peak_magnitudes_v ← st_reduce as_float64 Ok peak_magnitudes;
    mret (omap (fun i =>
                  p ← peaks_v !! i;
                  freq ← freqs_v !! p;
                  pm ← peak_magnitudes_v !! i;
                  Some (mk_harmonic freq (relative_db pm max_magnitude)))
               (firstn num_harmonics order)).

(** [m] run from [s] grows the store without touching what is in it, and its
    outcome and final store satisfy [P]. *)
Definition st_spec {A : Type} (s : store) (m : ST A)
    (P : result A -> store -> Prop) : Prop :=
  exists (r : result A) (s' : store),
    run_st m s = (r, s') /\ s ⊆ s' /\ P r s'.

(** Two stores that hold the same three-sample waveform at different
    addresses, the second next to another object. *)
Definition store_one : store := {[ 0%nat := A_int16 [3; -4; 0]%Z ]}.
Definition store_two : store :=
  <[ 7%nat := A_int16 [3; -4; 0]%Z ]> {[ 2%nat := A_bool [true] ]}.

(** A one-frame 16-bit mono file holding digital silence. *)
Definition wav_silence : Wave_read :=
  mk_Wave_read 1 2 8000 1 [Byte.x00; Byte.x00].


(* ===================================================================== *)
(** * Further vocabulary *)
(* ===================================================================== *)

(** [x[a] <= x[b]], with both indices in range. *)
Definition le_at (x : list R) (a b : nat) : Prop :=
  exists va vb : R, x !! a = Some va /\ x !! b = Some vb /\ (va <= vb)%R.

(** The events of a run that concern the WAV file: the attempts to open it
    and the calls of [close] that the program makes. *)
Definition file_events (t : list event) : list event :=
  List.filter (fun ev => match ev with
                         | Wave_open _ | Wave_close => true
                         | _ => false
                         end) t.

(** The waveform that [load_wave_data] builds from the decoded samples. *)
Definition first_channel (f : Wave_read) (audio : list Z) : list Z :=
  if (nchannels f =? 1)%Z then audio else stride 2 audio.

(* ===================================================================== *)
(** * [sound_analysis/audio_processing.py]: physics helpers *)
(* ===================================================================== *)

Open Scope R_scope.

(** [calculate_speed_of_sound(temperature_celsius=20, medium='air')]; the
    temperature is a Python number, the media are compared as strings. *)
Definition calculate_speed_of_sound (temperature_celsius : R)
    (medium : string) : xreal :=
  if String.eqb medium "air" then
    xscale (3313 / 10) (np_sqrt (Fin (1 + temperature_celsius / (27315 / 100))))
  else if String.eqb medium "water" then
    Fin (1403 + 47 / 10 * temperature_celsius)
  else if String.eqb medium "steel" then Fin 5960
  else if String.eqb medium "aluminum" then Fin 6420
  else if String.eqb medium "glass" then Fin 5640
  else Fin 343.

(** [int(x)] on a finite Python float: truncation towards zero. *)
Definition py_int_of_float (x : R) : Z :=
  if Rle_dec 0 x then Int_part x else (- Int_part (- x))%Z.

(** [x.astype(np.int16)] on a [float64] element: truncation towards zero;
    values outside the [int16] range are taken to wrap around (the C
    conversion leaves them unspecified). *)
Definition astype_int16 (x : R) : Z := wrap16 (py_int_of_float x).

(** [str(n)] on a Python integer. *)
Definition str_int (n : Z) : string := NilZero.string_of_int (Z.to_int n).

(** [np.linspace(0, stop, num, endpoint=False)]: [num] points [i * stop / num];
    a negative [num] raises. *)
Definition np_linspace_open (stop : R) (num : Z) : result (list R) :=
  if (num <? 0)%Z
  then Raise (ValueError ("Number of samples, " +:+ str_int num
                          +:+ ", must be non-negative."))
  else Ok (map (fun i => INR i * (stop / IZR num)) (seq 0 (Z.to_nat num))).

Section SyntheticWave.

(** [scipy.signal.square] and [scipy.signal.sawtooth] are library code and
    parameters of the embedding; the second argument of [signal_sawtooth] is
    its [width]. *)
Variable signal_square : R -> R.
Variable signal_sawtooth : R -> R -> R.

(** [generate_synthetic_wave(wave_type, frequency, duration,
    sample_rate=44100, amplitude=0.8)] *)
Definition generate_synthetic_wave (wave_type : string)
    (frequency duration : R) (sample_rate : Z) (amplitude : R)
    : result (list Z * Z) :=
  t ← np_linspace_open duration
         (py_int_of_float (IZR sample_rate * duration));
  let phase := map (fun ti => 2 * PI * frequency * ti) t in
  let wave :=
    if String.eqb wave_type "sine" then map sin phase
    else if String.eqb wave_type "square" then map signal_square phase
    else if String.eqb wave_type "sawtooth"
         then map (fun x => signal_sawtooth x 1) phase
    else if String.eqb wave_type "triangle"
         then map (fun x => signal_sawtooth x (1 / 2)) phase
    else map sin phase in
  let wave := map (fun x => x * amplitude) wave in
  let wave_int16 := map (fun x => astype_int16 (x * 32767)) wave in
  Ok (wave_int16, sample_rate).

End SyntheticWave.

Close Scope R_scope.

(* ===================================================================== *)
(** * [sound_analysis/tools.py]: the menus of the command-line tool *)
(* ===================================================================== *)

(** ** Strings

    [str.lower] and [str.endswith] on the bytes of a string.  Only the ASCII
    letters are lowered; no character outside ASCII lowers to one of the
    ASCII characters that the code compares with. *)
Definition ascii_lower (c : ascii) : ascii :=
  let n := nat_of_ascii c in
  if (65 <=? n)%nat && (n <=? 90)%nat then ascii_of_nat (n + 32) else c.

Fixpoint str_lower (s : string) : string :=
  match s with
  | EmptyString => EmptyString
  | String c s' => String (ascii_lower c) (str_lower s')
  end.

Definition str_endswith (s suffix : string) : bool :=
  (String.length suffix <=? String.length s)%nat
  && String.eqb (String.substring (String.length s - String.length suffix)
                   (String.length suffix) s)
                suffix.

(** [l[i]] with Python's negative indices; [None] stands for [IndexError]. *)
Definition py_getitem {A : Type} (l : list A) (i : Z) : option A :=
  if (0 <=? i)%Z then l !! Z.to_nat i
  else if (- Z.of_nat (length l) <=? i)%Z
       then l !! Z.to_nat (Z.of_nat (length l) + i)
       else None.

(** [a % b] on Python integers; [None] stands for [ZeroDivisionError]. *)
Definition py_mod (a b : Z) : option Z :=
  if (b =? 0)%Z then None else Some (a mod b)%Z.

(** ** What the user does and sees *)

(** [event.event_type] of the [keyboard] library. *)
Inductive key_event_type : Type := KEY_DOWN | KEY_UP.

(** What [keyboard.read_event()] delivers: a key event, or a
    [KeyboardInterrupt] raised while it waits. *)
Inductive key_input : Type :=
  | Key_event (event_type : key_event_type) (name : string)
  | Keyboard_interrupt.

(** The lines the menus print, with the values they format;
    [M_clear_screen] is the call of [os.system] that clears the terminal. *)
Inductive menu_line : Type :=
  | M_no_wav_files
  | M_please_add_files
  | M_clear_screen
  | M_available_files
  | M_rule (width : nat)
  | M_blank_rule (width : nat)
  | M_help_files
  | M_entry (highlighted : bool) (text : string)
  | M_selected (text : string)
  | M_chosen (text : string)
  | M_numbered (i : nat) (text : string)
  | M_prompt_file (n : nat)
  | M_range_error (n : nat)
  | M_invalid_number
  | M_analysis_options
  | M_help_options
  | M_prompt_option
  | M_invalid_option
  | M_enter_valid_option
  | M_welcome
  | M_analyzing (filename : string)
  | M_goodbye.

(** What a call of [input(prompt)] delivers: a line of the standard input
    (without its newline), a [UnicodeDecodeError] (a [ValueError]) when the
    bytes read do not decode, an [EOFError] when the standard input has
    ended, or a [KeyboardInterrupt] raised while it waits. *)
Inductive line_input : Type :=
  | Input_line (line : string)
  | Input_undecodable
  | End_of_file
  | Input_interrupt.

(** The exceptions that can leave a menu: they are not caught there. *)
Inductive menu_error : Type :=
  | E_IndexError
  | E_ZeroDivisionError
  | E_EOFError
  | E_KeyboardInterrupt
  | E_listdir (e : exn).

(** How an interaction ends: the function returns (leaving the input it has
    not read), an exception leaves it, or it waits for input that does not
    come. *)
Inductive interaction (I A : Type) : Type :=
  | Returned (a : A) (rest : I)
  | Raised (e : menu_error)
  | Waiting.
Arguments Returned {I A} a rest.
Arguments Raised {I A} e.
Arguments Waiting {I A}.

(** A run of a menu: what was printed, and how it ended. *)
Definition menu_run (I A : Type) : Type :=
  (list menu_line * interaction I A)%type.

(** The lines [lines] are printed before the run [r]. *)
Definition after_printing {I A : Type} (lines : list menu_line)
    (r : menu_run I A) : menu_run I A :=
  (lines ++ fst r, snd r).

(** The input still to come: the keyboard events, and what the calls of
    [input] deliver.  When a list is used up, the next read waits: the user
    has not typed anything more. *)
Definition console : Type := (list key_input * list line_input)%type.

(** A run that reads one of the two inputs, seen as a run on both. *)
Definition on_console {I A : Type} (whole : I -> console) (r : menu_run I A)
    : menu_run console A :=
  (fst r,
   match snd r with
   | Returned a rest => Returned a (whole rest)
   | Raised e => Raised e
   | Waiting => Waiting
   end).

(** The entries of [options_list] in [get_analysis_options]. *)
Record analysis_option : Type := mk_analysis_option {
  option_name : string;
  option_show_plots : bool;
  option_save_figures : bool
}.

Definition options_list : list analysis_option :=
  [ mk_analysis_option "Standard analysis (waveform + spectrogram)" true false;
    mk_analysis_option "Save figures to files" true true;
    mk_analysis_option "Analysis only (no plots)" false false ].

Section Menus.

(** The directory [data], the [os.path] functions and two built-ins are
    parameters: [os_listdir] may raise, [str_strip] is [str.strip] and
    [py_int_of_string] is [int] on a string ([None] for [ValueError]). *)
Variable os_path_exists : string -> bool.
Variable os_listdir : string -> result (list string).
Variable os_path_join : string -> string -> string.
Variable str_strip : string -> string.
Variable py_int_of_string : string -> option Z.

(** [list_wav_files()] *)
Definition list_wav_files : result (list string) :=
  let data_dir := "data"%string in
  if os_path_exists data_dir then
    files ← os_listdir data_dir;
    Ok (List.filter (fun file => str_endswith (str_lower file) ".wav") files)
  else Ok [].

(** [display_menu()] of [select_wav_file], for the current value of
    [selected_index]: the lines printed, and the exception raised by
    [wav_files[selected_index]], if any. *)
Definition display_menu (wav_files : list string) (selected_index : Z)
    : list menu_line * option menu_error :=
  let lines :=
    [M_clear_screen; M_available_files; M_rule 50; M_help_files; M_rule 50]
    ++ imap (fun i file => M_entry (Z.of_nat i =? selected_index)%Z file)
         wav_files
    ++ [M_blank_rule 50] in
  match py_getitem wav_files selected_index with
  | Some file => (lines ++ [M_selected file], None)
  | None => (lines, Some E_IndexError)
  end.

(** The [while True] loop of the keyboard branch of [select_wav_file]. *)
Fixpoint select_wav_file_loop (wav_files : list string) (selected_index : Z)
    (keys : list key_input) : menu_run (list key_input) (option string) :=
  match keys with
  | [] => ([], Waiting)
  | Keyboard_interrupt :: rest => ([], Returned None rest)
  | Key_event KEY_UP _ :: rest =>
      select_wav_file_loop wav_files selected_index rest
  | Key_event KEY_DOWN name :: rest =>
      let move (delta : Z) :=
        match py_mod (selected_index + delta) (Z.of_nat (length wav_files))
        with
        | None => ([], Raised E_ZeroDivisionError)
        | Some i =>
            match display_menu wav_files i with
            | (lines, Some e) => (lines, Raised e)
            | (lines, None) =>
                after_printing lines (select_wav_file_loop wav_files i rest)
            end
        end in
      if String.eqb name "up" then move (-1)%Z
      else if String.eqb name "down" then move 1%Z
      else if String.eqb name "enter" then
        match py_getitem wav_files selected_index with
        | None => ([], Raised E_IndexError)
        | Some selected_file =>
            ([M_chosen selected_file],
             Returned (Some (os_path_join "data" selected_file)) rest)
        end
      else if String.eqb name "q" then ([], Returned None rest)
      else if String.eqb name "esc" then ([], Returned None rest)
      else select_wav_file_loop wav_files selected_index rest
  end.

(** The [while True] loop of the branch of [select_wav_file] that reads
    numbers with [input].  Its clause [except ValueError] catches the error
    of [int(choice)] and the decoding error of [input]: [EOFError] and
    [KeyboardInterrupt] leave the function. *)
Fixpoint select_wav_file_by_number (wav_files : list string)
    (stdin : list line_input) : menu_run (list line_input) (option string) :=
  match stdin with
  | [] => ([M_prompt_file (length wav_files)], Waiting)
  | End_of_file :: _ =>
      ([M_prompt_file (length wav_files)], Raised E_EOFError)
  | Input_interrupt :: _ =>
      ([M_prompt_file (length wav_files)], Raised E_KeyboardInterrupt)
  | Input_undecodable :: rest =>
      after_printing [M_prompt_file (length wav_files); M_invalid_number]
        (select_wav_file_by_number wav_files rest)
  | Input_line line :: rest =>
      let choice := str_strip line in
      after_printing [M_prompt_file (length wav_files)]
        (if String.eqb (str_lower choice) "q" then ([], Returned None rest)
         else
           match py_int_of_string choice with
           | None =>
               after_printing [M_invalid_number]
                 (select_wav_file_by_number wav_files rest)
           | Some choice_num =>
               if (1 <=? choice_num)%Z
                  && (choice_num <=? Z.of_nat (length wav_files))%Z
               then
                 match py_getitem wav_files (choice_num - 1) with
                 | None => ([], Raised E_IndexError)
                 | Some selected_file =>
                     ([], Returned (Some (os_path_join "data" selected_file))
                            rest)
                 end
               else
                 after_printing [M_range_error (length wav_files)]
                   (select_wav_file_by_number wav_files rest)
           end)
  end.

(** [select_wav_file()]; [keyboard_available] tells whether the [keyboard]
    module could be imported. *)
Definition select_wav_file (keyboard_available : bool) (input : console)
    : menu_run console (option string) :=
  match list_wav_files with
  | Raise e => ([], Raised (E_listdir e))
  | Ok wav_files =>
      match wav_files with
      | [] => ([M_no_wav_files; M_please_add_files], Returned None input)
      | _ :: _ =>
          if negb keyboard_available then
            after_printing
              ([M_available_files; M_rule 30]
               ++ imap (fun i file => M_numbered (i + 1) file) wav_files)
              (on_console (fun rest => (fst input, rest))
                 (select_wav_file_by_number wav_files (snd input)))
          else
            let selected_index := 0%Z in
            match display_menu wav_files selected_index with
            | (lines, Some e) => (lines, Raised e)
            | (lines, None) =>
                after_printing lines
                  (on_console (fun rest => (rest, snd input))
                     (select_wav_file_loop wav_files selected_index
                        (fst input)))
            end
      end
  end.

(** The [while True] loop of the branch of [get_analysis_options] that
    reads a number with [input].  Its clause [except ValueError] catches
    the decoding error of [input] only: [EOFError] and [KeyboardInterrupt]
    leave the function. *)
Fixpoint get_analysis_options_by_number (stdin : list line_input)
    : menu_run (list line_input) analysis_option :=
  let pick (i : Z) (rest : list line_input)
      : menu_run (list line_input) analysis_option :=
    match py_getitem options_list i with
    | Some option => ([], Returned option rest)
    | None => ([], Raised E_IndexError)
    end in
  match stdin with
  | [] => ([M_prompt_option], Waiting)
  | End_of_file :: _ => ([M_prompt_option], Raised E_EOFError)
  | Input_interrupt :: _ => ([M_prompt_option], Raised E_KeyboardInterrupt)
  | Input_undecodable :: rest =>
      after_printing [M_prompt_option; M_enter_valid_option]
        (get_analysis_options_by_number rest)
  | Input_line line :: rest =>
      let choice := str_strip line in
      after_printing [M_prompt_option]
        (match choice with
         | EmptyString => pick 0%Z rest
         | _ =>
             if String.eqb choice "1" then pick 0%Z rest
             else if String.eqb choice "2" then pick 1%Z rest
             else if String.eqb choice "3" then pick 2%Z rest
             else
               after_printing [M_invalid_option]
                 (get_analysis_options_by_number rest)
         end)
  end.

End Menus.

(** ** [get_analysis_options] *)


(** [display_options_menu()] of [get_analysis_options]. *)
Definition display_options_menu (selected_index : Z)
    : list menu_line * option menu_error :=
  let lines :=
    [M_clear_screen; M_analysis_options; M_rule 50; M_help_options; M_rule 50]
    ++ imap (fun i option =>
               M_entry (Z.of_nat i =? selected_index)%Z (option_name option))
         options_list
    ++ [M_blank_rule 50] in
  match py_getitem options_list selected_index with
  | Some option => (lines ++ [M_selected (option_name option)], None)
  | None => (lines, Some E_IndexError)
  end.

(** The [while True] loop of the keyboard branch of [get_analysis_options]. *)
Fixpoint get_analysis_options_loop (selected_index : Z)
    (keys : list key_input) : menu_run (list key_input) analysis_option :=
  let default (rest : list key_input)
      : menu_run (list key_input) analysis_option :=
    match py_getitem options_list 0 with
    | Some option => ([], Returned option rest)
    | None => ([], Raised E_IndexError)
    end in
  match keys with
  | [] => ([], Waiting)
  | Keyboard_interrupt :: rest => default rest
  | Key_event KEY_UP _ :: rest => get_analysis_options_loop selected_index rest
  | Key_event KEY_DOWN name :: rest =>
      let move (delta : Z) :=
        match py_mod (selected_index + delta) (Z.of_nat (length options_list))
        with
        | None => ([], Raised E_ZeroDivisionError)
        | Some i =>
            match display_options_menu i with
            | (lines, Some e) => (lines, Raised e)
            | (lines, None) =>
                after_printing lines (get_analysis_options_loop i rest)
            end
        end in
      if String.eqb name "up" then move (-1)%Z
      else if String.eqb name "down" then move 1%Z
      else if String.eqb name "enter" then
        match py_getitem options_list selected_index with
        | None => ([], Raised E_IndexError)
        | Some selected_option =>
            ([M_chosen (option_name selected_option)],
             Returned selected_option rest)
        end
      else if String.eqb name "esc" then default rest
      else get_analysis_options_loop selected_index rest
  end.

(** [get_analysis_options()]; [str_strip] is [str.strip]. *)
Definition get_analysis_options (str_strip : string -> string)
    (keyboard_available : bool) (input : console)
    : menu_run console analysis_option :=
  if negb keyboard_available then
    after_printing
      ([M_analysis_options]
       ++ imap (fun i option => M_numbered (i + 1) (option_name option))
            options_list)
      (on_console (fun rest => (fst input, rest))
         (get_analysis_options_by_number str_strip (snd input)))
  else
    let selected_index := 0%Z in
    match display_options_menu selected_index with
    | (lines, Some e) => (lines, Raised e)
    | (lines, None) =>
        after_printing lines
          (on_console (fun rest => (rest, snd input))
             (get_analysis_options_loop selected_index (fst input)))
    end.

(* ===================================================================== *)
(** * [main.py] *)
(* ===================================================================== *)

(** How [main] ends: after the analysis of the selected file with the
    selected options (whose run is recorded), after the goodbye line, with
    an exception of a menu, or waiting for input. *)
Inductive main_end : Type :=
  | Analysed (selected_file : string) (options : analysis_option)
             (run : IO (option analysis))
  | Goodbye
  | Main_raised (e : menu_error)
  | Main_waiting.

(** [main()]: the lines printed outside [perform_complete_analysis], and how
    the run ends.  A selected file that is [None] or the empty string is
    falsy. *)
Definition main (env : environment)
    (os_path_exists : string -> bool)
    (os_listdir : string -> result (list string))
    (str_strip : string -> string)
    (py_int_of_string : string -> option Z)
    (keyboard_available : bool) (input : console)
    : list menu_line * main_end :=
  let selection :=
    select_wav_file os_path_exists os_listdir (os_path_join env) str_strip
      py_int_of_string keyboard_available input in
  let printed := [M_welcome; M_rule 40] ++ fst selection in
  match snd selection with
  | Raised e => (printed, Main_raised e)
  | Waiting => (printed, Main_waiting)
  | Returned (Some (String c s)) rest =>
      let selected_file := String c s in
      let printed :=
        printed ++ [M_analyzing (os_path_basename env selected_file)] in
      let chosen := get_analysis_options str_strip keyboard_available rest in
      let printed := printed ++ fst chosen in
      match snd chosen with
      | Raised e => (printed, Main_raised e)
      | Waiting => (printed, Main_waiting)
      | Returned options _ =>
          (printed,
           Analysed selected_file options
             (perform_complete_analysis env selected_file
                (option_show_plots options) (option_save_figures options)))
      end
  | Returned _ _ => (printed ++ [M_goodbye], Goodbye)
  end.

(* ===================================================================== *)
(** * [sound_analysis/audio_processing.py]: conversion of an upload *)
(* ===================================================================== *)

(** ** Temporary files

    The file system is the set of the paths that exist; a computation on it
    returns a value or raises, and leaves a file system. *)
Inductive FS (A : Type) : Type :=
  | mkFS (run : gset string -> result A * gset string).
Arguments mkFS {A} run.

Definition run_fs {A : Type} (m : FS A) (files : gset string)
    : result A * gset string :=
  match m with mkFS f => f files end.

#[global] Instance FS_ret : MRet FS := fun A a => mkFS (fun files => (Ok a, files)).
#[global] Instance FS_bind : MBind FS := fun A B k m =>
  mkFS (fun files =>
          match run_fs m files with
          | (Ok a, files') => run_fs (k a) files'
          | (Raise e, files') => (Raise e, files')
          end).

Definition fs_lift {A : Type} (r : result A) : FS A :=
  mkFS (fun files => (r, files)).

(** [try: body / except Exception as e: handler e]; an exception that is
    not derived from [Exception] passes through. *)
Definition fs_try {A : Type} (body : FS A) (handler : exn -> FS A) : FS A :=
  mkFS (fun files =>
          match run_fs body files with
          | (Ok a, files') => (Ok a, files')
          | (Raise e, files') =>
              if is_Exception e then run_fs (handler e) files'
              else (Raise e, files')
          end).

(** [os.path.exists(path)] *)
Definition fs_exists (path : string) : FS bool :=
  mkFS (fun files => (Ok (bool_decide (path ∈ files)), files)).

(** [os.unlink(path)]: raises [FileNotFoundError] on a missing file. *)
Definition fs_unlink (path : string) : FS unit :=
  mkFS (fun files =>
          if bool_decide (path ∈ files)
          then (Ok tt, files ∖ {[ path ]})
          else (Raise (OSError ("[Errno 2] No such file or directory: '"
                                +:+ path +:+ "'")),
                files)).

(** How [convert_audio_to_wav] ends: with the path of a WAV file, with the
    [ImportError] of its first lines, or with another exception. *)
Inductive conversion : Type :=
  | Converted (path : string)
  | Import_error (message : string)
  | Conversion_failed (e : exn).

Section Conversion.

(** Outside the program: the name that [tempfile.NamedTemporaryFile] picks
    for a suffix in a file system (or the exception it raises), the outcome
    of writing the upload, and pydub's decoding and export. *)
Variable tmp_create : gset string -> string -> result string.
Variable write_upload : string -> result unit.
Variable audio : Type.
Variable from_mp3 : string -> result audio.
Variable from_file : string -> option string -> result audio.
Variable export : audio -> string -> result unit.

(** [with tempfile.NamedTemporaryFile(delete=False, suffix=suffix) as f]:
    the file exists from then on. *)
Definition named_temporary_file (suffix : string) : FS string :=
  mkFS (fun files =>
          match tmp_create files suffix with
          | Ok path => (Ok path, files ∪ {[ path ]})
          | Raise e => (Raise e, files)
          end).

(** [convert_audio_to_wav(uploaded_file, file_extension)];
    [pydub_available] is the module constant [PYDUB_AVAILABLE]. *)
Definition convert_audio_to_wav (pydub_available : bool)
    (file_extension : string) (files : gset string)
    : conversion * gset string :=
  if negb pydub_available && negb (String.eqb file_extension ".wav")
  then (Import_error
          "pydub is required for MP3/FLAC support. Install with: pip install pydub",
        files)
  else
    let run :=
      tmp_input_path ← named_temporary_file file_extension;
      fs_lift (write_upload tmp_input_path);;
      fs_try
        (if String.eqb file_extension ".wav" then mret tmp_input_path
         else
           audio ←
             fs_lift
               (if String.eqb file_extension ".mp3"
                then from_mp3 tmp_input_path
                else if String.eqb file_extension ".flac"
                     then from_file tmp_input_path (Some "flac"%string)
                     else from_file tmp_input_path None);
           tmp_output_path ← named_temporary_file ".wav";
           fs_lift (export audio tmp_output_path);;
           fs_unlink tmp_input_path;;
           mret tmp_output_path)
        (fun e =>
           present ← fs_exists tmp_input_path;
           (if present : bool then fs_unlink tmp_input_path else mret tt);;
           fs_lift (Raise (Exception_ ("Error converting audio: " +:+ str e))))
    in
    match run_fs run files with
    | (Ok path, files') => (Converted path, files')
    | (Raise e, files') => (Conversion_failed e, files')
    end.

End Conversion.

(* ===================================================================== *)
(** * [sound_analysis/visualization.py]: the data of the frequency plot *)
(* ===================================================================== *)

(** Lines 50 to 59 of [plot_frequency_analysis] (they occur again in
    [plot_combined_analysis]): the transform, its frequency axis, the slices
    [freqs[:len(freqs)//2]] and [magnitude[:len(magnitude)//2]], and the
    ordinate [20 * np.log10(positive_magnitude + 1e-10)] handed to
    [plt.plot]. *)
Definition plot_frequency_analysis_data (waveform : list Z) (sample_rate : Z)
    : result (list R * list xreal) :=
  fft ← np_fft waveform;
  d ← py_inv sample_rate;
  let freqs := np_fftfreq (length fft) d in
  let magnitude := map cabs fft in
  let positive_freqs := take (length freqs / 2) freqs in
  let positive_magnitude := take (length magnitude / 2) magnitude in
  Ok (positive_freqs,
      map (fun m => xscale 20 (np_log10 (Fin (m + / 10000000000)%R)))
        positive_magnitude).

(* ===================================================================== *)
(** * [streamlit_app.py]: the analysis behind the dashboard *)
(* ===================================================================== *)

(** The dictionary that [analyze_audio] returns. *)
Record dashboard_results : Type := mk_dashboard_results {
  res_file_info : wave_info;
  res_audio_levels : audio_levels;
  res_figures : list (string * Figure);
  res_waveform : list Z;
  res_sample_rate : Z;
  res_duration : Q;
  res_harmonics : list harmonic;
  res_wav_path : string
}.

Section Dashboard.

Variable env : environment.
Variable signal_spectrogram :
  list Z -> Z -> nat -> nat -> result (nat * nat).
Variable signal_welch : list Z -> Z -> nat -> result nat.

(** [if os.path.exists(path): os.unlink(path)]: the removal of the
    temporary file, which may raise; it leaves no event in the trace. *)
Variable remove_if_exists : string -> result unit.

(** [analyze_audio(uploaded_file)].  [filename] is [uploaded_file.name] and
    [converted] is the outcome of the call of [convert_audio_to_wav] on the
    upload: the path of a temporary WAV file, or an exception. *)
Definition analyze_audio (filename : string) (converted : result string)
    : IO dashboard_results :=
  tmp_path ← io_lift converted;
  try_except
    (file_info ← get_wave_info env tmp_path;
     wave_data ← load_wave_data env tmp_path;
     let waveform := wd_waveform wave_data in
     let sample_rate := wd_sample_rate wave_data in
     let duration := wd_duration wave_data in
     emit (Call F_analyze_audio_levels);;
     audio_levels ← io_lift (analyze_audio_levels waveform);
     emit (Call F_detect_harmonics);;
     harmonics ← io_lift (detect_harmonics waveform sample_rate 10);
     figures ← io_lift (create_all_visualizations signal_spectrogram
                          signal_welch waveform sample_rate duration
                          filename);
     mret (mk_dashboard_results file_info audio_levels figures waveform
             sample_rate duration harmonics tmp_path))
    (fun e => io_lift (remove_if_exists tmp_path);; io_raise e).

End Dashboard.

(** The calls of the dashboard pipeline, in order. *)
Definition dashboard_pipeline : list func :=
  [F_get_wave_info; F_load_wave_data; F_analyze_audio_levels;
   F_detect_harmonics].


(** ** Vocabulary of the statements about the menus *)

(** A key event that moves the selection or does nothing: a key release, or
    the press of a key other than [enter], [q] and [esc]. *)
Definition navigation_key (k : key_input) : bool :=
  match k with
  | Key_event KEY_UP _ => true
  | Key_event KEY_DOWN name =>
      negb (String.eqb name "enter") && negb (String.eqb name "q")
      && negb (String.eqb name "esc")
  | Keyboard_interrupt => false
  end.

(** The number of presses of [down] minus the number of presses of [up]. *)
Fixpoint arrow_offset (keys : list key_input) : Z :=
  match keys with
  | [] => 0
  | Key_event KEY_DOWN name :: rest =>
      ((if String.eqb name "up" then -1
        else if String.eqb name "down" then 1 else 0)
       + arrow_offset rest)%Z
  | _ :: rest => arrow_offset rest
  end.


(* ===================================================================== *)
(** * Running the definitions *)
(* ===================================================================== *)

(** [int16] arithmetic wraps: [200 ** 2] and [abs(-32768)]. *)
Example np_square16_overflow : np_square16 200 = (-25536)%Z.
Proof. reflexivity. Qed.

Example np_abs16_overflow : map np_abs16 [-32768; -5; 7]%Z = [-32768; 5; 7]%Z.
Proof. reflexivity. Qed.

Example np_max_abs : np_max (map np_abs16 [3; -9; 4]%Z) = Ok 9%Z.
Proof. reflexivity. Qed.

Example np_min_empty : np_min (nonzero [0; 0]%Z) = Raise (ValueError zero_size_min).
Proof. reflexivity. Qed.

Example normalize_waveform_run :
  normalize_waveform [3; -6]%Z = Ok (Float64Array [3 # 6; -6 # 6]%Q).
Proof. reflexivity. Qed.

(** [np.fft.fftfreq] bin numbers for an even and an odd length. *)
Example fftfreq_bins_8 : fftfreq_bins 8 = [0; 1; 2; 3; -4; -3; -2; -1]%Z.
Proof. reflexivity. Qed.

Example fftfreq_bins_5 : fftfreq_bins 5 = [0; 1; 2; -2; -1]%Z.
Proof. reflexivity. Qed.

(** [find_peaks]: strict local maxima, the middle of a flat top, never the
    first or last sample, and the height threshold. *)
Example find_peaks_lines :
  find_peaks Z.ltb [0; 0; 300; 0; 500; 300; 0]%Z 5%Z = [2; 4]%nat.
Proof. reflexivity. Qed.

Example find_peaks_flat_top : find_peaks Z.ltb [0; 2; 2; 2; 1]%Z 0%Z = [2]%nat.
Proof. reflexivity. Qed.

Example find_peaks_edges : find_peaks Z.ltb [5; 1; 1; 7]%Z 0%Z = [].
Proof. reflexivity. Qed.

Example find_peaks_height : find_peaks Z.ltb [0; 1; 0; 9; 0]%Z 2%Z = [3]%nat.
Proof. reflexivity. Qed.

Example np_argsort_run : np_argsort Z.ltb [30; 10; 20; 10]%Z = [1; 3; 2; 0]%nat.
Proof. reflexivity. Qed.

(** Decoding and channel selection. *)
Example int16_pairs_run :
  int16_pairs [Byte.x01; Byte.x00; Byte.xff; Byte.xff; Byte.x00; Byte.x80]
  = [1; -1; -32768]%Z.
Proof. reflexivity. Qed.

Example stride_run : stride 2 [1; 2; 3; 4; 5]%Z = [1; 3; 5]%Z.
Proof. reflexivity. Qed.

Example frombuffer_odd :
  np_frombuffer_int16 [Byte.x01; Byte.x00; Byte.xff]
  = Raise (ValueError "buffer size must be a multiple of element size").
Proof. reflexivity. Qed.

(** The filters' guard, and the division before it. *)
Example lowpass_above_nyquist :
  apply_lowpass_filter unit (fun _ _ _ => Ok tt) (fun _ _ => Ok [])
    [1; 2; 3]%Z 8000 4000 5 = Ok [1; 2; 3]%Z.
Proof. reflexivity. Qed.

Example lowpass_below_nyquist_filters :
  apply_lowpass_filter unit (fun _ _ _ => Ok tt) (fun _ _ => Ok [])
    [1; 2; 3]%Z 8000 1000 5 = Ok [].
Proof. reflexivity. Qed.


(* ===================================================================== *)
(** * Decibel arithmetic *)
(* ===================================================================== *)

Section Decibels.

Open Scope R_scope.

Lemma micro_pos : 0 < micro.
Proof. unfold micro. lra. Qed.

Lemma ln_10_pos : 0 < ln 10.
Proof. rewrite <- ln_1. apply ln_increasing; lra. Qed.

Lemma ln_million : ln 1000000 = 6 * ln 10.
Proof.
  replace 1000000 with (10 ^ 6) by lra.
  rewrite ln_pow by lra. simpl INR. lra.
Qed.

Lemma ln_sqrt_half (m : R) : 0 < m -> ln (sqrt m) = ln m / 2.
Proof.
  intros Hm.
  assert (Hs : 0 < sqrt m) by (apply sqrt_lt_R0; exact Hm).
  assert (E : ln m = ln (sqrt m) + ln (sqrt m)).
  { rewrite <- ln_mult by assumption. rewrite sqrt_sqrt by lra. reflexivity. }
  lra.
Qed.

(** [log10 (x / 1e-6) = log10 x + 6] *)
Lemma log10_over_micro (x : R) : 0 < x -> log10 (x / micro) = log10 x + 6.
Proof.
  intros Hx. unfold log10, micro.
  replace (x / / 1000000) with (x * 1000000) by (field; lra).
  rewrite ln_mult by lra. rewrite ln_million.
  pose proof ln_10_pos. field. lra.
Qed.

Lemma log10_sqrt (m : R) : 0 < m -> log10 (sqrt m) = log10 m / 2.
Proof.
  intros Hm. unfold log10. rewrite ln_sqrt_half by exact Hm.
  pose proof ln_10_pos. field. lra.
Qed.

Lemma log10_increasing (x y : R) : 0 < x -> x <= y -> log10 x <= log10 y.
Proof.
  intros Hx Hxy. unfold log10. pose proof ln_10_pos as H10.
  apply Rmult_le_compat_r; [left; apply Rinv_0_lt_compat; exact H10|].
  destruct Hxy as [Hlt|Heq]; [left; apply ln_increasing; assumption|].
  subst. right. reflexivity.
Qed.

Lemma np_log10_pos (r : R) : 0 < r -> np_log10 (Fin r) = Fin (log10 r).
Proof.
  intros Hr. unfold np_log10.
  destruct (total_order_T 0 r) as [[H|H]|H]; [reflexivity|lra|lra].
Qed.

Lemma np_log10_zero : np_log10 (Fin 0) = NInf.
Proof.
  unfold np_log10.
  destruct (total_order_T 0 0) as [[H|H]|H]; [lra|reflexivity|lra].
Qed.

Lemma np_sqrt_nonneg (r : R) : 0 <= r -> np_sqrt (Fin r) = Fin (sqrt r).
Proof.
  intros Hr. unfold np_sqrt. destruct (Rlt_dec r 0); [lra|reflexivity].
Qed.

(** The value of [wave_to_db] in terms of the mean squared amplitude. *)
Lemma wave_to_db_value (w : list Z) (m : R) :
  np_mean (map np_square16 w) = Fin m -> 0 < m ->
  wave_to_db w = Fin (10 * log10 m + 60).
Proof.
  intros Hmean Hm. unfold wave_to_db. rewrite Hmean. cbn [xdivc].
  pose proof micro_pos.
  rewrite np_log10_pos by (apply Rdiv_lt_0_compat; assumption).
  cbn [xscale]. rewrite log10_over_micro by exact Hm. f_equal. lra.
Qed.

(** The value of [wave_to_db_rms] in terms of the mean squared amplitude. *)
Lemma wave_to_db_rms_value (w : list Z) (m : R) :
  np_mean (map np_square16 w) = Fin m -> 0 < m ->
  wave_to_db_rms w = Fin (10 * log10 m + 120).
Proof.
  intros Hmean Hm. unfold wave_to_db_rms. rewrite Hmean.
  rewrite np_sqrt_nonneg by lra. cbn [xdivc].
  pose proof micro_pos.
  assert (Hs : 0 < sqrt m) by (apply sqrt_lt_R0; exact Hm).
  rewrite np_log10_pos by (apply Rdiv_lt_0_compat; assumption).
  cbn [xscale]. rewrite log10_over_micro by exact Hs.
  rewrite log10_sqrt by exact Hm. f_equal. lra.
Qed.

Lemma mean_square_one : np_mean (map np_square16 [1%Z]) = Fin 1.
Proof.
  unfold np_mean. cbn [map length].
  change (zsum [np_square16 1]) with 1%Z. cbn [INR]. f_equal. lra.
Qed.

End Decibels.

(** C3, as amended.  For every waveform whose mean squared amplitude is
    positive, [wave_to_db_rms] is finite and lies exactly 60 dB above
    [wave_to_db]: both divide by the same constant [1e-6], which the first
    applies to a power and the second to an amplitude. *)
Theorem wave_to_db_rms_is_wave_to_db_plus_60 (w : list Z) (m : R) :
  np_mean (map np_square16 w) = Fin m -> (0 < m)%R ->
  exists d : R, wave_to_db w = Fin d /\ wave_to_db_rms w = Fin (d + 60)%R.
Proof.
  intros Hmean Hm. exists (10 * log10 m + 60)%R. split.
  - apply wave_to_db_value; assumption.
  - rewrite (wave_to_db_rms_value w m Hmean Hm). f_equal. lra.
Qed.

Lemma wave_to_db_rms_is_wave_to_db_plus_60_witness :
  exists d : R, wave_to_db [1%Z] = Fin d /\ wave_to_db_rms [1%Z] = Fin (d + 60)%R.
Proof.
  apply (wave_to_db_rms_is_wave_to_db_plus_60 [1%Z] 1%R).
  - exact mean_square_one.
  - lra.
Defined.

(** C3, as stated, fails on the one-sample waveform [[1]]: its mean squared
    amplitude is 1, [wave_to_db] gives 60 dB and [wave_to_db_rms] 120 dB. *)
Lemma wave_to_db_neq_wave_to_db_rms :
  np_mean (map np_square16 [1%Z]) = Fin 1
  /\ (0 < 1)%R
  /\ wave_to_db [1%Z] <> wave_to_db_rms [1%Z].
Proof.
  split; [exact mean_square_one|]. split; [lra|].
  rewrite (wave_to_db_value [1%Z] 1 mean_square_one) by lra.
  rewrite (wave_to_db_rms_value [1%Z] 1 mean_square_one) by lra.
  intros E. injection E as E. lra.
Qed.


(* ===================================================================== *)
(** * Amplitudes of [int16] waveforms *)
(* ===================================================================== *)

Section Amplitudes.

Open Scope Z_scope.

Lemma wrap16_id (z : Z) : -32768 <= z <= 32767 -> wrap16 z = z.
Proof. intros H. unfold wrap16. rewrite Z.mod_small by lia. lia. Qed.

(** Away from [-32768] the wrapped absolute value is the absolute value. *)
Lemma np_abs16_abs (x : Z) : -32768 < x <= 32767 -> np_abs16 x = Z.abs x.
Proof. intros H. unfold np_abs16. apply wrap16_id. lia. Qed.

(** At [-32768] it is [-32768] again. *)
Lemma np_abs16_min : np_abs16 (-32768) = -32768.
Proof. reflexivity. Qed.

Lemma fold_left_max_spec (t : list Z) (x : Z) :
  In (fold_left Z.max t x) (x :: t)
  /\ forall y, In y (x :: t) -> y <= fold_left Z.max t x.
Proof.
  revert x. induction t as [|a t IH]; intros x; cbn [fold_left].
  - split; [left; reflexivity|]. intros y [->|[]]. lia.
  - destruct (IH (Z.max x a)) as [Hin Hle]. split.
    + destruct Hin as [E|Hin]; [|right; right; exact Hin].
      rewrite <- E. destruct (Z.max_spec x a) as [[_ ->]|[_ ->]];
        [right; left|left]; reflexivity.
    + intros y [->|[->|Hy]].
      * transitivity (Z.max y a); [lia|]. apply Hle. left. reflexivity.
      * transitivity (Z.max x y); [lia|]. apply Hle. left. reflexivity.
      * apply Hle. right. exact Hy.
Qed.

Lemma fold_left_min_spec (t : list Z) (x : Z) :
  In (fold_left Z.min t x) (x :: t)
  /\ forall y, In y (x :: t) -> fold_left Z.min t x <= y.
Proof.
  revert x. induction t as [|a t IH]; intros x; cbn [fold_left].
  - split; [left; reflexivity|]. intros y [->|[]]. lia.
  - destruct (IH (Z.min x a)) as [Hin Hle]. split.
    + destruct Hin as [E|Hin]; [|right; right; exact Hin].
      rewrite <- E. destruct (Z.min_spec x a) as [[_ ->]|[_ ->]];
        [left|right; left]; reflexivity.
    + intros y [->|[->|Hy]].
      * transitivity (Z.min y a); [|lia]. apply Hle. left. reflexivity.
      * transitivity (Z.min x y); [|lia]. apply Hle. left. reflexivity.
      * apply Hle. right. exact Hy.
Qed.

Lemma np_max_spec (a : list Z) :
  a <> [] ->
  exists m, np_max a = Ok m /\ In m a /\ forall y, In y a -> y <= m.
Proof.
  destruct a as [|x t]; [congruence|]. intros _.
  exists (fold_left Z.max t x). split; [reflexivity|].
  apply fold_left_max_spec.
Qed.

Lemma np_min_spec (a : list Z) :
  a <> [] ->
  exists m, np_min a = Ok m /\ In m a /\ forall y, In y a -> m <= y.
Proof.
  destruct a as [|x t]; [congruence|]. intros _.
  exists (fold_left Z.min t x). split; [reflexivity|].
  apply fold_left_min_spec.
Qed.

Lemma nonzero_all_zero (w : list Z) :
  Forall (fun x => x = 0) w -> nonzero w = [].
Proof.
  induction 1 as [|x w Hx _ IH]; [reflexivity|].
  unfold nonzero in *. cbn [List.filter]. subst x. cbn. exact IH.
Qed.

Lemma In_nonzero (w : list Z) (x : Z) :
  In x (nonzero w) <-> In x w /\ x <> 0.
Proof.
  unfold nonzero. rewrite List.filter_In.
  split; intros [H1 H2]; (split; [exact H1|]).
  - apply negb_true_iff in H2. apply Z.eqb_neq. exact H2.
  - apply negb_true_iff. apply Z.eqb_neq. exact H2.
Qed.

Lemma nonzero_nonempty (w : list Z) :
  Exists (fun x => x <> 0) w -> nonzero w <> [].
Proof.
  intros H. apply List.Exists_exists in H. destruct H as (x & Hin & Hx).
  assert (Hn : In x (nonzero w)) by (apply In_nonzero; split; assumption).
  intros E. rewrite E in Hn. exact Hn.
Qed.

End Amplitudes.

Section DbRange.

Open Scope R_scope.

Lemma amplitude_db_pos (a : Z) :
  (0 < a)%Z -> amplitude_db a = Fin (20 * log10 (IZR a / micro)).
Proof.
  intros Ha. unfold amplitude_db.
  destruct (Z.ltb_spec 0 a) as [_|H]; [|lia].
  pose proof micro_pos. apply IZR_lt in Ha.
  rewrite np_log10_pos by (apply Rdiv_lt_0_compat; assumption).
  reflexivity.
Qed.

Lemma amplitude_db_nonpos (a : Z) : (a <= 0)%Z -> amplitude_db a = NInf.
Proof.
  intros Ha. unfold amplitude_db.
  destruct (Z.ltb_spec 0 a) as [H|_]; [lia|reflexivity].
Qed.

Lemma amplitude_db_mono (a b : Z) :
  (0 < a <= b)%Z ->
  20 * log10 (IZR a / micro) <= 20 * log10 (IZR b / micro).
Proof.
  intros [Ha Hab]. pose proof micro_pos as Hm.
  apply IZR_lt in Ha. apply IZR_le in Hab.
  assert (0 < IZR a / micro) by (apply Rdiv_lt_0_compat; assumption).
  assert (IZR a / micro <= IZR b / micro).
  { unfold Rdiv. apply Rmult_le_compat_r; [|exact Hab].
    left. apply Rinv_0_lt_compat. exact Hm. }
  pose proof (log10_increasing _ _ H H0). lra.
Qed.

(** [detect_db_range] raises on every all-zero waveform: on the empty one
    in [np.max], on the others in [np.min] of the empty selection. *)
Lemma detect_db_range_all_zero (w : list Z) :
  Forall (fun x => x = 0%Z) w ->
  exists msg, detect_db_range w = Raise (ValueError msg).
Proof.
  intros Hz. unfold detect_db_range.
  destruct w as [|x w']; [eexists; reflexivity|].
  rewrite (nonzero_all_zero _ Hz). eexists; reflexivity.
Qed.

(** So does [analyze_audio_levels], which calls it last. *)
Lemma analyze_audio_levels_all_zero (w : list Z) :
  Forall (fun x => x = 0%Z) w ->
  exists msg, analyze_audio_levels w = Raise (ValueError msg).
Proof.
  intros Hz. unfold analyze_audio_levels.
  destruct (detect_db_range_all_zero w Hz) as [msg Hr]. rewrite Hr.
  destruct w as [|x w']; [eexists; reflexivity|].
  eexists; reflexivity.
Qed.

(** On a waveform with a nonzero sample and without the sample [-32768],
    [detect_db_range] succeeds with finite levels and a dynamic range that
    is their nonnegative difference. *)
Lemma detect_db_range_nonzero (w : list Z) :
  Forall (fun x => (-32768 < x <= 32767)%Z) w ->
  Exists (fun x => x <> 0%Z) w ->
  exists mx mn : R,
    detect_db_range w = Ok (mk_db_range (Fin mx) (Fin mn) (Fin (mx - mn)))
    /\ 0 <= mx - mn.
Proof.
  intros Hrange Hnz.
  assert (Hne : nonzero w <> []) by (apply nonzero_nonempty; exact Hnz).
  assert (Hw : w <> []) by (intros ->; apply Hne; reflexivity).
  destruct (np_max_spec (map np_abs16 w)) as (M & HM & HMin & HMle).
  { intros E. apply map_eq_nil in E. contradiction. }
  destruct (np_min_spec (map np_abs16 (nonzero w))) as (N & HN & HNin & _).
  { intros E. apply map_eq_nil in E. contradiction. }
  apply in_map_iff in HNin. destruct HNin as (x & Hx & Hxin).
  apply In_nonzero in Hxin. destruct Hxin as [Hxw Hx0].
  pose proof (proj1 (List.Forall_forall _ _) Hrange x Hxw) as Hxr.
  rewrite np_abs16_abs in Hx by exact Hxr.
  assert (HNpos : (0 < N)%Z) by lia.
  assert (HNM : (N <= M)%Z).
  { apply HMle. apply in_map_iff. exists x. split; [|exact Hxw].
    rewrite np_abs16_abs by exact Hxr. exact Hx. }
  unfold detect_db_range. rewrite HM, HN. cbn [mbind result_bind].
  rewrite (amplitude_db_pos M) by lia. rewrite (amplitude_db_pos N) by lia.
  cbn [xsub]. do 2 eexists. split; [reflexivity|].
  pose proof (amplitude_db_mono N M (conj HNpos HNM)). lra.
Qed.

End DbRange.


(* ===================================================================== *)
(** * [normalize_waveform] *)
(* ===================================================================== *)

Section Normalize.

Open Scope Q_scope.

Lemma quotient_in_unit_interval (x M : Z) :
  (0 < M)%Z -> (Z.abs x <= M)%Z ->
  -1 <= inject_Z x / inject_Z M <= 1.
Proof.
  intros HM Hx.
  assert (HMq : 0 < inject_Z M) by (unfold Qlt; cbn; lia).
  split.
  - apply Qle_shift_div_l; [exact HMq|].
    change (-1) with (inject_Z (-1)). rewrite <- inject_Z_mult.
    rewrite <- Zle_Qle. lia.
  - apply Qle_shift_div_r; [exact HMq|].
    change 1 with (inject_Z 1). rewrite <- inject_Z_mult.
    rewrite <- Zle_Qle. lia.
Qed.

Lemma quotient_of_extreme (x M : Z) :
  (0 < M)%Z -> Z.abs x = M ->
  Qabs (inject_Z x / inject_Z M) == 1.
Proof.
  intros HM Hx.
  assert (HMq : ~ inject_Z M == 0).
  { intros E. unfold Qeq in E. cbn in E. lia. }
  destruct (Z.abs_spec x) as [[Hx0 Habs]|[Hx0 Habs]].
  - assert (E : x = M) by lia. subst x.
    setoid_replace (inject_Z M / inject_Z M) with 1
      using relation Qeq by (field; exact HMq).
    reflexivity.
  - assert (E : x = (- M)%Z) by lia. subst x.
    rewrite inject_Z_opp.
    setoid_replace (- inject_Z M / inject_Z M) with (-1)
      using relation Qeq by (field; exact HMq).
    reflexivity.
Qed.

(** On a waveform with a nonzero sample and without the sample [-32768],
    the result is the [float64] array of quotients, every element lies in
    [[-1, 1]] and some element has absolute value exactly 1. *)
Lemma normalize_waveform_unit_range (w : list Z) :
  Forall (fun x => (-32768 < x <= 32767)%Z) w ->
  Exists (fun x => x <> 0%Z) w ->
  exists r : list Q,
    normalize_waveform w = Ok (Float64Array r)
    /\ length r = length w
    /\ Forall (fun q => -1 <= q <= 1) r
    /\ Exists (fun q => Qabs q == 1) r.
Proof.
  intros Hrange Hnz.
  assert (Hw : w <> []).
  { intros ->. apply List.Exists_exists in Hnz.
    destruct Hnz as (x & [] & _). }
  destruct (np_max_spec (map np_abs16 w)) as (M & HM & HMin & HMle).
  { intros E. apply map_eq_nil in E. contradiction. }
  apply in_map_iff in HMin. destruct HMin as (xm & Hxm & Hxmin).
  pose proof (proj1 (List.Forall_forall _ _) Hrange xm Hxmin) as Hxmr.
  rewrite np_abs16_abs in Hxm by exact Hxmr.
  assert (HMpos : (0 < M)%Z).
  { apply List.Exists_exists in Hnz. destruct Hnz as (x & Hxin & Hx0).
    pose proof (proj1 (List.Forall_forall _ _) Hrange x Hxin) as Hxr.
    assert (H : (np_abs16 x <= M)%Z)
      by (apply HMle; apply in_map; exact Hxin).
    rewrite np_abs16_abs in H by exact Hxr. lia. }
  unfold normalize_waveform. rewrite HM. cbn [mbind result_bind].
  destruct (Z.ltb_spec 0 M) as [_|H]; [|lia].
  exists (true_divide w M). split; [reflexivity|].
  split; [apply length_map|]. split.
  - unfold true_divide. apply List.Forall_forall. intros q Hq.
    apply in_map_iff in Hq. destruct Hq as (x & <- & Hxin).
    pose proof (proj1 (List.Forall_forall _ _) Hrange x Hxin) as Hxr.
    apply quotient_in_unit_interval; [exact HMpos|].
    rewrite <- np_abs16_abs by exact Hxr.
    apply HMle. apply in_map. exact Hxin.
  - apply List.Exists_exists. exists (inject_Z xm / inject_Z M). split.
    + unfold true_divide.
      apply (in_map (fun x => inject_Z x / inject_Z M)). exact Hxmin.
    + apply quotient_of_extreme; assumption.
Qed.

(** A non-empty all-zero waveform is returned unchanged. *)
Lemma normalize_waveform_all_zero (w : list Z) :
  w <> [] -> Forall (fun x => x = 0%Z) w ->
  normalize_waveform w = Ok (Int16Array w).
Proof.
  intros Hw Hz.
  destruct (np_max_spec (map np_abs16 w)) as (M & HM & HMin & _).
  { intros E. apply map_eq_nil in E. contradiction. }
  apply in_map_iff in HMin. destruct HMin as (x & Hx & Hxin).
  pose proof (proj1 (List.Forall_forall _ _) Hz x Hxin) as Hx0.
  cbv beta in Hx0. subst x. change (np_abs16 0) with 0%Z in Hx. subst M.
  unfold normalize_waveform. rewrite HM. reflexivity.
Qed.

(** The empty waveform makes [np.max] raise. *)
Lemma normalize_waveform_empty :
  normalize_waveform [] = Raise (ValueError zero_size_max).
Proof. reflexivity. Qed.

End Normalize.


(** C8.  The run of [detect_db_range] on the two-sample waveform
    [[-32768, 5]]: the wrapped absolute value of [-32768] is [-32768], so the
    largest amplitude found is 5 and the smallest is [-32768]; the function
    returns, [min_db] is [-inf], and the dynamic range is reported as 0
    although [max_db - min_db] is [+inf]. *)
Theorem detect_db_range_at_int16_min :
  exists r : db_range,
    detect_db_range [-32768; 5]%Z = Ok r
    /\ max_db r = Fin (20 * log10 (5 / micro))%R
    /\ min_db r = NInf
    /\ dynamic_range r = Fin 0
    /\ xsub (max_db r) (min_db r) = PInf.
Proof.
  exists (mk_db_range (Fin (20 * log10 (5 / micro))%R) NInf (Fin 0)).
  split; [|repeat split].
  unfold detect_db_range.
  change (np_max (map np_abs16 [-32768; 5]%Z)) with (Ok 5%Z).
  change (np_min (map np_abs16 (nonzero [-32768; 5]%Z))) with (Ok (-32768)%Z).
  cbn [mbind result_bind].
  rewrite (amplitude_db_pos 5) by lia.
  rewrite (amplitude_db_nonpos (-32768)) by lia.
  reflexivity.
Qed.

(** C9.  The run of [normalize_waveform] on the two-sample waveform
    [[-32768, 1]]: the largest wrapped absolute value is 1, so every sample is
    divided by 1 and the first element of the result is [-32768.0], outside
    [[-1, 1]]. *)
Theorem normalize_waveform_at_int16_min :
  normalize_waveform [-32768; 1]%Z
  = Ok (Float64Array [inject_Z (-32768) / inject_Z 1; inject_Z 1 / inject_Z 1]%Q)
  /\ (inject_Z (-32768) / inject_Z 1 < -1)%Q.
Proof. split; reflexivity. Qed.


(* ===================================================================== *)
(** * Butterworth filters outside their cutoff range *)
(* ===================================================================== *)

Section FilterGuards.

Open Scope Q_scope.

Lemma py_truediv_nyquist (sample_rate cutoff_freq : Q) :
  0 < sample_rate ->
  py_truediv cutoff_freq (sample_rate / 2)
  = Ok (cutoff_freq / (sample_rate / 2)).
Proof.
  intros Hsr. unfold py_truediv.
  destruct (Qeq_bool (sample_rate / 2) 0) eqn:E; [|reflexivity].
  apply Qeq_bool_iff in E.
  assert (H : 0 < sample_rate / 2).
  { apply Qlt_shift_div_l; [reflexivity|]. rewrite Qmult_0_l. exact Hsr. }
  rewrite E in H. discriminate H.
Qed.

Lemma nyquist_pos (sample_rate : Q) : 0 < sample_rate -> 0 < sample_rate / 2.
Proof.
  intros Hsr. apply Qlt_shift_div_l; [reflexivity|].
  rewrite Qmult_0_l. exact Hsr.
Qed.

End FilterGuards.

(** C10, as amended.  For every waveform and every positive sample rate,
    [apply_lowpass_filter] returns its input unchanged whenever the cutoff is
    at least [sample_rate / 2], and [apply_highpass_filter] returns its input
    unchanged whenever the cutoff is at most 0; in both cases nothing is
    raised and the filter design is not called. *)
Theorem filters_identity_out_of_range
    (coefficients : Type)
    (signal_butter : nat -> list Q -> btype -> result coefficients)
    (signal_filtfilt : coefficients -> list Z -> result (list Z))
    (waveform : list Z) (sample_rate cutoff_freq : Q) (order : nat) :
  (0 < sample_rate)%Q ->
  ((sample_rate / 2 <= cutoff_freq)%Q ->
   apply_lowpass_filter coefficients signal_butter signal_filtfilt
     waveform sample_rate cutoff_freq order = Ok waveform)
  /\ ((cutoff_freq <= 0)%Q ->
      apply_highpass_filter coefficients signal_butter signal_filtfilt
        waveform sample_rate cutoff_freq order = Ok waveform).
Proof.
  intros Hsr. pose proof (nyquist_pos sample_rate Hsr) as Hny. split.
  - intros Hcut. unfold apply_lowpass_filter.
    rewrite py_truediv_nyquist by exact Hsr. cbn [mbind result_bind].
    assert (H : Qle_bool 1 (cutoff_freq / (sample_rate / 2)) = true).
    { apply Qle_bool_iff. apply Qle_shift_div_l; [exact Hny|].
      rewrite Qmult_1_l. exact Hcut. }
    rewrite H. reflexivity.
  - intros Hcut. unfold apply_highpass_filter.
    rewrite py_truediv_nyquist by exact Hsr. cbn [mbind result_bind].
    assert (H : Qle_bool (cutoff_freq / (sample_rate / 2)) 0 = true).
    { apply Qle_bool_iff. apply Qle_shift_div_r; [exact Hny|].
      rewrite Qmult_0_l. exact Hcut. }
    rewrite H. reflexivity.
Qed.

Lemma filters_identity_out_of_range_witness :
  apply_lowpass_filter unit (fun _ _ _ => Ok tt) (fun _ w => Ok w)
    [1; -2; 3]%Z 44100 30000 5 = Ok [1; -2; 3]%Z
  /\ apply_highpass_filter unit (fun _ _ _ => Ok tt) (fun _ w => Ok w)
       [1; -2; 3]%Z 44100 0 5 = Ok [1; -2; 3]%Z.
Proof.
  pose proof (filters_identity_out_of_range unit
                (fun _ _ _ => Ok tt) (fun _ w => Ok w)
                [1; -2; 3]%Z 44100 30000 5 eq_refl) as [Hlow _].
  pose proof (filters_identity_out_of_range unit
                (fun _ _ _ => Ok tt) (fun _ w => Ok w)
                [1; -2; 3]%Z 44100 0 5 eq_refl) as [_ Hhigh].
  split; [apply Hlow | apply Hhigh]; discriminate.
Defined.

(** C10, as stated, fails at the sample rate 0: the cutoff 0 is at least
    [0 / 2] and at most 0, yet both filters raise [ZeroDivisionError] when
    they divide by the Nyquist frequency. *)
Lemma filters_raise_at_zero_sample_rate :
  (0 / 2 <= 0)%Q
  /\ apply_lowpass_filter unit (fun _ _ _ => Ok tt) (fun _ w => Ok w)
       [1; -2; 3]%Z 0 0 5
     = Raise (ZeroDivisionError "float division by zero")
  /\ apply_highpass_filter unit (fun _ _ _ => Ok tt) (fun _ w => Ok w)
       [1; -2; 3]%Z 0 0 5
     = Raise (ZeroDivisionError "float division by zero").
Proof. split; [discriminate|]. split; reflexivity. Qed.


(* ===================================================================== *)
(** * Decoding the data chunk *)
(* ===================================================================== *)

Section Decoding.

Lemma int16_pairs_lookup (raw : list Byte.byte) (j : nat) :
  int16_pairs raw !! j = sample_at raw j.
Proof.
  revert raw. induction j as [|j IH]; intros raw.
  - destruct raw as [|lo [|hi rest]]; reflexivity.
  - destruct raw as [|lo [|hi rest]]; try reflexivity.
    cbn [int16_pairs]. rewrite lookup_cons. rewrite IH.
    unfold sample_at.
    replace (2 * S j)%nat with (S (S (2 * j))) by lia.
    replace (S (S (2 * j)) + 1)%nat with (S (S (2 * j + 1))) by lia.
    reflexivity.
Qed.

Lemma int16_pairs_length (raw : list Byte.byte) :
  length (int16_pairs raw) = (length raw / 2)%nat.
Proof.
  assert (H : forall n raw, (length raw <= n)%nat ->
              length (int16_pairs raw) = (length raw / 2)%nat).
  { clear raw. induction n as [|n IH]; intros raw Hn.
    - destruct raw; [reflexivity|cbn in Hn; lia].
    - destruct raw as [|lo [|hi rest]]; try reflexivity.
      cbn [int16_pairs length]. rewrite IH by (cbn in Hn; lia).
      change (S (S (length rest))) with (1 * 2 + length rest)%nat.
      rewrite Nat.div_add_l by lia. lia. }
  apply (H (length raw)). lia.
Qed.

Lemma stride_from_lookup {A : Type} (step skip : nat) (a : list A) (i : nat) :
  (1 <= step)%nat ->
  stride_from step skip a !! i = a !! (skip + i * step)%nat.
Proof.
  intros Hstep. revert skip i.
  induction a as [|x a IH]; intros skip i; [reflexivity|].
  cbn [stride_from]. destruct skip as [|skip].
  - destruct i as [|i]; [reflexivity|].
    rewrite lookup_cons, IH.
    replace (0 + S i * step)%nat with (S (step - 1 + i * step)) by lia.
    reflexivity.
  - rewrite IH. reflexivity.
Qed.

Lemma stride_2_length {A : Type} (a : list A) :
  length (stride_from 2 0 a) = ((length a + 1) / 2)%nat
  /\ length (stride_from 2 1 a) = (length a / 2)%nat.
Proof.
  induction a as [|x a [IH0 IH1]]; [split; reflexivity|].
  cbn [stride_from length Nat.sub]. split.
  - rewrite IH1.
    replace (S (length a) + 1)%nat with (1 * 2 + length a)%nat by lia.
    rewrite Nat.div_add_l by lia. lia.
  - rewrite IH0. f_equal. lia.
Qed.

Lemma readframes_all (f : Wave_read) :
  Z.of_nat (length (frames f)) = (nframes f * (nchannels f * sampwidth f))%Z ->
  readframes f (nframes f) = frames f.
Proof.
  intros H. unfold readframes. rewrite <- H, Nat2Z.id. apply firstn_all.
Qed.

End Decoding.

(* ===================================================================== *)
(** * [load_wave_data] *)
(* ===================================================================== *)

Section LoadWaveData.

Variable env : environment.

(** The run of [load_wave_data] on a file that opens, decodes and has a
    nonzero sample rate. *)
Lemma load_wave_data_run (path : string) (f : Wave_read) (audio : list Z) :
  wave_open env path = Ok f ->
  np_frombuffer_int16 (readframes f (nframes f)) = Ok audio ->
  framerate f <> 0%Z ->
  load_wave_data env path
  = mkIO [Call F_load_wave_data; Wave_open path; Wave_close]
      (Ok (mk_wave_data
             (if (nchannels f =? 1)%Z then audio else stride 2 audio)
             (framerate f)
             (inject_Z (nframes f) / inject_Z (framerate f))%Q
             (nchannels f))).
Proof.
  intros Hopen Hbuf Hrate.
  unfold load_wave_data, io_wave_open. rewrite Hopen.
  cbn -[np_frombuffer_int16 readframes py_int_truediv stride].
  rewrite Hbuf.
  cbn -[np_frombuffer_int16 readframes py_int_truediv stride].
  unfold py_int_truediv.
  destruct (Z.eqb_spec (framerate f) 0) as [E|_]; [contradiction|].
  reflexivity.
Qed.

End LoadWaveData.

(** C5, as amended.  For every 16-bit PCM WAV file with one or two channels,
    a nonzero sample rate and a data chunk of whole frames,
    [load_wave_data] returns a waveform with exactly one sample per frame:
    sample [i] of the waveform is the first (left) channel's sample of frame
    [i], which for a mono file is every sample of the file. *)
Theorem load_wave_data_one_sample_per_frame
    (env : environment) (path : string) (f : Wave_read) :
  wave_open env path = Ok f ->
  sampwidth f = 2%Z ->
  (nchannels f = 1 \/ nchannels f = 2)%Z ->
  framerate f <> 0%Z ->
  (0 <= nframes f)%Z ->
  Z.of_nat (length (frames f)) = (nframes f * (nchannels f * sampwidth f))%Z ->
  exists wd : wave_data,
    io_outcome (load_wave_data env path) = Ok wd
    /\ Z.of_nat (length (wd_waveform wd)) = nframes f
    /\ (forall i : nat,
          wd_waveform wd !! i
          = sample_at (frames f) (i * Z.to_nat (nchannels f)))
    /\ wd_sample_rate wd = framerate f
    /\ wd_channels wd = nchannels f.
Proof.
  intros Hopen Hsw Hch Hrate Hnf Hlen.
  pose proof (readframes_all f Hlen) as Hread.
  assert (Heven : (length (frames f) mod 2 = 0)%nat).
  { rewrite Hsw in Hlen.
    assert (E : length (frames f)
                = (Z.to_nat (nframes f * nchannels f) * 2)%nat) by lia.
    rewrite E. apply Nat.Div0.mod_mul. }
  assert (Hbuf : np_frombuffer_int16 (readframes f (nframes f))
                 = Ok (int16_pairs (frames f))).
  { unfold np_frombuffer_int16. rewrite Hread, Heven. reflexivity. }
  rewrite (load_wave_data_run env path f _ Hopen Hbuf Hrate).
  eexists. split; [reflexivity|]. cbn [wd_waveform wd_sample_rate wd_channels].
  assert (Hpairs : length (int16_pairs (frames f))
                   = Z.to_nat (nframes f * nchannels f)).
  { rewrite int16_pairs_length.
    assert (E : length (frames f)
                = (Z.to_nat (nframes f * nchannels f) * 2)%nat) by lia.
    rewrite E. apply Nat.div_mul. lia. }
  destruct Hch as [Hch|Hch]; rewrite Hch in *; cbn [Z.eqb Pos.eqb].
  - split; [rewrite Hpairs; lia|]. split; [|split; reflexivity].
    intros i. rewrite int16_pairs_lookup. f_equal.
    change (Z.to_nat 1) with 1%nat. lia.
  - split; [|split; [|split; reflexivity]].
    + unfold stride. rewrite (proj1 (stride_2_length _)), Hpairs.
      replace (Z.to_nat (nframes f * 2)) with (Z.to_nat (nframes f) * 2)%nat
        by lia.
      replace (Z.to_nat (nframes f) * 2 + 1)%nat
        with (1 + Z.to_nat (nframes f) * 2)%nat by lia.
      rewrite Nat.div_add by lia. cbn. lia.
    + intros i. unfold stride. rewrite stride_from_lookup by lia.
      rewrite int16_pairs_lookup. f_equal.
Qed.

Lemma load_wave_data_one_sample_per_frame_witness :
  exists wd : wave_data,
    io_outcome (load_wave_data (single_file_environment (Ok wav_16bit_stereo))
                  "tone.wav") = Ok wd
    /\ Z.of_nat (length (wd_waveform wd)) = nframes wav_16bit_stereo
    /\ (forall i : nat,
          wd_waveform wd !! i
          = sample_at (frames wav_16bit_stereo)
              (i * Z.to_nat (nchannels wav_16bit_stereo)))
    /\ wd_sample_rate wd = framerate wav_16bit_stereo
    /\ wd_channels wd = nchannels wav_16bit_stereo.
Proof.
  apply (load_wave_data_one_sample_per_frame
           (single_file_environment (Ok wav_16bit_stereo)) "tone.wav"
           wav_16bit_stereo).
  - reflexivity.
  - reflexivity.
  - right. reflexivity.
  - discriminate.
  - discriminate.
  - reflexivity.
Defined.

(** C5, as stated, fails on an 8-bit mono PCM file of two frames: the two
    data bytes are read as one 16-bit sample, so the waveform has one sample
    for two frames. *)
Lemma load_wave_data_8bit_mono :
  pcm_wav wav_8bit_mono
  /\ nchannels wav_8bit_mono = 1%Z
  /\ nframes wav_8bit_mono = 2%Z
  /\ exists wd : wave_data,
       io_outcome (load_wave_data (single_file_environment (Ok wav_8bit_mono))
                     "tone.wav") = Ok wd
       /\ wd_waveform wd = [(-32640)%Z]
       /\ Z.of_nat (length (wd_waveform wd)) <> nframes wav_8bit_mono.
Proof.
  split; [unfold pcm_wav; cbn; lia|]. split; [reflexivity|].
  split; [reflexivity|].
  eexists. split; [reflexivity|]. split; [reflexivity|]. discriminate.
Qed.


(* ===================================================================== *)
(** * Reasoning about traces *)
(* ===================================================================== *)

Section Traces.

Lemma calls_app (t1 t2 : list event) : calls (t1 ++ t2) = calls t1 ++ calls t2.
Proof. unfold calls. apply omap_app. Qed.

Lemma io_bind_ok {A B : Type} (m : IO A) (k : A -> IO B) (a : A) :
  io_outcome m = Ok a ->
  m ≫= k = mkIO (io_trace m ++ io_trace (k a)) (io_outcome (k a)).
Proof.
  destruct m as [t r]. cbn. intros ->. cbn. destruct (k a); reflexivity.
Qed.

Lemma io_bind_raise {A B : Type} (m : IO A) (k : A -> IO B) (e : exn) :
  io_outcome m = Raise e ->
  m ≫= k = mkIO (io_trace m) (Raise e).
Proof. destruct m as [t r]. cbn. intros ->. reflexivity. Qed.

Lemma try_except_ok {A : Type} (body : IO A) (h : exn -> IO A) (a : A) :
  io_outcome body = Ok a ->
  try_except body h = mkIO (io_trace body) (Ok a).
Proof. destruct body as [t r]. cbn. intros ->. reflexivity. Qed.

Lemma try_except_raise {A : Type} (body : IO A) (h : exn -> IO A) (e : exn) :
  io_outcome body = Raise e ->
  is_Exception e = true ->
  try_except body h
  = mkIO (io_trace body ++ io_trace (h e)) (io_outcome (h e)).
Proof.
  destruct body as [t r]. cbn [io_outcome io_trace]. intros -> He.
  unfold try_except. rewrite He. destruct (h e); reflexivity.
Qed.

Lemma try_except_pass {A : Type} (body : IO A) (h : exn -> IO A) (e : exn) :
  io_outcome body = Raise e ->
  is_Exception e = false ->
  try_except body h = mkIO (io_trace body) (Raise e).
Proof.
  destruct body as [t r]. cbn [io_outcome io_trace]. intros -> He.
  unfold try_except. rewrite He. reflexivity.
Qed.

(** ** Silent computations *)

Lemma silent_ret {A : Type} (a : A) : silent (mret a : IO A).
Proof. reflexivity. Qed.

Lemma silent_lift {A : Type} (r : result A) : silent (io_lift r).
Proof. reflexivity. Qed.

Lemma silent_raise {A : Type} (e : exn) : silent (io_raise e : IO A).
Proof. reflexivity. Qed.

Lemma silent_print (l : out_line) : silent (print l).
Proof. reflexivity. Qed.

Lemma silent_bind {A B : Type} (m : IO A) (k : A -> IO B) :
  silent m -> (forall a, silent (k a)) -> silent (m ≫= k).
Proof.
  unfold silent. intros Hm Hk. destruct (io_outcome m) as [a|e] eqn:E.
  - rewrite (io_bind_ok m k a E). cbn [io_trace].
    rewrite calls_app, Hm, Hk. reflexivity.
  - rewrite (io_bind_raise m k e E). exact Hm.
Qed.

Lemma silent_try_except {A : Type} (body : IO A) (h : exn -> IO A) :
  silent body -> (forall e, silent (h e)) -> silent (try_except body h).
Proof.
  unfold silent. intros Hb Hh. destruct (io_outcome body) as [a|e] eqn:E.
  - rewrite (try_except_ok body h a E). exact Hb.
  - destruct (is_Exception e) eqn:He.
    + rewrite (try_except_raise body h e E He). cbn [io_trace].
      rewrite calls_app, Hb, Hh. reflexivity.
    + rewrite (try_except_pass body h e E He). exact Hb.
Qed.

(** ** Ordered calls *)

Lemma steps_silent {A : Type} (m : IO A) : silent m -> steps m [].
Proof. intros H. unfold steps. rewrite H. split; [reflexivity|auto]. Qed.

Lemma steps_call (f : func) : steps (emit (Call f)) [f].
Proof. unfold steps. cbn. split; [reflexivity|auto]. Qed.

Lemma steps_bind {A B : Type} (m : IO A) (k : A -> IO B)
    (cs1 cs2 : list func) :
  steps m cs1 -> (forall a, steps (k a) cs2) -> steps (m ≫= k) (cs1 ++ cs2).
Proof.
  intros [Hpre Hall] Hk. destruct (io_outcome m) as [a|e] eqn:E.
  - rewrite (io_bind_ok m k a E). unfold steps. cbn [io_trace io_outcome].
    rewrite calls_app. rewrite (Hall eq_refl).
    destruct (Hk a) as [Hpre' Hall']. split.
    + apply prefix_app. exact Hpre'.
    + intros Hok. rewrite (Hall' Hok). reflexivity.
  - rewrite (io_bind_raise m k e E). unfold steps. cbn [io_trace io_outcome].
    split; [|discriminate].
    etransitivity; [exact Hpre|]. apply prefix_app_r. reflexivity.
Qed.

Lemma steps_bind_silent {A B : Type} (m : IO A) (k : A -> IO B)
    (cs : list func) :
  silent m -> (forall a, steps (k a) cs) -> steps (m ≫= k) cs.
Proof.
  intros Hm Hk. apply (steps_bind m k [] cs); [|exact Hk].
  apply steps_silent. exact Hm.
Qed.

End Traces.

(* ===================================================================== *)
(** * The command-line pipeline *)
(* ===================================================================== *)

Section Pipeline.

Variable env : environment.

Lemma silent_io_wave_open path : silent (io_wave_open env path).
Proof. unfold io_wave_open. apply silent_bind; intros; reflexivity. Qed.

Lemma silent_io_plt c : silent (io_plt env c).
Proof. unfold io_plt. apply silent_bind; intros; reflexivity. Qed.

Local Ltac silence :=
  repeat first
    [ apply silent_ret | apply silent_lift | apply silent_raise
    | apply silent_print | apply silent_io_wave_open | apply silent_io_plt
    | reflexivity
    | apply silent_try_except; [|intros ?]
    | apply silent_bind; [|intros ?] ].

Lemma steps_get_wave_info path :
  steps (get_wave_info env path) [F_get_wave_info].
Proof.
  unfold get_wave_info.
  apply (steps_bind _ _ [F_get_wave_info] []); [apply steps_call|].
  intros _. apply steps_silent. silence.
Qed.

Lemma steps_load_wave_data path :
  steps (load_wave_data env path) [F_load_wave_data].
Proof.
  unfold load_wave_data.
  apply (steps_bind _ _ [F_load_wave_data] []); [apply steps_call|].
  intros _. apply steps_silent. silence.
Qed.




(** What the [try ... except] of [perform_complete_analysis] does with the
    outcome of its body: it returns the results, or it catches an exception
    derived from [Exception], or another exception passes through. *)
Lemma perform_complete_analysis_cases path show_plots save_figures :
  let body := perform_complete_analysis_body env path show_plots save_figures in
  (exists r,
      io_outcome body = Ok r
      /\ perform_complete_analysis env path show_plots save_figures
         = mkIO (io_trace body) (Ok (Some r)))
  \/ (exists e,
         io_outcome body = Raise e /\ is_Exception e = true
         /\ perform_complete_analysis env path show_plots save_figures
            = mkIO (io_trace body ++ [Print (L_error (str e))]) (Ok None))
  \/ (exists e,
         io_outcome body = Raise e /\ is_Exception e = false
         /\ perform_complete_analysis env path show_plots save_figures
            = mkIO (io_trace body) (Raise e)).
Proof.
  intros body. unfold perform_complete_analysis. fold body.
  destruct (io_outcome body) as [r|e] eqn:E.
  - left. exists r. split; [reflexivity|].
    rewrite (try_except_ok _ _ (Some r)).
    + rewrite (io_bind_ok body _ r E). cbn. rewrite app_nil_r. reflexivity.
    + rewrite (io_bind_ok body _ r E). reflexivity.
  - right. destruct (is_Exception e) eqn:He; [left|right]; exists e;
      (split; [reflexivity|]); (split; [exact He|]).
    + rewrite (try_except_raise _ _ e).
      * rewrite (io_bind_raise body _ e E). reflexivity.
      * rewrite (io_bind_raise body _ e E). reflexivity.
      * exact He.
    + rewrite (try_except_pass _ _ e).
      * rewrite (io_bind_raise body _ e E). reflexivity.
      * rewrite (io_bind_raise body _ e E). reflexivity.
      * exact He.
Qed.

End Pipeline.






(** What it looks like on digital silence: both loaders succeed, the level
    analysis raises in [np.min], and the error line carries numpy's
    message. *)
Lemma perform_complete_analysis_on_silence :
  perform_complete_analysis (single_file_environment (Ok wav_silence))
    "silence.wav" true false
  = mkIO [ Call F_get_wave_info; Wave_open "silence.wav"; Wave_close;
           Call F_load_wave_data; Wave_open "silence.wav"; Wave_close;
           Call F_analyze_audio_levels;
           Print (L_error zero_size_min) ]
         (Ok None).
Proof. reflexivity. Qed.







(* ===================================================================== *)
(** * Peak finding: change of sample type *)
(* ===================================================================== *)

(** [find_peaks] and [np_argsort] only look at the samples through the
    comparison, so they commute with every order embedding of the samples. *)
Section PeakTransfer.

Context {A B : Type}.
Variable ltA : A -> A -> bool.
Variable ltB : B -> B -> bool.
Variable f : B -> A.
Hypothesis lt_f : forall a b, ltA (f a) (f b) = ltB a b.

Lemma lt_at_map x i j : lt_at ltA (map f x) i j = lt_at ltB x i j.
Proof using lt_f.
  unfold lt_at. change (map f x) with (f <$> x). rewrite !list_lookup_fmap.
  destruct (x !! i), (x !! j); cbn; auto.
Qed.

Lemma eq_at_map x i j : eq_at ltA (map f x) i j = eq_at ltB x i j.
Proof using lt_f.
  unfold eq_at. change (map f x) with (f <$> x). rewrite !list_lookup_fmap.
  destruct (x !! i), (x !! j); cbn; rewrite ?lt_f; auto.
Qed.

Lemma look_ahead_map x i_max i fuel i_ahead :
  look_ahead ltA (map f x) i_max i fuel i_ahead
  = look_ahead ltB x i_max i fuel i_ahead.
Proof using lt_f.
  revert i_ahead. induction fuel as [|fuel IH]; intros i_ahead; cbn; auto.
  rewrite eq_at_map, IH. reflexivity.
Qed.

Lemma local_maxima_loop_map x i_max fuel i :
  local_maxima_loop ltA (map f x) i_max fuel i
  = local_maxima_loop ltB x i_max fuel i.
Proof using lt_f.
  revert i. induction fuel as [|fuel IH]; intros i; cbn; auto.
  rewrite !lt_at_map, look_ahead_map, length_map, !IH. reflexivity.
Qed.

Lemma local_maxima_1d_map x :
  local_maxima_1d ltA (map f x) = local_maxima_1d ltB x.
Proof using lt_f.
  unfold local_maxima_1d. rewrite length_map. apply local_maxima_loop_map.
Qed.

Lemma find_peaks_map x hmin :
  find_peaks ltA (map f x) (f hmin) = find_peaks ltB x hmin.
Proof using lt_f.
  unfold find_peaks. rewrite local_maxima_1d_map.
  apply List.filter_ext. intros p.
  change (map f x) with (f <$> x). rewrite list_lookup_fmap.
  destruct (x !! p); cbn; rewrite ?lt_f; auto.
Qed.

Lemma insert_index_map x i sorted :
  insert_index ltA (map f x) i sorted = insert_index ltB x i sorted.
Proof using lt_f.
  induction sorted as [|j rest IH]; cbn; auto.
  rewrite lt_at_map, IH. reflexivity.
Qed.

Lemma np_argsort_map x : np_argsort ltA (map f x) = np_argsort ltB x.
Proof using lt_f.
  unfold np_argsort. rewrite length_map.
  generalize (@nil nat). induction (seq 0 (length x)) as [|i l IH]; intros acc.
  - reflexivity.
  - cbn. rewrite insert_index_map. apply IH.
Qed.

End PeakTransfer.

Section RealComparisons.

Open Scope R_scope.

Lemma Rltb_true x y : x < y -> Rltb x y = true.
Proof. intros H. unfold Rltb. destruct (Rlt_dec x y); [reflexivity|contradiction]. Qed.

Lemma Rltb_false x y : y <= x -> Rltb x y = false.
Proof. intros H. unfold Rltb. destruct (Rlt_dec x y); [lra|reflexivity]. Qed.

Lemma Rltb_iff x y : Rltb x y = true <-> x < y.
Proof. unfold Rltb. destruct (Rlt_dec x y); split; intros; auto; discriminate. Qed.

(** Integers scaled by a positive factor compare as the integers do. *)
Lemma Rltb_scaled (v : R) (a b : Z) :
  0 < v -> Rltb (IZR a * v) (IZR b * v) = (a <? b)%Z.
Proof.
  intros Hv. destruct (Z.ltb_spec a b) as [H|H].
  - apply Rltb_true. apply IZR_lt in H. nra.
  - apply Rltb_false. apply IZR_le in H. nra.
Qed.

Lemma Rltb_0_scaled (v : R) (k : Z) :
  0 < v -> Rltb 0 (IZR k * v) = (0 <? k)%Z.
Proof.
  intros Hv. rewrite <- (Rltb_scaled v 0 k Hv). f_equal. lra.
Qed.

End RealComparisons.


(* ===================================================================== *)
(** * The positive half of the spectrum *)
(* ===================================================================== *)

Section Select.

Context {A : Type}.

Lemma select_In (mask : list bool) (a : list A) (x : A) :
  In x (select mask a) ->
  exists i, mask !! i = Some true /\ a !! i = Some x.
Proof.
  revert a. induction mask as [|b mask IH]; intros a Hin; [contradiction|].
  destruct a as [|y a]; [contradiction|]. cbn [select] in Hin.
  destruct b.
  - destruct Hin as [->|Hin]; [exists 0%nat; split; reflexivity|].
    destruct (IH a Hin) as (i & Hm & Ha). exists (S i). split; assumption.
  - destruct (IH a Hin) as (i & Hm & Ha). exists (S i). split; assumption.
Qed.

(** Two arrays cut by the same mask stay aligned. *)
Lemma select_lookup2 {B : Type} (mask : list bool) (a : list A) (b : list B)
    (p : nat) (x : A) (y : B) :
  length a = length b ->
  select mask a !! p = Some x -> select mask b !! p = Some y ->
  exists i, mask !! i = Some true /\ a !! i = Some x /\ b !! i = Some y.
Proof.
  revert a b p. induction mask as [|m mask IH]; intros a b p Hlen Ha Hb.
  - discriminate Ha.
  - destruct a as [|a0 a], b as [|b0 b]; try discriminate.
    cbn [select] in Ha, Hb. injection Hlen as Hlen. destruct m.
    + destruct p as [|p].
      * injection Ha as ->. injection Hb as ->.
        exists 0%nat. repeat split.
      * destruct (IH a b p Hlen Ha Hb) as (i & H1 & H2 & H3).
        exists (S i). repeat split; assumption.
    + destruct (IH a b p Hlen Ha Hb) as (i & H1 & H2 & H3).
      exists (S i). repeat split; assumption.
Qed.

Lemma select_all_true (n : nat) (mask : list bool) (a : list A) :
  (n <= length a)%nat ->
  select (repeat true n ++ mask) a = firstn n a ++ select mask (skipn n a).
Proof.
  revert a. induction n as [|n IH]; intros a Hn; [reflexivity|].
  destruct a as [|x a]; [cbn in Hn; lia|].
  cbn [repeat app select firstn skipn]. rewrite IH by (cbn in Hn; lia).
  reflexivity.
Qed.

Lemma select_all_false (n : nat) (a : list A) :
  select (repeat false n) a = [].
Proof.
  revert a. induction n as [|n IH]; intros a; [reflexivity|].
  destruct a as [|x a]; [reflexivity|]. cbn [repeat select]. apply IH.
Qed.

End Select.

Section PositiveBins.

Open Scope R_scope.

Lemma fftfreq_bins_length (n : nat) :
  (0 < n)%nat -> length (fftfreq_bins n) = n.
Proof.
  intros Hn. unfold fftfreq_bins.
  rewrite length_app, !length_map, !length_seq.
  pose proof (Nat.div_mod_eq n 2). pose proof (Nat.div_mod_eq (n - 1) 2).
  pose proof (Nat.mod_upper_bound n 2). pose proof (Nat.mod_upper_bound (n - 1) 2).
  lia.
Qed.

Lemma positive_run (h s : nat) :
  map (fun i => (0 <? Z.of_nat i)%Z) (seq (S s) h) = repeat true h.
Proof.
  revert s. induction h as [|h IH]; intros s; [reflexivity|].
  cbn [seq map repeat]. rewrite IH.
  replace (0 <? Z.of_nat (S s))%Z with true; [reflexivity|].
  symmetry. apply Z.ltb_lt. lia.
Qed.

Lemma negative_run (half len s : nat) :
  (s + len <= half)%nat ->
  map (fun i => (0 <? Z.of_nat i - Z.of_nat half)%Z) (seq s len)
  = repeat false len.
Proof.
  revert s. induction len as [|len IH]; intros s Hs; [reflexivity|].
  cbn [seq map repeat]. rewrite IH by lia.
  replace (0 <? Z.of_nat s - Z.of_nat half)%Z with false; [reflexivity|].
  symmetry. apply Z.ltb_ge. lia.
Qed.

(** With a positive scale factor, the mask [freqs > 0] keeps the bins
    [1 .. (n-1)//2] and drops bin 0 and the negative bins. *)
Lemma positive_mask_shape (n : nat) (val : R) :
  (0 < n)%nat -> 0 < val ->
  map (fun f => Rltb 0 f) (map (fun k => IZR k * val) (fftfreq_bins n))
  = false :: repeat true ((n - 1) / 2) ++ repeat false (n / 2).
Proof.
  intros Hn Hval. rewrite map_map.
  rewrite (map_ext _ (fun k => (0 <? k)%Z)
             (fun k => Rltb_0_scaled val k Hval)).
  unfold fftfreq_bins. rewrite map_app, !map_map.
  replace ((n - 1) / 2 + 1)%nat with (S ((n - 1) / 2)) by lia.
  cbn [seq map app]. f_equal. f_equal.
  - apply positive_run.
  - apply negative_run. lia.
Qed.

Lemma select_positive {A : Type} (n : nat) (a : list A) :
  length a = n -> (0 < n)%nat ->
  select (false :: repeat true ((n - 1) / 2) ++ repeat false (n / 2)) a
  = firstn ((n - 1) / 2) (skipn 1 a).
Proof.
  intros Hlen Hn. destruct a as [|x a]; [cbn in Hlen; lia|].
  cbn [select skipn]. cbn in Hlen.
  assert ((n - 1) / 2 <= length a)%nat.
  { pose proof (Nat.div_mod_eq (n - 1) 2). lia. }
  rewrite select_all_true by assumption.
  rewrite select_all_false. apply app_nil_r.
Qed.

Lemma fftfreq_val (n : nat) (sample_rate : Z) :
  (0 < n)%nat -> sample_rate <> 0%Z ->
  1 / (INR n * (1 / IZR sample_rate)) = IZR sample_rate / INR n.
Proof.
  intros Hn Hsr.
  assert (INR n <> 0) by (apply not_0_INR; lia).
  assert (IZR sample_rate <> 0) by (apply not_0_IZR; exact Hsr).
  field. split; assumption.
Qed.

(** The positive half of the spectrum of a non-empty waveform at a positive
    sample rate: the bins [k = 1 .. (n-1)//2], at the frequencies
    [k * sample_rate / n]. *)
Lemma positive_spectrum_bins (w : list Z) (sample_rate : Z) :
  w <> [] -> (0 < sample_rate)%Z ->
  positive_spectrum w sample_rate
  = Ok (map (fun k => INR k * (IZR sample_rate / INR (length w)))
            (seq 1 ((length w - 1) / 2)),
        map (fun k => cabs (dft_bin w k)) (seq 1 ((length w - 1) / 2))).
Proof.
  intros Hw Hsr. set (n := length w).
  assert (Hn : (0 < n)%nat) by (destruct w; [congruence|cbn; lia]).
  unfold positive_spectrum.
  assert (Hfft : np_fft w = Ok (map (dft_bin w) (seq 0 n)))
    by (destruct w; [congruence|reflexivity]).
  rewrite Hfft. cbn [mbind result_bind].
  unfold py_inv. destruct (Z.eqb_spec sample_rate 0) as [E|_]; [lia|].
  cbn [mbind result_bind].
  rewrite length_map, length_seq. unfold np_fftfreq.
  rewrite fftfreq_val by lia.
  assert (Hval : 0 < IZR sample_rate / INR n).
  { apply Rdiv_lt_0_compat; [apply IZR_lt; lia|apply lt_0_INR; lia]. }
  rewrite positive_mask_shape by assumption.
  rewrite !select_positive
    by (rewrite ?length_map, ?length_seq, ?fftfreq_bins_length; lia).
  f_equal. f_equal.
  - unfold fftfreq_bins. rewrite map_app.
    replace ((n - 1) / 2 + 1)%nat with (S ((n - 1) / 2)) by lia.
    cbn [seq map app skipn]. rewrite drop_0, firstn_app.
    rewrite !length_map, length_seq, Nat.sub_diag. cbn [firstn].
    rewrite app_nil_r, firstn_all2 by (rewrite !length_map, length_seq; lia).
    rewrite map_map. apply map_ext. intros k.
    rewrite (INR_IZR_INZ k). reflexivity.
  - rewrite map_map.
    assert (Hseq : seq 0 n = 0%nat :: seq 1 ((n - 1) / 2)
                             ++ seq (1 + (n - 1) / 2) (n - 1 - (n - 1) / 2)).
    { replace n with (S ((n - 1) / 2 + (n - 1 - (n - 1) / 2))) at 1.
      - cbn [seq]. f_equal. apply seq_app.
      - pose proof (Nat.div_mod_eq (n - 1) 2). lia. }
    rewrite Hseq. cbn [map skipn]. rewrite drop_0, map_app, firstn_app.
    rewrite !length_map, length_seq, Nat.sub_diag. cbn [firstn].
    rewrite app_nil_r. apply firstn_all2. rewrite length_map, length_seq. lia.
Qed.

End PositiveBins.


(* ===================================================================== *)
(** * What [find_peaks] returns *)
(* ===================================================================== *)

Section PeakSpec.

Context {A : Type}.
Variable lt : A -> A -> bool.
Hypothesis lt_irrefl : forall a, lt a a = false.

Lemma lt_at_Some (x : list A) (i j : nat) :
  lt_at lt x i j = true -> (i < length x)%nat /\ (j < length x)%nat.
Proof.
  unfold lt_at. destruct (x !! i) eqn:Ei, (x !! j) eqn:Ej; try discriminate.
  intros _. split; eapply lookup_lt_Some; eassumption.
Qed.

Lemma eq_at_refl (x : list A) (i : nat) :
  (i < length x)%nat -> eq_at lt x i i = true.
Proof using lt_irrefl.
  intros Hi. unfold eq_at.
  destruct (lookup_lt_is_Some_2 x i Hi) as [a ->].
  rewrite lt_irrefl. reflexivity.
Qed.

(** The look-ahead only walks over samples equal to [x[i]]. *)
Lemma look_ahead_spec (x : list A) (i_max i fuel a : nat) :
  (forall j, (i <= j < a)%nat -> eq_at lt x j i = true) ->
  (a <= look_ahead lt x i_max i fuel a)%nat
  /\ (forall j, (i <= j < look_ahead lt x i_max i fuel a)%nat ->
                eq_at lt x j i = true).
Proof.
  revert a. induction fuel as [|fuel IH]; intros a Hinv; cbn [look_ahead].
  - split; [lia|exact Hinv].
  - destruct ((a <? i_max)%nat && eq_at lt x a i) eqn:E.
    + apply andb_true_iff in E. destruct E as [_ Eeq].
      destruct (IH (S a)) as [Hle Hall].
      { intros j Hj. destruct (Nat.eq_dec j a) as [->|Hne];
          [exact Eeq|apply Hinv; lia]. }
      split; [lia|exact Hall].
    + split; [lia|exact Hinv].
Qed.

Lemma look_ahead_ge (x : list A) (i_max i fuel a : nat) :
  (a <= look_ahead lt x i_max i fuel a)%nat.
Proof.
  revert a. induction fuel as [|fuel IH]; intros a; cbn [look_ahead]; [lia|].
  destruct ((a <? i_max)%nat && eq_at lt x a i); [|lia].
  specialize (IH (S a)). lia.
Qed.

(** The fuel given to the two loops is enough: more fuel changes nothing. *)
Lemma look_ahead_fuel (x : list A) (i_max i fuel fuel' a : nat) :
  (i_max - a <= fuel)%nat -> (i_max - a <= fuel')%nat ->
  look_ahead lt x i_max i fuel a = look_ahead lt x i_max i fuel' a.
Proof.
  revert fuel' a. induction fuel as [|fuel IH]; intros fuel' a Hf Hf'.
  - destruct fuel' as [|fuel']; [reflexivity|]. cbn [look_ahead].
    destruct (Nat.ltb_spec a i_max) as [H|H]; [lia|reflexivity].
  - destruct fuel' as [|fuel']; cbn [look_ahead].
    + destruct (Nat.ltb_spec a i_max) as [H|H]; [lia|reflexivity].
    + destruct ((a <? i_max)%nat && eq_at lt x a i); [|reflexivity].
      apply IH; lia.
Qed.

Lemma local_maxima_loop_fuel (x : list A) (i_max fuel fuel' i : nat) :
  (i_max - i < fuel)%nat -> (i_max - i < fuel')%nat ->
  local_maxima_loop lt x i_max fuel i = local_maxima_loop lt x i_max fuel' i.
Proof.
  revert fuel' i. induction fuel as [|fuel IH]; intros fuel' i Hf Hf'; [lia|].
  destruct fuel' as [|fuel']; [lia|]. cbn [local_maxima_loop].
  destruct (Nat.ltb_spec i i_max) as [Hi|Hi]; [|reflexivity].
  pose proof (look_ahead_ge x i_max i (length x) (i + 1)) as Hge.
  destruct (lt_at lt x (i - 1) i); [|apply IH; lia].
  destruct (lt_at lt x _ i); [|apply IH; lia].
  f_equal. apply IH; lia.
Qed.

Lemma local_maxima_1d_fuel (x : list A) (fuel : nat) :
  (length x <= fuel)%nat ->
  local_maxima_1d lt x = local_maxima_loop lt x (length x - 1) fuel 1.
Proof.
  intros Hf. unfold local_maxima_1d.
  destruct x as [|a x]; [destruct fuel; reflexivity|].
  apply local_maxima_loop_fuel; cbn [length] in *; lia.
Qed.

Lemma local_maxima_loop_spec (x : list A) (i_max fuel i p : nat) :
  (1 <= i)%nat ->
  In p (local_maxima_loop lt x i_max fuel i) ->
  flat_peak lt x p.
Proof using lt_irrefl.
  revert i. induction fuel as [|fuel IH]; intros i Hi Hin; [contradiction|].
  cbn [local_maxima_loop] in Hin.
  destruct (i <? i_max)%nat; [|contradiction].
  destruct (lt_at lt x (i - 1) i) eqn:Hleft;
    [|apply (IH (i + 1)%nat); [lia|exact Hin]].
  set (r := look_ahead lt x i_max i (length x) (i + 1)) in *.
  destruct (lt_at lt x r i) eqn:Hright;
    [|apply (IH (i + 1)%nat); [lia|exact Hin]].
  destruct Hin as [<-|Hin]; [|apply (IH (r + 1)%nat); [lia|exact Hin]].
  destruct (lt_at_Some _ _ _ Hleft) as [_ Hilen].
  destruct (lt_at_Some _ _ _ Hright) as [Hrlen _].
  destruct (look_ahead_spec x i_max i (length x) (i + 1)) as [Hle Hflat].
  { intros j Hj. replace j with i by lia. apply eq_at_refl. exact Hilen. }
  fold r in Hle, Hflat.
  exists i, (r - 1)%nat.
  assert (Hmid : (i <= (i + (r - 1)) / 2 <= r - 1)%nat).
  { pose proof (Nat.div_mod_eq (i + (r - 1)) 2).
    pose proof (Nat.mod_upper_bound (i + (r - 1)) 2 ltac:(lia)). lia. }
  split; [exact Hi|]. split; [exact Hmid|].
  replace (r - 1 + 1)%nat with r by lia.
  split; [exact Hrlen|]. split; [|split; assumption].
  intros j Hj. apply Hflat. lia.
Qed.

Lemma find_peaks_spec (x : list A) (hmin : A) (p : nat) :
  In p (find_peaks lt x hmin) ->
  flat_peak lt x p /\ exists v, x !! p = Some v /\ lt v hmin = false.
Proof using lt_irrefl.
  unfold find_peaks. intros Hin. apply List.filter_In in Hin.
  destruct Hin as [Hmax Hheight]. split.
  - unfold local_maxima_1d in Hmax.
    apply (local_maxima_loop_spec x (length x - 1) (length x) 1 p);
      [lia|exact Hmax].
  - destruct (x !! p) as [v|]; [|discriminate]. exists v. split; [reflexivity|].
    apply negb_true_iff. exact Hheight.
Qed.

End PeakSpec.

Section Indexing.

Context {A : Type}.

(** Selection by valid indices keeps the positions aligned. *)
Lemma take_indices_lookup (a : list A) (idx : list nat) (i : nat) :
  Forall (fun p => is_Some (a !! p)) idx ->
  take_indices a idx !! i = idx !! i ≫= (fun p => a !! p).
Proof.
  intros Hvalid. revert i.
  induction Hvalid as [|p idx [v Hv] _ IH]; intros i; [reflexivity|].
  unfold take_indices in *. cbn [omap list_omap]. rewrite Hv.
  destruct i as [|i]; [cbn; rewrite Hv; reflexivity|].
  cbn. apply IH.
Qed.

Lemma In_omap {B : Type} (f : A -> option B) (l : list A) (y : B) :
  In y (omap f l) -> exists x, In x l /\ f x = Some y.
Proof.
  intros Hin. apply list_elem_of_In in Hin.
  apply list_elem_of_omap in Hin. destruct Hin as (x & Hx & Hf).
  exists x. split; [apply list_elem_of_In; exact Hx|exact Hf].
Qed.

Lemma omap_length_le {B : Type} (f : A -> option B) (l : list A) :
  (length (omap f l) <= length l)%nat.
Proof.
  induction l as [|x l IH]; [reflexivity|].
  cbn [omap list_omap]. destruct (f x); cbn [length]; lia.
Qed.

End Indexing.


(* ===================================================================== *)
(** * The six dashboard figures *)
(* ===================================================================== *)

Section Figures.

Variable signal_spectrogram :
  list Z -> Z -> nat -> nat -> result (nat * nat).
Variable signal_welch : list Z -> Z -> nat -> result nat.

Lemma np_max_float_nonempty (a : list R) :
  a <> [] -> exists m, np_max_float a = Ok m.
Proof. destruct a; [congruence|]. intros _. eexists. reflexivity. Qed.

(** The spectrum plot succeeds as soon as there is a positive frequency
    bin, that is from three samples on. *)
Lemma create_frequency_spectrum_plot_ok w sample_rate title :
  (3 <= length w)%nat -> (0 < sample_rate)%Z ->
  create_frequency_spectrum_plot w sample_rate title
  = Ok (mk_Figure Scatter title ((length w - 1) / 2)).
Proof.
  intros Hlen Hsr. unfold create_frequency_spectrum_plot.
  rewrite positive_spectrum_bins by (try (intros ->; cbn in Hlen); lia).
  cbn [mbind result_bind].
  assert (Hh : (1 <= (length w - 1) / 2)%nat).
  { pose proof (Nat.div_mod_eq (length w - 1) 2).
    pose proof (Nat.mod_upper_bound (length w - 1) 2 ltac:(lia)). lia. }
  destruct (np_max_float_nonempty
              (map (fun k => cabs (dft_bin w k)) (seq 1 ((length w - 1) / 2))))
    as [m Hm].
  { intros E. apply (f_equal (@length R)) in E.
    rewrite length_map, length_seq in E. cbn [length] in E. lia. }
  rewrite Hm. cbn [mbind result_bind].
  rewrite length_map, length_seq. reflexivity.
Qed.

Lemma create_phase_plot_ok w sample_rate title :
  w <> [] -> sample_rate <> 0%Z ->
  exists points, create_phase_plot w sample_rate title
                 = Ok (mk_Figure Scatter title points).
Proof.
  intros Hw Hsr. unfold create_phase_plot, py_inv.
  destruct w as [|x w]; [congruence|]. cbn [np_fft mbind result_bind].
  destruct (Z.eqb_spec sample_rate 0) as [E|_]; [contradiction|].
  cbn [mbind result_bind]. eexists. reflexivity.
Qed.

(** On a one-sample waveform there is no positive frequency bin and
    [magnitude.max()] raises. *)
Lemma create_frequency_spectrum_plot_one_sample x sample_rate title :
  (0 < sample_rate)%Z ->
  create_frequency_spectrum_plot [x] sample_rate title
  = Raise (ValueError zero_size_max).
Proof.
  intros Hsr. unfold create_frequency_spectrum_plot.
  rewrite positive_spectrum_bins by (try discriminate; lia).
  reflexivity.
Qed.

End Figures.

(** C6, as amended.  For every waveform of at least three samples, every
    positive sample rate, every duration and every filename for which the
    library calls [scipy.signal.spectrogram] and [scipy.signal.welch]
    succeed, [create_all_visualizations] returns exactly six figures, under
    the keys [waveform], [spectrum], [spectrogram], [psd], [phase] and
    [histogram] in this order, each titled with its kind and the filename. *)
Theorem create_all_visualizations_six
    (signal_spectrogram : list Z -> Z -> nat -> nat -> result (nat * nat))
    (signal_welch : list Z -> Z -> nat -> result nat)
    (w : list Z) (sample_rate : Z) (duration : Q) (filename : string)
    (shape : nat * nat) (n_psd : nat) :
  (3 <= length w)%nat ->
  (0 < sample_rate)%Z ->
  signal_spectrogram w sample_rate (Nat.min 1024 (length w / 8))
    (Nat.min 1024 (length w / 8) / 2) = Ok shape ->
  signal_welch w sample_rate (Nat.min 1024 (length w / 4)) = Ok n_psd ->
  exists p_waveform p_phase : nat,
    create_all_visualizations signal_spectrogram signal_welch
      w sample_rate duration filename
    = Ok [ ("waveform",
            mk_Figure Scatter ("Waveform - " +:+ filename) p_waveform);
           ("spectrum",
            mk_Figure Scatter ("Frequency Spectrum - " +:+ filename)
              ((length w - 1) / 2));
           ("spectrogram",
            mk_Figure Heatmap ("Spectrogram - " +:+ filename)
              (fst shape * snd shape));
           ("psd",
            mk_Figure Scatter ("Power Spectral Density - " +:+ filename)
              n_psd);
           ("phase",
            mk_Figure Scatter ("Phase Response - " +:+ filename) p_phase);
           ("histogram",
            mk_Figure Histogram ("Amplitude Distribution - " +:+ filename)
              (length w)) ]%string.
Proof.
  intros Hlen Hsr Hspec Hwelch.
  destruct (create_phase_plot_ok w sample_rate
              ("Phase Response - " +:+ filename)) as [p_phase Hphase].
  { intros ->. cbn in Hlen. lia. }
  { lia. }
  unfold create_all_visualizations.
  unfold create_waveform_plot at 1. cbn [mbind result_bind].
  rewrite create_frequency_spectrum_plot_ok by assumption.
  cbn [mbind result_bind].
  unfold create_spectrogram_plot. rewrite Hspec. destruct shape as [nf nt].
  cbn [mbind result_bind].
  unfold create_psd_plot. rewrite Hwelch. cbn [mbind result_bind].
  rewrite Hphase. cbn [mbind result_bind fst snd].
  eexists _, _. reflexivity.
Qed.

Lemma create_all_visualizations_six_witness :
  exists p_waveform p_phase : nat,
    create_all_visualizations (fun _ _ _ _ => Ok (1, 1)%nat) (fun _ _ _ => Ok 1%nat)
      [1; 2; 3]%Z 8000 (3 # 8000) "tone.wav"
    = Ok [ ("waveform",
            mk_Figure Scatter ("Waveform - " +:+ "tone.wav") p_waveform);
           ("spectrum",
            mk_Figure Scatter ("Frequency Spectrum - " +:+ "tone.wav")
              ((length [1; 2; 3]%Z - 1) / 2));
           ("spectrogram",
            mk_Figure Heatmap ("Spectrogram - " +:+ "tone.wav")
              (fst (1, 1)%nat * snd (1, 1)%nat));
           ("psd",
            mk_Figure Scatter ("Power Spectral Density - " +:+ "tone.wav") 1);
           ("phase",
            mk_Figure Scatter ("Phase Response - " +:+ "tone.wav") p_phase);
           ("histogram",
            mk_Figure Histogram ("Amplitude Distribution - " +:+ "tone.wav")
              (length [1; 2; 3]%Z)) ]%string.
Proof.
  apply (create_all_visualizations_six
           (fun _ _ _ _ => Ok (1, 1)%nat) (fun _ _ _ => Ok 1%nat)
           [1; 2; 3]%Z 8000 (3 # 8000) "tone.wav" (1, 1)%nat 1%nat).
  - cbn. lia.
  - lia.
  - reflexivity.
  - reflexivity.
Defined.

(** C6, as stated, fails on a one-sample waveform: the waveform figure is
    built, then the spectrum figure raises [ValueError] because there is no
    positive frequency bin to take the maximum of, and no dictionary is
    returned. *)
Lemma create_all_visualizations_one_sample :
  create_all_visualizations (fun _ _ _ _ => Ok (1, 1)%nat) (fun _ _ _ => Ok 1%nat)
    [1%Z] 8000 (1 # 8000) "tone.wav"
  = Raise (ValueError zero_size_max).
Proof.
  unfold create_all_visualizations.
  unfold create_waveform_plot at 1. cbn [mbind result_bind].
  rewrite create_frequency_spectrum_plot_one_sample by lia.
  reflexivity.
Qed.


(* ===================================================================== *)
(** * Sums of the DFT kernel over a pulse train *)
(* ===================================================================== *)

Section PulseSums.

Open Scope R_scope.

(** Telescoping with the factor [2 sin (theta / 2)]. *)
Lemma cos_sum_telescope theta m :
  2 * sin (theta / 2) * cos_sum theta m
  = sin (INR m * theta - theta / 2) + sin (theta / 2).
Proof.
  induction m as [|m IH].
  - simpl. replace (0 * theta - theta / 2) with (- (theta / 2)) by lra.
    rewrite sin_neg. lra.
  - cbn [cos_sum]. rewrite Rmult_plus_distr_l, IH, S_INR.
    replace ((INR m + 1) * theta - theta / 2)
      with (INR m * theta + theta / 2) by lra.
    rewrite sin_plus, sin_minus. ring.
Qed.

Lemma sin_sum_telescope theta m :
  2 * sin (theta / 2) * sin_sum theta m
  = cos (theta / 2) - cos (INR m * theta - theta / 2).
Proof.
  induction m as [|m IH].
  - simpl. replace (0 * theta - theta / 2) with (- (theta / 2)) by lra.
    rewrite cos_neg. lra.
  - cbn [sin_sum]. rewrite Rmult_plus_distr_l, IH, S_INR.
    replace ((INR m + 1) * theta - theta / 2)
      with (INR m * theta + theta / 2) by lra.
    rewrite cos_plus, cos_minus. ring.
Qed.

(** When [m * theta] is a whole number of turns and [theta / 2] is not a
    multiple of [pi], both sums vanish. *)
Lemma cos_sum_turns theta m (k : nat) :
  INR m * theta = 2 * INR k * PI ->
  sin (theta / 2) <> 0 ->
  cos_sum theta m = 0.
Proof.
  intros Hturn Hs.
  pose proof (cos_sum_telescope theta m) as H.
  rewrite Hturn in H.
  replace (2 * INR k * PI - theta / 2)
    with (- (theta / 2) + 2 * INR k * PI) in H by lra.
  rewrite sin_period, sin_neg in H.
  assert (H2 : 2 * sin (theta / 2) * cos_sum theta m = 0) by lra.
  apply Rmult_integral in H2. destruct H2 as [H2|H2]; [lra|exact H2].
Qed.

Lemma sin_sum_turns theta m (k : nat) :
  INR m * theta = 2 * INR k * PI ->
  sin (theta / 2) <> 0 ->
  sin_sum theta m = 0.
Proof.
  intros Hturn Hs.
  pose proof (sin_sum_telescope theta m) as H.
  rewrite Hturn in H.
  replace (2 * INR k * PI - theta / 2)
    with (- (theta / 2) + 2 * INR k * PI) in H by lra.
  rewrite cos_period, cos_neg in H.
  assert (H2 : 2 * sin (theta / 2) * sin_sum theta m = 0) by lra.
  apply Rmult_integral in H2. destruct H2 as [H2|H2]; [lra|exact H2].
Qed.

(** When [theta] itself is a whole number of turns, every term of the cosine
    sum is one and every term of the sine sum is zero. *)
Lemma cos_sum_whole (q : nat) m : cos_sum (2 * INR q * PI) m = INR m.
Proof.
  induction m as [|m IH]; [reflexivity|].
  cbn [cos_sum]. rewrite IH, S_INR. f_equal.
  replace (INR m * (2 * INR q * PI)) with (0 + 2 * INR (m * q) * PI)
    by (rewrite mult_INR; ring).
  rewrite cos_period. apply cos_0.
Qed.

Lemma sin_sum_whole (q : nat) m : sin_sum (2 * INR q * PI) m = 0.
Proof.
  induction m as [|m IH]; [reflexivity|].
  cbn [sin_sum]. rewrite IH.
  replace (INR m * (2 * INR q * PI)) with (0 + 2 * INR (m * q) * PI)
    by (rewrite mult_INR; ring).
  rewrite sin_period, sin_0. ring.
Qed.

(** [sin (pi * k / m)] does not vanish unless [m] divides [k]. *)
Lemma sin_fraction_turn_nonzero (k m : Z) :
  (0 < m)%Z -> (k mod m <> 0)%Z ->
  sin (PI * IZR k / IZR m) <> 0.
Proof.
  intros Hm Hk Hs. apply sin_eq_0_0 in Hs. destruct Hs as [z Hz].
  assert (HPI := PI_RGT_0).
  assert (Hm' : 0 < IZR m) by (apply IZR_lt; exact Hm).
  assert (E : IZR k = IZR (z * m)).
  { rewrite mult_IZR.
    apply (Rmult_eq_reg_l PI); [|lra].
    replace (PI * IZR k) with (PI * IZR k / IZR m * IZR m) by (field; lra).
    rewrite Hz. ring. }
  apply eq_IZR in E. apply Hk. rewrite E. apply Z_mod_mult.
Qed.

End PulseSums.


Section TwoPulseTrains.

Open Scope R_scope.

Local Ltac pulse_angles K :=
  replace (2 * PI * K * 0 / 15) with 0 by field;
  replace (2 * PI * K * 3 / 15) with (1 * (2 * K * PI / 5)) by field;
  replace (2 * PI * K * 6 / 15) with (2 * (2 * K * PI / 5)) by field;
  replace (2 * PI * K * 9 / 15) with (3 * (2 * K * PI / 5)) by field;
  replace (2 * PI * K * 12 / 15) with (4 * (2 * K * PI / 5)) by field;
  replace (2 * PI * K * 5 / 15) with (1 * (2 * K * PI / 3)) by field;
  replace (2 * PI * K * 10 / 15) with (2 * (2 * K * PI / 3)) by field;
  rewrite !Rmult_0_l.

Lemma two_pulse_cos k :
  dft_cos_sum 15 k 0 two_pulse_trains
  = cos_sum (2 * INR k * PI / 5) 5 + cos_sum (2 * INR k * PI / 3) 3.
Proof.
  unfold two_pulse_trains. cbn [dft_cos_sum cos_sum]. unfold dft_angle.
  rewrite !INR_IZR_INZ. generalize (IZR (Z.of_nat k)). intros K.
  cbv [Z.of_nat Pos.of_succ_nat Pos.succ]. pulse_angles K. ring.
Qed.

Lemma two_pulse_sin k :
  dft_sin_sum 15 k 0 two_pulse_trains
  = sin_sum (2 * INR k * PI / 5) 5 + sin_sum (2 * INR k * PI / 3) 3.
Proof.
  unfold two_pulse_trains. cbn [dft_sin_sum sin_sum]. unfold dft_angle.
  rewrite !INR_IZR_INZ. generalize (IZR (Z.of_nat k)). intros K.
  cbv [Z.of_nat Pos.of_succ_nat Pos.succ]. pulse_angles K. ring.
Qed.

(** The sums over one pulse train: [m] when [m] divides [k], else [0]. *)
Lemma cos_sum_pulse (k m : nat) :
  (0 < m)%nat ->
  cos_sum (2 * INR k * PI / INR m) m
  = if (k mod m =? 0)%nat then INR m else 0.
Proof.
  intros Hm.
  assert (Hm' : 0 < INR m) by (apply lt_0_INR; exact Hm).
  destruct (Nat.eqb_spec (k mod m) 0) as [E|E].
  - apply Nat.Div0.div_exact in E.
    rewrite E at 1. rewrite mult_INR.
    replace (2 * (INR m * INR (k / m)) * PI / INR m)
      with (2 * INR (k / m) * PI) by (field; lra).
    apply cos_sum_whole.
  - apply (cos_sum_turns _ _ k); [field; lra|].
    replace (2 * INR k * PI / INR m / 2)
      with (PI * IZR (Z.of_nat k) / IZR (Z.of_nat m))
      by (rewrite <- !INR_IZR_INZ; field; lra).
    apply sin_fraction_turn_nonzero; [lia|].
    rewrite <- Nat2Z.inj_mod. lia.
Qed.

Lemma sin_sum_pulse (k m : nat) :
  (0 < m)%nat ->
  sin_sum (2 * INR k * PI / INR m) m = 0.
Proof.
  intros Hm.
  assert (Hm' : 0 < INR m) by (apply lt_0_INR; exact Hm).
  destruct (Nat.eqb_spec (k mod m) 0) as [E|E].
  - apply Nat.Div0.div_exact in E.
    rewrite E at 1. rewrite mult_INR.
    replace (2 * (INR m * INR (k / m)) * PI / INR m)
      with (2 * INR (k / m) * PI) by (field; lra).
    apply sin_sum_whole.
  - apply (sin_sum_turns _ _ k); [field; lra|].
    replace (2 * INR k * PI / INR m / 2)
      with (PI * IZR (Z.of_nat k) / IZR (Z.of_nat m))
      by (rewrite <- !INR_IZR_INZ; field; lra).
    apply sin_fraction_turn_nonzero; [lia|].
    rewrite <- Nat2Z.inj_mod. lia.
Qed.

(** The transform of [two_pulse_trains] is real, with the lines of the two
    trains superposed. *)
Lemma two_pulse_bin k :
  dft_bin two_pulse_trains k
  = ((if (k mod 5 =? 0)%nat then 5 else 0)
     + (if (k mod 3 =? 0)%nat then 3 else 0), - 0).
Proof.
  unfold dft_bin.
  change (length two_pulse_trains) with 15%nat.
  rewrite two_pulse_cos, two_pulse_sin.
  pose proof (cos_sum_pulse k 5) as C5. pose proof (cos_sum_pulse k 3) as C3.
  pose proof (sin_sum_pulse k 5) as S5. pose proof (sin_sum_pulse k 3) as S3.
  replace (INR 5) with 5 in C5, S5 by (simpl; lra).
  replace (INR 3) with 3 in C3, S3 by (simpl; lra).
  rewrite C5, C3, S5, S3 by lia.
  f_equal. f_equal. lra.
Qed.

Lemma cabs_real (r : R) : 0 <= r -> cabs (r, - 0) = r.
Proof.
  intros Hr. unfold cabs. cbn [fst snd].
  replace (r * r + - 0 * - 0) with (r * r) by ring.
  apply sqrt_square; exact Hr.
Qed.

End TwoPulseTrains.


Section TwoPulseTrainsRun.

Open Scope R_scope.

(** The factor [1.0 / (n * d)] of [fftfreq] for 15 samples at 15 Hz. *)
Lemma fftfreq_val_15 : 1 / (INR 15 * (1 / IZR 15)) = 1.
Proof. rewrite INR_IZR_INZ. cbv [Z.of_nat Pos.of_succ_nat Pos.succ]. field. Qed.

Lemma positive_spectrum_two_pulse_trains :
  positive_spectrum two_pulse_trains 15
  = Ok (map IZR [1; 2; 3; 4; 5; 6; 7]%Z,
        map (fun z => IZR z / 100) [0; 0; 300; 0; 500; 300; 0]%Z).
Proof.
  unfold positive_spectrum.
  change (np_fft two_pulse_trains)
    with (Ok (map (dft_bin two_pulse_trains) (seq 0 15))).
  change (py_inv 15) with (Ok (1 / IZR 15)).
  cbn [mbind result_bind].
  rewrite length_map, length_seq.
  unfold np_fftfreq. rewrite fftfreq_val_15.
  rewrite map_map.
  rewrite (map_ext _ (fun k => (0 <? k)%Z)
             (fun k => Rltb_0_scaled 1 k Rlt_0_1)).
  change (fftfreq_bins 15)
    with [0; 1; 2; 3; 4; 5; 6; 7; -7; -6; -5; -4; -3; -2; -1]%Z.
  cbn [map seq select Z.ltb Z.compare].
  rewrite !two_pulse_bin.
  cbn [Nat.modulo Nat.divmod Nat.eqb fst snd Nat.sub].
  f_equal. f_equal.
  - repeat (apply (f_equal2 cons); [ring|]). reflexivity.
  - repeat (apply (f_equal2 cons);
            [match goal with
             | |- cabs (?r, _) = _ =>
                 let v := fresh in
                 assert (v : 0 <= r) by lra; rewrite (cabs_real r v); lra
             end|]).
    reflexivity.
Qed.

End TwoPulseTrainsRun.


Section TwoPulseTrainsHarmonics.

Open Scope R_scope.

Lemma Rltb_percent (a b : Z) :
  Rltb (IZR a / 100) (IZR b / 100) = (a <? b)%Z.
Proof. apply (Rltb_scaled (/ 100)). lra. Qed.

Local Ltac rmax_eval :=
  repeat match goal with
         | |- context [Rmax ?a ?b] =>
             first [ rewrite (Rmax_left a b) by lra
                   | rewrite (Rmax_right a b) by lra ]
         end.

(** The run of [detect_harmonics] on [two_pulse_trains] sampled at 15 Hz:
    the line at 5 Hz comes first, the line at 3 Hz second. *)
Lemma detect_harmonics_two_pulse_trains :
  detect_harmonics two_pulse_trains 15 10
  = Ok [ mk_harmonic 5 (relative_db (500 / 100) (500 / 100));
         mk_harmonic 3 (relative_db (300 / 100) (500 / 100)) ].
Proof.
  unfold detect_harmonics. rewrite positive_spectrum_two_pulse_trains.
  cbn [mbind result_bind].
  assert (Hmax : np_max_float
                   (map (fun z => IZR z / 100) [0; 0; 300; 0; 500; 300; 0]%Z)
                 = Ok (500 / 100)).
  { cbn [map np_max_float fold_left]. rmax_eval. reflexivity. }
  rewrite Hmax. cbn [mbind result_bind].
  replace (500 / 100 * / 100) with ((fun z => IZR z / 100) 5%Z) by (cbv beta; lra).
  rewrite (find_peaks_map Rltb Z.ltb (fun z => IZR z / 100) Rltb_percent).
  change (find_peaks Z.ltb [0; 0; 300; 0; 500; 300; 0]%Z 5%Z) with [2; 4]%nat.
  cbn [length Nat.eqb].
  change (take_indices
            (map (fun z => IZR z / 100) [0; 0; 300; 0; 500; 300; 0]%Z) [2; 4]%nat)
    with (map (fun z => IZR z / 100) [300; 500]%Z).
  rewrite (np_argsort_map Rltb Z.ltb (fun z => IZR z / 100) Rltb_percent).
  change (np_argsort Z.ltb [300; 500]%Z) with [0; 1]%nat.
  reflexivity.
Qed.

End TwoPulseTrainsHarmonics.


(* ===================================================================== *)
(** * [detect_harmonics] *)
(* ===================================================================== *)

Section Harmonics.

Open Scope R_scope.

Lemma Rltb_irrefl (a : R) : Rltb a a = false.
Proof. apply Rltb_false. lra. Qed.

Lemma np_fft_ok (w : list Z) (fft : list complex) :
  np_fft w = Ok fft ->
  w <> [] /\ fft = map (dft_bin w) (seq 0 (length w)).
Proof.
  destruct w as [|x w]; [discriminate|]. intros E. injection E as <-.
  split; [discriminate|reflexivity].
Qed.

Lemma py_inv_ok (sample_rate : Z) (d : R) :
  py_inv sample_rate = Ok d -> sample_rate <> 0%Z /\ d = 1 / IZR sample_rate.
Proof.
  unfold py_inv. destruct (Z.eqb_spec sample_rate 0) as [E|E]; [discriminate|].
  intros H. injection H as <-. split; [exact E|reflexivity].
Qed.

(** Every point of the positive spectrum sits at a positive frequency that
    is an integer multiple of [sample_rate / n]; frequencies and magnitudes
    are aligned. *)
Lemma positive_spectrum_point (w : list Z) (sample_rate : Z)
    (freqs mags : list R) (p : nat) (freq m : R) :
  positive_spectrum w sample_rate = Ok (freqs, mags) ->
  freqs !! p = Some freq -> mags !! p = Some m ->
  exists k : Z,
    freq = IZR k * (IZR sample_rate / INR (length w)) /\ 0 < freq.
Proof.
  intros Hps Hfreq Hmag. unfold positive_spectrum in Hps.
  destruct (np_fft w) as [fft|e] eqn:Hfft; [|discriminate].
  destruct (py_inv sample_rate) as [d|e] eqn:Hinv; [|discriminate].
  cbn [mbind result_bind] in Hps. injection Hps as <- <-.
  destruct (np_fft_ok _ _ Hfft) as [Hw ->].
  destruct (py_inv_ok _ _ Hinv) as [Hsr ->].
  rewrite length_map, length_seq in *.
  assert (Hn : (0 < length w)%nat) by (destruct w; [congruence|cbn; lia]).
  assert (Hlen : length (np_fftfreq (length w) (1 / IZR sample_rate))
                 = length (map cabs (map (dft_bin w) (seq 0 (length w))))).
  { unfold np_fftfreq.
    rewrite !length_map, length_seq, fftfreq_bins_length by exact Hn.
    reflexivity. }
  destruct (select_lookup2 _ _ _ p freq m Hlen Hfreq Hmag)
    as (i & Hmask & Hf & _).
  change (map (fun f => Rltb 0 f) ?l) with ((fun f => Rltb 0 f) <$> l) in Hmask.
  rewrite list_lookup_fmap, Hf in Hmask.
  cbn [fmap option_fmap option_map] in Hmask.
  injection Hmask as Hpos. apply Rltb_iff in Hpos.
  unfold np_fftfreq in Hf.
  change (map ?g ?l) with (g <$> l) in Hf. rewrite list_lookup_fmap in Hf.
  destruct (fftfreq_bins (length w) !! i) as [k|]; [|discriminate].
  cbn [fmap option_fmap option_map] in Hf. injection Hf as Hf. exists k. split; [|exact Hpos].
  rewrite <- Hf. rewrite fftfreq_val by assumption. reflexivity.
Qed.

(** [detect_harmonics] returns at most [num_harmonics] entries. *)
Lemma detect_harmonics_length (w : list Z) (sample_rate : Z)
    (num_harmonics : nat) (hs : list harmonic) :
  detect_harmonics w sample_rate num_harmonics = Ok hs ->
  (length hs <= num_harmonics)%nat.
Proof.
  unfold detect_harmonics. intros Hrun.
  destruct (positive_spectrum w sample_rate) as [[freqs mags]|e];
    [|discriminate].
  cbn [mbind result_bind] in Hrun.
  destruct (np_max_float mags) as [mx|e]; [|discriminate].
  cbn [mbind result_bind] in Hrun.
  destruct (length _ =? 0)%nat; injection Hrun as <-; [cbn [length]; lia|].
  etransitivity; [apply omap_length_le|]. rewrite length_take. lia.
Qed.

End Harmonics.

(** C1, as stated, fails on [two_pulse_trains] sampled at 15 Hz:
    [detect_harmonics] returns the peaks at 5 Hz and at 3 Hz, the lowest
    detected peak frequency is 3 Hz, and 5 Hz is not an integer multiple of
    it. *)
Lemma detect_harmonics_not_multiples_of_lowest :
  exists (hs : list harmonic) (h : harmonic) (fundamental : R),
    detect_harmonics two_pulse_trains 15 10 = Ok hs
    /\ In h hs
    /\ (exists h0, In h0 hs /\ frequency h0 = fundamental)
    /\ (forall h', In h' hs -> (fundamental <= frequency h')%R)
    /\ (forall k : Z, frequency h <> (IZR k * fundamental)%R).
Proof.
  exists [ mk_harmonic 5 (relative_db (500 / 100) (500 / 100));
           mk_harmonic 3 (relative_db (300 / 100) (500 / 100)) ],
         (mk_harmonic 5 (relative_db (500 / 100) (500 / 100))), 3%R.
  split; [exact detect_harmonics_two_pulse_trains|].
  split; [left; reflexivity|].
  split; [eexists; split; [right; left; reflexivity|reflexivity]|].
  split.
  - intros h' [<-|[<-|[]]]; cbn [frequency]; lra.
  - intros k. cbn [frequency]. rewrite <- mult_IZR. intros E.
    apply eq_IZR in E. lia.
Qed.


(* ===================================================================== *)
(** * [detect_harmonics]: how many entries, and when *)
(* ===================================================================== *)

Section HarmonicsCount.

Context {A : Type}.
Variable lt : A -> A -> bool.

Lemma insert_index_perm (x : list A) (i : nat) (sorted : list nat) :
  insert_index lt x i sorted ≡ₚ i :: sorted.
Proof.
  induction sorted as [|j rest IH]; [reflexivity|].
  cbn [insert_index]. destruct (lt_at lt x i j); [reflexivity|].
  rewrite IH. apply Permutation_swap.
Qed.

(** [np_argsort] returns every index exactly once. *)
Lemma np_argsort_perm (x : list A) : np_argsort lt x ≡ₚ seq 0 (length x).
Proof.
  unfold np_argsort.
  assert (H : forall l acc,
             fold_left (fun acc i => insert_index lt x i acc) l acc
             ≡ₚ l ++ acc).
  { induction l as [|i l IH]; intros acc; [reflexivity|].
    cbn [fold_left app]. rewrite IH, insert_index_perm.
    symmetry. apply Permutation_middle. }
  rewrite H, app_nil_r. reflexivity.
Qed.

Lemma select_length2 {B C : Type} (mask : list bool) (a : list B) (b : list C) :
  length a = length b -> length (select mask a) = length (select mask b).
Proof.
  revert a b. induction mask as [|m mask IH]; intros a b Hlen; [reflexivity|].
  destruct a as [|a0 a], b as [|b0 b]; try discriminate; [reflexivity|].
  injection Hlen as Hlen. cbn [select].
  destruct m; cbn [length]; rewrite (IH a b Hlen); reflexivity.
Qed.

End HarmonicsCount.

Section HarmonicsTotal.

Open Scope R_scope.

Lemma take_indices_length {A : Type} (a : list A) (idx : list nat) :
  Forall (fun p => is_Some (a !! p)) idx ->
  length (take_indices a idx) = length idx.
Proof.
  induction 1 as [|p idx [v Hv] _ IH]; [reflexivity|].
  unfold take_indices in *. cbn [omap list_omap]. rewrite Hv.
  cbn [length]. rewrite IH. reflexivity.
Qed.

Lemma positive_spectrum_lengths (w : list Z) (sample_rate : Z)
    (freqs mags : list R) :
  positive_spectrum w sample_rate = Ok (freqs, mags) ->
  length freqs = length mags.
Proof.
  intros Hps. unfold positive_spectrum in Hps.
  destruct (np_fft w) as [fft|e] eqn:Hfft; [|discriminate].
  destruct (py_inv sample_rate) as [d|e] eqn:Hinv; [|discriminate].
  cbn [mbind result_bind] in Hps. injection Hps as <- <-.
  destruct (np_fft_ok _ _ Hfft) as [Hw ->].
  apply select_length2. unfold np_fftfreq.
  rewrite !length_map, length_seq. apply fftfreq_bins_length.
  destruct w; [congruence|cbn [length]; lia].
Qed.

Lemma omap_all_Some {A B : Type} (f : A -> option B) (l : list A) :
  Forall (fun x => is_Some (f x)) l -> length (omap f l) = length l.
Proof.
  induction 1 as [|x l [y Hy] _ IH]; [reflexivity|].
  cbn [omap list_omap]. rewrite Hy. cbn [length]. rewrite IH. reflexivity.
Qed.

(** No peak is lost on the way: [detect_harmonics] returns exactly
    [min(num_harmonics, number of peaks)] entries (every index used by the
    final loop is in range). *)
Lemma detect_harmonics_count (w : list Z) (sample_rate : Z)
    (num_harmonics : nat) (hs : list harmonic) :
  detect_harmonics w sample_rate num_harmonics = Ok hs ->
  exists (freqs mags : list R) (mx : R),
    positive_spectrum w sample_rate = Ok (freqs, mags)
    /\ np_max_float mags = Ok mx
    /\ length hs
       = Nat.min num_harmonics (length (find_peaks Rltb mags (mx * / 100))).
Proof.
  unfold detect_harmonics. intros Hrun.
  destruct (positive_spectrum w sample_rate) as [[freqs mags]|e] eqn:Hps;
    [|discriminate].
  cbn [mbind result_bind] in Hrun.
  destruct (np_max_float mags) as [mx|e] eqn:Hmx; [|discriminate].
  cbn [mbind result_bind] in Hrun.
  exists freqs, mags, mx. split; [reflexivity|]. split; [exact Hmx|].
  set (peaks := find_peaks Rltb mags (mx * / 100)) in *.
  destruct (Nat.eqb_spec (length peaks) 0) as [E|_];
    injection Hrun as <-; [rewrite E; cbn [length]; lia|].
  assert (Hvalid : Forall (fun q => is_Some (mags !! q)) peaks).
  { apply List.Forall_forall. intros q Hq.
    destruct (find_peaks_spec Rltb Rltb_irrefl mags _ q Hq)
      as [_ (v & Hv & _)].
    exists v. exact Hv. }
  pose proof (take_indices_length mags peaks Hvalid) as Hpm.
  rewrite omap_all_Some.
  - rewrite length_take, length_rev.
    rewrite (Permutation_length (np_argsort_perm Rltb _)), length_seq, Hpm.
    reflexivity.
  - apply List.Forall_forall. intros i Hi.
    apply list_elem_of_In in Hi. apply elem_of_take in Hi.
    destruct Hi as (j & Hi & _).
    assert (Hin : In i (seq 0 (length peaks))).
    { rewrite <- Hpm. apply list_elem_of_In.
      rewrite <- (np_argsort_perm Rltb (take_indices mags peaks)).
      apply list_elem_of_In. apply in_rev. apply list_elem_of_In.
      apply list_elem_of_lookup. exists j. exact Hi. }
    apply in_seq in Hin.
    destruct (lookup_lt_is_Some_2 peaks i ltac:(lia)) as [p Hp].
    rewrite Hp. cbn [mbind option_bind].
    assert (Hpin : In p peaks).
    { apply list_elem_of_In. apply list_elem_of_lookup. exists i. exact Hp. }
    destruct (proj1 (List.Forall_forall _ _) Hvalid p Hpin) as [m Hm].
    apply lookup_lt_Some in Hm.
    rewrite <- (positive_spectrum_lengths _ _ _ _ Hps) in Hm.
    destruct (lookup_lt_is_Some_2 freqs p Hm) as [freq ->].
    cbn [mbind option_bind].
    destruct (lookup_lt_is_Some_2 (take_indices mags peaks) i ltac:(lia))
      as [pm ->].
    cbn [mbind option_bind]. eexists. reflexivity.
Qed.

(** From three samples on, at a positive sample rate, [detect_harmonics]
    returns a list; on shorter waveforms it raises, as the spectrum plot
    does. *)
Lemma detect_harmonics_returns (w : list Z) (sample_rate : Z)
    (num_harmonics : nat) :
  (3 <= length w)%nat -> (0 < sample_rate)%Z ->
  exists hs, detect_harmonics w sample_rate num_harmonics = Ok hs.
Proof.
  intros Hlen Hsr. unfold detect_harmonics.
  rewrite positive_spectrum_bins by (try (intros ->; cbn in Hlen); lia).
  cbn [mbind result_bind].
  destruct (np_max_float_nonempty
              (map (fun k => cabs (dft_bin w k)) (seq 1 ((length w - 1) / 2))))
    as [mx Hmx].
  { intros E. apply (f_equal (@length R)) in E.
    rewrite length_map, length_seq in E. cbn [length] in E.
    pose proof (Nat.div_mod_eq (length w - 1) 2).
    pose proof (Nat.mod_upper_bound (length w - 1) 2 ltac:(lia)). lia. }
  rewrite Hmx. cbn [mbind result_bind].
  destruct (length _ =? 0)%nat; eexists; reflexivity.
Qed.

End HarmonicsTotal.


(* ===================================================================== *)
(** * Reasoning about the object store *)
(* ===================================================================== *)

Section StoreRules.

Lemma spec_ret {A : Type} (s : store) (a : A) (P : result A -> store -> Prop) :
  P (Ok a) s -> st_spec s (mret a) P.
Proof.
  intros H. exists (Ok a), s.
  split; [reflexivity|split; [reflexivity|exact H]].
Qed.

Lemma spec_lift {A : Type} (s : store) (r : result A)
    (P : result A -> store -> Prop) :
  P r s -> st_spec s (st_lift r) P.
Proof.
  intros H. exists r, s.
  split; [reflexivity|split; [reflexivity|exact H]].
Qed.

Lemma spec_bind {A B : Type} (s : store) (m : ST A) (k : A -> ST B)
    (P : result B -> store -> Prop) :
  st_spec s m (fun r s1 =>
                 match r with
                 | Ok a => st_spec s1 (k a) P
                 | Raise e => P (Raise e) s1
                 end) ->
  st_spec s (m ≫= k) P.
Proof.
  intros (r & s1 & Hrun & Hsub & H). destruct r as [a|e].
  - destruct H as (r' & s2 & Hrun' & Hsub' & HP).
    exists r', s2. split; [|split; [etransitivity; eassumption|exact HP]].
    unfold mbind, ST_bind. cbn [run_st]. rewrite Hrun. exact Hrun'.
  - exists (Raise e), s1. split; [|split; assumption].
    unfold mbind, ST_bind. cbn [run_st]. rewrite Hrun. reflexivity.
Qed.

Lemma spec_read (s : store) (l : nat) (v : array)
    (P : result array -> store -> Prop) :
  s !! l = Some v -> P (Ok v) s -> st_spec s (st_read l) P.
Proof.
  intros Hl H. exists (Ok v), s.
  split; [|split; [reflexivity|exact H]].
  cbn [run_st st_read]. rewrite Hl. reflexivity.
Qed.

(** A new object gets an address that was not in use. *)
Lemma spec_alloc (s : store) (v : array) (P : result nat -> store -> Prop) :
  (forall l, s !! l = None -> P (Ok l) (<[l := v]> s)) ->
  st_spec s (st_alloc v) P.
Proof.
  intros H.
  assert (Hfresh : s !! fresh (dom s) = None).
  { apply not_elem_of_dom. apply is_fresh. }
  exists (Ok (fresh (dom s))), (<[fresh (dom s) := v]> s).
  split; [reflexivity|]. split; [apply insert_subseteq; exact Hfresh|].
  apply H. exact Hfresh.
Qed.

(** A reduction leaves the store as it is. *)
Lemma spec_reduce {X B : Type} (get : array -> result X) (f : X -> result B)
    (s : store) (l : nat) (v : array) (x : X)
    (P : result B -> store -> Prop) :
  s !! l = Some v -> get v = Ok x -> P (f x) s ->
  st_spec s (st_reduce get f l) P.
Proof.
  intros Hl Hget H. unfold st_reduce.
  apply spec_bind. apply (spec_read s l v); [exact Hl|].
  apply spec_bind. apply spec_lift. rewrite Hget.
  apply spec_lift. exact H.
Qed.

(** An operation on one array creates its result and changes nothing else. *)
Lemma spec_unary {X : Type} (get : array -> result X)
    (f : X -> result array) (s : store) (l : nat) (v : array) (x : X)
    (P : result nat -> store -> Prop) :
  s !! l = Some v -> get v = Ok x ->
  match f x with
  | Ok y => forall l' s', s ⊆ s' -> s' !! l' = Some y -> P (Ok l') s'
  | Raise e => P (Raise e) s
  end ->
  st_spec s (st_unary get f l) P.
Proof.
  intros Hl Hget H. unfold st_unary.
  apply spec_bind. apply (spec_read s l v); [exact Hl|].
  apply spec_bind. apply spec_lift. rewrite Hget.
  apply spec_bind. apply spec_lift. destruct (f x) as [y|e]; [|exact H].
  apply spec_alloc. intros l' Hl'. apply H.
  - apply insert_subseteq. exact Hl'.
  - apply lookup_insert_eq.
Qed.

Lemma spec_binary {X Y : Type} (get1 : array -> result X)
    (get2 : array -> result Y) (f : X -> Y -> result array)
    (s : store) (l1 l2 : nat) (v1 v2 : array) (x : X) (y : Y)
    (P : result nat -> store -> Prop) :
  s !! l1 = Some v1 -> get1 v1 = Ok x ->
  s !! l2 = Some v2 -> get2 v2 = Ok y ->
  match f x y with
  | Ok z => forall l' s', s ⊆ s' -> s' !! l' = Some z -> P (Ok l') s'
  | Raise e => P (Raise e) s
  end ->
  st_spec s (st_binary get1 get2 f l1 l2) P.
Proof.
  intros Hl1 Hg1 Hl2 Hg2 H. unfold st_binary.
  apply spec_bind. apply (spec_read s l1 v1); [exact Hl1|].
  apply spec_bind. apply spec_lift. rewrite Hg1.
  apply spec_bind. apply (spec_read s l2 v2); [exact Hl2|].
  apply spec_bind. apply spec_lift. rewrite Hg2.
  apply spec_bind. apply spec_lift. destruct (f x y) as [z|e]; [|exact H].
  apply spec_alloc. intros l' Hl'. apply H.
  - apply insert_subseteq. exact Hl'.
  - apply lookup_insert_eq.
Qed.

(** Weakening of the postcondition. *)
Lemma spec_mono {A : Type} (s : store) (m : ST A)
    (P Q : result A -> store -> Prop) :
  st_spec s m P -> (forall r s', s ⊆ s' -> P r s' -> Q r s') -> st_spec s m Q.
Proof.
  intros (r & s' & Hrun & Hsub & HP) HPQ.
  exists r, s'. split; [exact Hrun|]. split; [exact Hsub|].
  apply HPQ; assumption.
Qed.

(** A computation with a determined outcome. *)
Lemma spec_value {A : Type} (s : store) (m : ST A) (v : result A)
    (P : result A -> store -> Prop) :
  st_spec s m (fun r _ => r = v) ->
  (forall s', s ⊆ s' -> P v s') ->
  st_spec s m P.
Proof.
  intros Hm HP. apply (spec_mono s m (fun r _ => r = v)); [exact Hm|].
  intros r s' Hsub ->. apply HP. exact Hsub.
Qed.

Lemma select_filter {A : Type} (f : A -> bool) (a : list A) :
  select (map f a) a = List.filter f a.
Proof.
  induction a as [|x a IH]; [reflexivity|].
  cbn [map select List.filter]. rewrite IH. reflexivity.
Qed.

End StoreRules.


(* ===================================================================== *)
(** * The analyses over the store compute the pure analyses *)
(* ===================================================================== *)

Section StoreRefinement.

(** Facts about older objects survive the growth of the store. *)
Local Ltac keep_objects Hsub :=
  repeat match goal with
         | H : ?s !! _ = Some _ |- _ =>
             match type of Hsub with
             | s ⊆ _ => apply (fun H0 => lookup_weaken _ _ _ _ H0 Hsub) in H
             end
         end;
  clear Hsub.

Local Ltac step_unary :=
  apply spec_bind; eapply spec_unary;
  [ eassumption | reflexivity
  | cbn beta iota;
    let l := fresh "l" in let s := fresh "s" in
    let Hsub := fresh "Hsub" in let Hl := fresh "Hl" in
    intros l s Hsub Hl; keep_objects Hsub ].

Local Ltac step_binary :=
  apply spec_bind; eapply spec_binary;
  [ eassumption | reflexivity | eassumption | reflexivity
  | cbn beta iota;
    let l := fresh "l" in let s := fresh "s" in
    let Hsub := fresh "Hsub" in let Hl := fresh "Hl" in
    intros l s Hsub Hl; keep_objects Hsub ].

Local Ltac step_reduce :=
  apply spec_bind; eapply spec_reduce; [ eassumption | reflexivity | ].

Lemma wave_to_db_st_spec (s : store) (l : nat) (w : list Z)
    (P : result xreal -> store -> Prop) :
  s !! l = Some (A_int16 w) ->
  (forall s', s ⊆ s' -> P (Ok (wave_to_db w)) s') ->
  st_spec s (wave_to_db_st l) P.
Proof.
  intros Hw HP. unfold wave_to_db_st.
  apply (spec_value _ _ (Ok (wave_to_db w))); [|exact HP].
  unfold st_np_square16, st_np_mean.
  step_unary. step_reduce. apply spec_ret. reflexivity.
Qed.

Lemma wave_to_db_rms_st_spec (s : store) (l : nat) (w : list Z)
    (P : result xreal -> store -> Prop) :
  s !! l = Some (A_int16 w) ->
  (forall s', s ⊆ s' -> P (Ok (wave_to_db_rms w)) s') ->
  st_spec s (wave_to_db_rms_st l) P.
Proof.
  intros Hw HP. unfold wave_to_db_rms_st.
  apply (spec_value _ _ (Ok (wave_to_db_rms w))); [|exact HP].
  unfold st_np_square16, st_np_mean.
  step_unary. step_reduce. apply spec_ret. reflexivity.
Qed.

Lemma detect_db_range_st_spec (s : store) (l : nat) (w : list Z)
    (P : result db_range -> store -> Prop) :
  s !! l = Some (A_int16 w) ->
  (forall s', s ⊆ s' -> P (detect_db_range w) s') ->
  st_spec s (detect_db_range_st l) P.
Proof.
  intros Hw HP. unfold detect_db_range_st.
  apply (spec_value _ _ (detect_db_range w)); [|exact HP].
  unfold detect_db_range, st_np_abs16, st_np_max, st_np_ne0, st_np_mask16,
    st_np_min, nonzero.
  step_unary. step_reduce.
  destruct (np_max (map np_abs16 w)) as [mx|e]; [|reflexivity].
  cbn [mbind result_bind].
  step_unary. step_binary.
  match goal with
  | H : _ !! _ = Some (A_int16 (select _ _)) |- _ => rewrite select_filter in H
  end.
  step_unary. step_reduce.
  destruct (np_min _) as [mn|e]; [|reflexivity].
  cbn [mbind result_bind]. apply spec_ret. reflexivity.
Qed.

Lemma analyze_audio_levels_st_spec (s : store) (l : nat) (w : list Z)
    (P : result audio_levels -> store -> Prop) :
  s !! l = Some (A_int16 w) ->
  (forall s', s ⊆ s' -> P (analyze_audio_levels w) s') ->
  st_spec s (analyze_audio_levels_st l) P.
Proof.
  intros Hw HP. unfold analyze_audio_levels_st.
  apply (spec_value _ _ (analyze_audio_levels w)); [|exact HP].
  unfold analyze_audio_levels, st_np_abs16, st_np_max, st_np_min, st_np_mean.
  step_unary. step_reduce.
  destruct (np_max (map np_abs16 w)) as [mx|e]; [|reflexivity].
  cbn [mbind result_bind].
  step_unary. step_reduce.
  destruct (np_min (map np_abs16 w)) as [mn|e]; [|reflexivity].
  cbn [mbind result_bind].
  step_unary. step_reduce.
  apply spec_bind. eapply wave_to_db_st_spec; [eassumption|].
  intros s' Hsub. keep_objects Hsub.
  apply spec_bind. eapply wave_to_db_rms_st_spec; [eassumption|].
  intros s'' Hsub. keep_objects Hsub.
  apply spec_bind. eapply detect_db_range_st_spec; [eassumption|].
  intros s''' Hsub. keep_objects Hsub.
  destruct (detect_db_range w) as [r|e]; [|reflexivity].
  cbn [mbind result_bind]. apply spec_ret. reflexivity.
Qed.

Lemma detect_harmonics_st_spec (s : store) (l : nat) (w : list Z)
    (sample_rate : Z) (num_harmonics : nat)
    (P : result (list harmonic) -> store -> Prop) :
  s !! l = Some (A_int16 w) ->
  (forall s', s ⊆ s' -> P (detect_harmonics w sample_rate num_harmonics) s') ->
  st_spec s (detect_harmonics_st l sample_rate num_harmonics) P.
Proof.
  intros Hw HP. unfold detect_harmonics_st.
  apply (spec_value _ _ (detect_harmonics w sample_rate num_harmonics)); [|exact HP].
  unfold detect_harmonics, positive_spectrum.
  unfold st_np_fft, st_len_complex128, st_np_cabs, st_np_gt0, st_np_mask64,
    st_np_max_float, st_find_peaks, st_len_intp, st_np_take, st_np_argsort,
    st_np_reverse.
  apply spec_bind. eapply spec_unary; [eassumption|reflexivity|].
  destruct (np_fft w) as [fft|e]; cbn [mbind result_bind]; [|reflexivity].
  intros l_fft s1 Hsub Hfft. keep_objects Hsub.
  step_reduce.
  apply spec_bind. apply spec_lift.
  destruct (py_inv sample_rate) as [d|e]; cbn [mbind result_bind];
    [|reflexivity].
  apply spec_bind. apply spec_alloc. intros l_freqs Hfresh.
  assert (Hsub : s1 ⊆ <[l_freqs := A_float64 (np_fftfreq (length fft) d)]> s1)
    by (apply insert_subseteq; exact Hfresh).
  assert (Hfreqs : <[l_freqs := A_float64 (np_fftfreq (length fft) d)]> s1
                   !! l_freqs = Some (A_float64 (np_fftfreq (length fft) d)))
    by apply lookup_insert_eq.
  clear Hfresh. keep_objects Hsub.
  step_unary. step_unary. step_binary. step_binary. step_reduce.
  destruct (np_max_float _) as [mx|e]; cbn [mbind result_bind];
    [|reflexivity].
  step_unary. step_reduce.
  destruct (length _ =? 0)%nat; [apply spec_ret; reflexivity|].
  step_binary. step_unary. step_unary.
  do 4 step_reduce.
  apply spec_ret. reflexivity.
Qed.

End StoreRefinement.


Section NoState.

(** A run from any store holding the waveform yields the pure result and a
    store that extends the initial one. *)
Lemma run_analyze_audio_levels_st (s : store) (l : nat) (w : list Z) :
  s !! l = Some (A_int16 w) ->
  fst (run_st (analyze_audio_levels_st l) s) = analyze_audio_levels w
  /\ s ⊆ snd (run_st (analyze_audio_levels_st l) s).
Proof.
  intros Hw.
  destruct (analyze_audio_levels_st_spec s l w
              (fun r _ => r = analyze_audio_levels w) Hw)
    as (r & s' & Hrun & Hsub & ->); [reflexivity|].
  rewrite Hrun. split; [reflexivity|exact Hsub].
Qed.

Lemma run_detect_harmonics_st (s : store) (l : nat) (w : list Z)
    (sample_rate : Z) (num_harmonics : nat) :
  s !! l = Some (A_int16 w) ->
  fst (run_st (detect_harmonics_st l sample_rate num_harmonics) s)
  = detect_harmonics w sample_rate num_harmonics
  /\ s ⊆ snd (run_st (detect_harmonics_st l sample_rate num_harmonics) s).
Proof.
  intros Hw.
  destruct (detect_harmonics_st_spec s l w sample_rate num_harmonics
              (fun r _ => r = detect_harmonics w sample_rate num_harmonics) Hw)
    as (r & s' & Hrun & Hsub & ->); [reflexivity|].
  rewrite Hrun. split; [reflexivity|exact Hsub].
Qed.

(** Two runs one after the other, the second in the store left by the
    first, have the same outcome. *)
Lemma analyze_audio_levels_st_twice (s : store) (l : nat) (w : list Z) :
  s !! l = Some (A_int16 w) ->
  fst (run_st (analyze_audio_levels_st l)
         (snd (run_st (analyze_audio_levels_st l) s)))
  = fst (run_st (analyze_audio_levels_st l) s).
Proof.
  intros Hw. destruct (run_analyze_audio_levels_st s l w Hw) as [E1 Hsub].
  pose proof (lookup_weaken _ _ _ _ Hw Hsub) as Hw'.
  destruct (run_analyze_audio_levels_st _ l w Hw') as [E2 _].
  rewrite E1, E2. reflexivity.
Qed.

Lemma detect_harmonics_st_twice (s : store) (l : nat) (w : list Z)
    (sample_rate : Z) (num_harmonics : nat) :
  s !! l = Some (A_int16 w) ->
  fst (run_st (detect_harmonics_st l sample_rate num_harmonics)
         (snd (run_st (detect_harmonics_st l sample_rate num_harmonics) s)))
  = fst (run_st (detect_harmonics_st l sample_rate num_harmonics) s).
Proof.
  intros Hw.
  destruct (run_detect_harmonics_st s l w sample_rate num_harmonics Hw)
    as [E1 Hsub].
  pose proof (lookup_weaken _ _ _ _ Hw Hsub) as Hw'.
  destruct (run_detect_harmonics_st _ l w sample_rate num_harmonics Hw')
    as [E2 _].
  rewrite E1, E2. reflexivity.
Qed.

End NoState.

(** C7.  The analyses keep no state.  Take two stores that hold equal
    waveforms, at any addresses and next to any other objects (for instance
    the store left behind by an earlier run).  The runs of
    [analyze_audio_levels] on the two give equal outcomes (the same value or
    the same exception), and so do the runs of [detect_harmonics]; each run
    leaves every object that was in its store, its input waveform among
    them, as it was. *)
Theorem analyses_keep_no_state
    (s1 s2 : store) (l1 l2 : nat) (w : list Z)
    (sample_rate : Z) (num_harmonics : nat) :
  s1 !! l1 = Some (A_int16 w) ->
  s2 !! l2 = Some (A_int16 w) ->
  (fst (run_st (analyze_audio_levels_st l1) s1)
   = fst (run_st (analyze_audio_levels_st l2) s2)
   /\ s1 ⊆ snd (run_st (analyze_audio_levels_st l1) s1)
   /\ snd (run_st (analyze_audio_levels_st l1) s1) !! l1 = Some (A_int16 w)
   /\ s2 ⊆ snd (run_st (analyze_audio_levels_st l2) s2)
   /\ snd (run_st (analyze_audio_levels_st l2) s2) !! l2 = Some (A_int16 w))
  /\ (fst (run_st (detect_harmonics_st l1 sample_rate num_harmonics) s1)
      = fst (run_st (detect_harmonics_st l2 sample_rate num_harmonics) s2)
      /\ s1 ⊆ snd (run_st (detect_harmonics_st l1 sample_rate num_harmonics) s1)
      /\ snd (run_st (detect_harmonics_st l1 sample_rate num_harmonics) s1)
         !! l1 = Some (A_int16 w)
      /\ s2 ⊆ snd (run_st (detect_harmonics_st l2 sample_rate num_harmonics) s2)
      /\ snd (run_st (detect_harmonics_st l2 sample_rate num_harmonics) s2)
         !! l2 = Some (A_int16 w)).
Proof.
  intros H1 H2.
  destruct (run_analyze_audio_levels_st s1 l1 w H1) as [Ea1 Sa1].
  destruct (run_analyze_audio_levels_st s2 l2 w H2) as [Ea2 Sa2].
  destruct (run_detect_harmonics_st s1 l1 w sample_rate num_harmonics H1)
    as [Eh1 Sh1].
  destruct (run_detect_harmonics_st s2 l2 w sample_rate num_harmonics H2)
    as [Eh2 Sh2].
  split.
  - split; [rewrite Ea1, Ea2; reflexivity|].
    split; [exact Sa1|]. split; [exact (lookup_weaken _ _ _ _ H1 Sa1)|].
    split; [exact Sa2|]. exact (lookup_weaken _ _ _ _ H2 Sa2).
  - split; [rewrite Eh1, Eh2; reflexivity|].
    split; [exact Sh1|]. split; [exact (lookup_weaken _ _ _ _ H1 Sh1)|].
    split; [exact Sh2|]. exact (lookup_weaken _ _ _ _ H2 Sh2).
Qed.

Lemma analyses_keep_no_state_witness :
  (fst (run_st (analyze_audio_levels_st 0) store_one)
   = fst (run_st (analyze_audio_levels_st 7) store_two)
   /\ store_one ⊆ snd (run_st (analyze_audio_levels_st 0) store_one)
   /\ snd (run_st (analyze_audio_levels_st 0) store_one) !! 0%nat
      = Some (A_int16 [3; -4; 0]%Z)
   /\ store_two ⊆ snd (run_st (analyze_audio_levels_st 7) store_two)
   /\ snd (run_st (analyze_audio_levels_st 7) store_two) !! 7%nat
      = Some (A_int16 [3; -4; 0]%Z))
  /\ (fst (run_st (detect_harmonics_st 0 8000 10) store_one)
      = fst (run_st (detect_harmonics_st 7 8000 10) store_two)
      /\ store_one ⊆ snd (run_st (detect_harmonics_st 0 8000 10) store_one)
      /\ snd (run_st (detect_harmonics_st 0 8000 10) store_one) !! 0%nat
         = Some (A_int16 [3; -4; 0]%Z)
      /\ store_two ⊆ snd (run_st (detect_harmonics_st 7 8000 10) store_two)
      /\ snd (run_st (detect_harmonics_st 7 8000 10) store_two) !! 7%nat
         = Some (A_int16 [3; -4; 0]%Z)).
Proof.
  apply (analyses_keep_no_state store_one store_two 0 7 [3; -4; 0]%Z 8000 10).
  - reflexivity.
  - reflexivity.
Defined.


(* ===================================================================== *)
(** * The menus, the helpers and the conversion on small inputs *)
(* ===================================================================== *)

Section MenuExamples.

Open Scope string_scope.

Example str_lower_mixed_case : str_lower "Tone.WAV" = "tone.wav".
Proof. reflexivity. Qed.

Example str_endswith_wav : str_endswith "tone.wav" ".wav" = true.
Proof. reflexivity. Qed.

Example str_endswith_short : str_endswith "wav" ".wav" = false.
Proof. reflexivity. Qed.

Example py_getitem_last : py_getitem ["a"; "b"; "c"] (-1) = Some "c".
Proof. reflexivity. Qed.

Example py_getitem_out_of_range : py_getitem ["a"; "b"; "c"] 3 = None.
Proof. reflexivity. Qed.

Example py_mod_negative : py_mod (-1) 3 = Some 2%Z.
Proof. reflexivity. Qed.

Example list_wav_files_filters :
  list_wav_files (fun _ => true)
    (fun _ => Ok ["notes.txt"; "Tone.WAV"; "b.wav"; "wav"])
  = Ok ["Tone.WAV"; "b.wav"].
Proof. reflexivity. Qed.

Example list_wav_files_no_directory :
  list_wav_files (fun _ => false) (fun _ => Raise (OSError "missing")) = Ok [].
Proof. reflexivity. Qed.

Example display_menu_second_of_two :
  display_menu ["a.wav"; "b.wav"] 1
  = ([ M_clear_screen; M_available_files; M_rule 50; M_help_files; M_rule 50;
       M_entry false "a.wav"; M_entry true "b.wav";
       M_blank_rule 50; M_selected "b.wav" ],
     None).
Proof. reflexivity. Qed.

(** Pressing [up] on the first of three files wraps to the last one. *)
Example select_wav_file_wraps_upwards :
  snd (select_wav_file (fun _ => true)
         (fun _ => Ok ["a.wav"; "b.wav"; "c.wav"])
         (fun dir name => dir +:+ "/" +:+ name) (fun s => s) (fun _ => None)
         true
         ([Key_event KEY_DOWN "up"; Key_event KEY_DOWN "enter"], []))
  = Returned (Some "data/c.wav") ([], []).
Proof. reflexivity. Qed.

(** In the numbered menu an invalid line and a number out of range are
    answered with a message, the next valid number is taken. *)
Example select_wav_file_by_number_retries :
  select_wav_file (fun _ => true) (fun _ => Ok ["a.wav"; "b.wav"])
    (fun dir name => dir +:+ "/" +:+ name) (fun s => s)
    (fun s => if String.eqb s "2" then Some 2%Z
              else if String.eqb s "7" then Some 7%Z else None)
    false
    ([], [Input_line "x"; Input_line "7"; Input_line "2"; Input_line "1"])
  = ([ M_available_files; M_rule 30; M_numbered 1 "a.wav"; M_numbered 2 "b.wav";
       M_prompt_file 2; M_invalid_number;
       M_prompt_file 2; M_range_error 2;
       M_prompt_file 2 ],
     Returned (Some "data/b.wav") ([], [Input_line "1"])).
Proof. reflexivity. Qed.

(** Ctrl-C at the prompt of the numbered menu leaves [select_wav_file] as a
    [KeyboardInterrupt]; in the keyboard menu it is caught and [None] is
    returned. *)
Example select_wav_file_by_number_interrupted :
  snd (select_wav_file (fun _ => true) (fun _ => Ok ["a.wav"; "b.wav"])
         (fun dir name => dir +:+ "/" +:+ name) (fun s => s) (fun _ => None)
         false ([], [Input_interrupt; Input_line "1"]))
  = Raised E_KeyboardInterrupt.
Proof. reflexivity. Qed.

Example select_wav_file_keyboard_interrupted :
  snd (select_wav_file (fun _ => true) (fun _ => Ok ["a.wav"; "b.wav"])
         (fun dir name => dir +:+ "/" +:+ name) (fun s => s) (fun _ => None)
         true ([Keyboard_interrupt], []))
  = Returned None ([], []).
Proof. reflexivity. Qed.

Example select_wav_file_no_files :
  select_wav_file (fun _ => true) (fun _ => Ok ["notes.txt"])
    (fun dir name => dir +:+ "/" +:+ name) (fun s => s) (fun _ => None)
    true ([Key_event KEY_DOWN "enter"], [])
  = ([M_no_wav_files; M_please_add_files],
     Returned None ([Key_event KEY_DOWN "enter"], [])).
Proof. reflexivity. Qed.

Example get_analysis_options_escape :
  snd (get_analysis_options (fun s => s) true
         ([Key_event KEY_DOWN "down"; Key_event KEY_DOWN "esc"], []))
  = Returned (mk_analysis_option
                "Standard analysis (waveform + spectrogram)" true false)
             ([], []).
Proof. reflexivity. Qed.

Example get_analysis_options_empty_line :
  snd (get_analysis_options (fun s => s) false
         ([], [Input_line EmptyString]))
  = Returned (mk_analysis_option
                "Standard analysis (waveform + spectrogram)" true false)
             ([], []).
Proof. reflexivity. Qed.

(** Input that does not decode is answered with the message of the
    [except ValueError] clause, and the menu asks again. *)
Example get_analysis_options_undecodable :
  get_analysis_options (fun s => s) false
    ([], [Input_undecodable; Input_line "3"])
  = ([ M_analysis_options;
       M_numbered 1 "Standard analysis (waveform + spectrogram)";
       M_numbered 2 "Save figures to files";
       M_numbered 3 "Analysis only (no plots)";
       M_prompt_option; M_enter_valid_option; M_prompt_option ],
     Returned (mk_analysis_option "Analysis only (no plots)" false false)
              ([], [])).
Proof. reflexivity. Qed.

Example main_quits :
  main (single_file_environment (Ok wav_16bit_mono))
    (fun _ => true) (fun _ => Ok ["a.wav"]) (fun s => s) (fun _ => None)
    true ([Key_event KEY_DOWN "q"], [])
  = ([ M_welcome; M_rule 40;
       M_clear_screen; M_available_files; M_rule 50; M_help_files; M_rule 50;
       M_entry true "a.wav"; M_blank_rule 50; M_selected "a.wav";
       M_goodbye ],
     Goodbye).
Proof. reflexivity. Qed.

Example calculate_speed_of_sound_steel :
  calculate_speed_of_sound 20 "steel" = Fin 5960.
Proof. reflexivity. Qed.

Example calculate_speed_of_sound_unknown_medium :
  calculate_speed_of_sound 20 "Air" = Fin 343.
Proof. reflexivity. Qed.

Example np_linspace_open_negative :
  np_linspace_open 1 (-3)
  = Raise (ValueError "Number of samples, -3, must be non-negative.").
Proof. reflexivity. Qed.

Example convert_audio_to_wav_without_pydub :
  convert_audio_to_wav (fun _ _ => Ok "tmp") (fun _ => Ok tt) unit
    (fun _ => Ok tt) (fun _ _ => Ok tt) (fun _ _ => Ok tt) false ".mp3" ∅
  = (Import_error
       "pydub is required for MP3/FLAC support. Install with: pip install pydub",
     ∅).
Proof. reflexivity. Qed.

End MenuExamples.


(* ===================================================================== *)
(** * Levels: overflow of the squares, bounds, and when the analysis returns *)
(* ===================================================================== *)

Section SquaresInInt16.

Open Scope Z_scope.

(** Up to the magnitude 181 the square of a sample fits into [int16]. *)
Lemma np_square16_small (x : Z) : -181 <= x <= 181 -> np_square16 x = x * x.
Proof. intros H. unfold np_square16. apply wrap16_id. nia. Qed.

(** From 182 to 255 it wraps to a negative number. *)
Lemma np_square16_wraps (x : Z) :
  182 <= Z.abs x <= 255 -> np_square16 x = x * x - 65536 /\ x * x - 65536 < 0.
Proof.
  intros H. unfold np_square16, wrap16.
  assert (Hsq : 33124 <= x * x <= 65025) by nia.
  replace (x * x + 32768) with ((x * x - 32768) + 1 * 65536) by ring.
  rewrite Z.mod_add by lia. rewrite Z.mod_small by lia. lia.
Qed.

Lemma map_np_square16_small (w : list Z) :
  Forall (fun x => -181 <= x <= 181) w ->
  map np_square16 w = map (fun x => x * x) w.
Proof.
  induction 1 as [|x w Hx _ IH]; [reflexivity|].
  cbn [map]. rewrite IH, np_square16_small by exact Hx. reflexivity.
Qed.

Lemma zsum_squares_nonneg (w : list Z) : 0 <= zsum (map (fun x => x * x) w).
Proof.
  induction w as [|x w IH]; [cbn; lia|].
  cbn [map zsum fold_right] in *. fold (zsum (map (fun x => x * x) w)). nia.
Qed.

Lemma zsum_squares_pos (w : list Z) :
  Exists (fun x => x <> 0) w -> 0 < zsum (map (fun x => x * x) w).
Proof.
  induction 1 as [x w Hx|x w _ IH]; cbn [map zsum fold_right];
    fold (zsum (map (fun x => x * x) w)).
  - pose proof (zsum_squares_nonneg w). nia.
  - nia.
Qed.

Lemma zsum_repeat (c : Z) (n : nat) : zsum (repeat c n) = Z.of_nat n * c.
Proof.
  induction n as [|n IH]; [reflexivity|].
  cbn [repeat zsum fold_right]. fold (zsum (repeat c n)). rewrite IH. lia.
Qed.

(** The sum of a list lies between its length times a lower and an upper
    bound of its elements. *)
Lemma zsum_bounds (a : list Z) (lo hi : Z) :
  Forall (fun x => lo <= x <= hi) a ->
  Z.of_nat (length a) * lo <= zsum a <= Z.of_nat (length a) * hi.
Proof.
  induction 1 as [|x a Hx _ IH]; [cbn; lia|].
  cbn [zsum fold_right length]. fold (zsum a). lia.
Qed.

Lemma wrap16_range (z : Z) : -32768 <= wrap16 z <= 32767.
Proof.
  unfold wrap16. pose proof (Z.mod_pos_bound (z + 32768) 65536 ltac:(lia)). lia.
Qed.

End SquaresInInt16.

Section LevelBounds.

Open Scope R_scope.

Lemma log10_1 : log10 1 = 0.
Proof. unfold log10. rewrite ln_1. field. pose proof ln_10_pos. lra. Qed.

Lemma log10_100000 : log10 100000 = 5.
Proof.
  unfold log10. replace 100000 with (10 ^ 5) by lra.
  rewrite ln_pow by lra. simpl INR. field. pose proof ln_10_pos. lra.
Qed.

Lemma np_mean_nonempty (a : list Z) :
  a <> [] -> np_mean a = Fin (IZR (zsum a) / INR (length a)).
Proof. destruct a; [congruence|reflexivity]. Qed.

Lemma np_log10_neg (r : R) : r < 0 -> np_log10 (Fin r) = NaN.
Proof.
  intros Hr. unfold np_log10.
  destruct (total_order_T 0 r) as [[H|H]|H]; [lra|lra|reflexivity].
Qed.

Lemma Rdiv_neg_pos (a b : R) : a < 0 -> 0 < b -> a / b < 0.
Proof.
  intros Ha Hb. unfold Rdiv. pose proof (Rinv_0_lt_compat b Hb). nra.
Qed.

Lemma INR_length_pos {A : Type} (a : list A) : a <> [] -> 0 < INR (length a).
Proof.
  destruct a; [congruence|]. intros _. apply lt_0_INR. cbn [length]. lia.
Qed.

End LevelBounds.

(** X1.  On a waveform whose samples all have magnitude at most 181 and are
    not all zero, the squares computed in [int16] are the true squares: the
    mean squared amplitude [m] is positive, [wave_to_db] is
    [10 log10 m + 60] and [wave_to_db_rms] is [10 log10 m + 120]. *)
Theorem wave_to_db_exact_up_to_181 (w : list Z) :
  Forall (fun x => (-181 <= x <= 181)%Z) w ->
  Exists (fun x => x <> 0%Z) w ->
  let m := (IZR (zsum (map (fun x => (x * x)%Z) w)) / INR (length w))%R in
  (0 < m)%R
  /\ wave_to_db w = Fin (10 * log10 m + 60)%R
  /\ wave_to_db_rms w = Fin (10 * log10 m + 120)%R.
Proof.
  intros Hsmall Hnz m.
  assert (Hw : w <> []).
  { intros ->. apply List.Exists_exists in Hnz. destruct Hnz as (x & [] & _). }
  assert (Hm : (0 < m)%R).
  { unfold m. apply Rdiv_lt_0_compat; [|apply INR_length_pos; exact Hw].
    apply IZR_lt. apply zsum_squares_pos. exact Hnz. }
  assert (Hmean : np_mean (map np_square16 w) = Fin m).
  { rewrite map_np_square16_small by exact Hsmall.
    rewrite np_mean_nonempty
      by (intros E; apply map_eq_nil in E; contradiction).
    rewrite length_map. reflexivity. }
  split; [exact Hm|]. split.
  - apply wave_to_db_value; assumption.
  - apply wave_to_db_rms_value; assumption.
Qed.

Lemma wave_to_db_exact_up_to_181_witness :
  let m := (IZR (zsum (map (fun x => (x * x)%Z) [181; -181; 0]%Z))
            / INR (length [181; -181; 0]%Z))%R in
  (0 < m)%R
  /\ wave_to_db [181; -181; 0]%Z = Fin (10 * log10 m + 60)%R
  /\ wave_to_db_rms [181; -181; 0]%Z = Fin (10 * log10 m + 120)%R.
Proof.
  apply (wave_to_db_exact_up_to_181 [181; -181; 0]%Z).
  - repeat constructor; lia.
  - constructor. lia.
Defined.

(** X2.  A steady level of magnitude 182 to 255 overflows the [int16]
    squares: every square wraps to a negative number, the mean is negative,
    and both [wave_to_db] and [wave_to_db_rms] are [nan]. *)
Theorem wave_to_db_nan_on_square_overflow (x : Z) (n : nat) :
  (182 <= Z.abs x <= 255)%Z ->
  wave_to_db (repeat x (S n)) = NaN
  /\ wave_to_db_rms (repeat x (S n)) = NaN.
Proof.
  intros Hx. destruct (np_square16_wraps x Hx) as [Hsq Hneg].
  assert (Hmean : exists m, np_mean (map np_square16 (repeat x (S n))) = Fin m
                            /\ (m < 0)%R).
  { rewrite map_repeat, Hsq.
    rewrite np_mean_nonempty by discriminate.
    eexists. split; [reflexivity|].
    rewrite zsum_repeat, repeat_length.
    assert (Hs : (Z.of_nat (S n) * (x * x - 65536) < 0)%Z) by nia.
    apply IZR_lt in Hs.
    assert (Hl : (0 < INR (S n))%R) by (apply lt_0_INR; lia).
    apply Rdiv_neg_pos; assumption. }
  destruct Hmean as (m & Hmean & Hm). pose proof micro_pos as Hmicro.
  split.
  - unfold wave_to_db. rewrite Hmean. cbn [xdivc].
    rewrite np_log10_neg; [reflexivity|].
    apply Rdiv_neg_pos; assumption.
  - unfold wave_to_db_rms. rewrite Hmean. unfold np_sqrt.
    destruct (Rlt_dec m 0) as [_|H]; [reflexivity|contradiction].
Qed.

Lemma wave_to_db_nan_on_square_overflow_witness :
  wave_to_db (repeat 200%Z 3) = NaN /\ wave_to_db_rms (repeat 200%Z 3) = NaN.
Proof. apply (wave_to_db_nan_on_square_overflow 200 2). lia. Defined.

(** X3.  Whenever [detect_db_range] returns, the dynamic range it reports
    is a finite number of decibels, at least 0 and below 100: an [int16]
    amplitude is at most 32767 and the smallest nonzero one is at least 1. *)
Theorem detect_db_range_dynamic_range_bounded (w : list Z) (r : db_range) :
  detect_db_range w = Ok r ->
  exists d : R, dynamic_range r = Fin d /\ (0 <= d < 100)%R.
Proof.
  unfold detect_db_range. intros Hrun.
  destruct (np_max (map np_abs16 w)) as [M|e] eqn:HM; [|discriminate].
  destruct (np_min (map np_abs16 (nonzero w))) as [N|e] eqn:HN; [|discriminate].
  cbn [mbind result_bind] in Hrun. injection Hrun as <-. cbn [dynamic_range].
  destruct (Z_lt_le_dec 0 N) as [HNpos|HNle].
  2:{ rewrite (amplitude_db_nonpos N HNle). exists 0%R. split; [reflexivity|lra]. }
  assert (Hne : map np_abs16 (nonzero w) <> []).
  { intros E. rewrite E in HN. discriminate. }
  destruct (np_min_spec _ Hne) as (N' & HN' & HNin & _).
  rewrite HN in HN'. injection HN' as <-.
  assert (Hw : map np_abs16 w <> []).
  { intros E. rewrite E in HM. discriminate. }
  destruct (np_max_spec _ Hw) as (M' & HM' & HMin & HMle).
  rewrite HM in HM'. injection HM' as <-.
  assert (HNM : (N <= M)%Z).
  { apply HMle. apply in_map_iff in HNin. destruct HNin as (x & Hx & Hxin).
    apply In_nonzero in Hxin. apply in_map_iff. exists x. tauto. }
  assert (HMmax : (M <= 32767)%Z).
  { apply in_map_iff in HMin. destruct HMin as (x & <- & _).
    unfold np_abs16. apply wrap16_range. }
  rewrite (amplitude_db_pos M) by lia. rewrite (amplitude_db_pos N) by lia.
  eexists. split; [reflexivity|].
  pose proof (amplitude_db_mono N M (conj HNpos HNM)) as Hmono.
  split; [lra|].
  assert (HMr : (0 < IZR M <= 100000)%R).
  { split; [apply IZR_lt; lia|apply IZR_le; lia]. }
  assert (HNr : (1 <= IZR N)%R) by (apply IZR_le; lia).
  rewrite !log10_over_micro by lra.
  pose proof (log10_increasing (IZR M) 100000 ltac:(lra) ltac:(lra)) as H1.
  pose proof (log10_increasing 1 (IZR N) ltac:(lra) ltac:(lra)) as H2.
  rewrite log10_100000 in H1. rewrite log10_1 in H2.
  assert (Hstrict : (log10 (IZR M) < 5)%R).
  { rewrite <- log10_100000. unfold log10. pose proof ln_10_pos.
    apply Rmult_lt_compat_r; [apply Rinv_0_lt_compat; assumption|].
    apply ln_increasing; [lra|]. apply IZR_lt. lia. }
  lra.
Qed.

Lemma detect_db_range_dynamic_range_bounded_witness :
  exists d : R,
    dynamic_range (mk_db_range (amplitude_db 4) (amplitude_db 3)
                     (xsub (amplitude_db 4) (amplitude_db 3))) = Fin d
    /\ (0 <= d < 100)%R.
Proof.
  apply (detect_db_range_dynamic_range_bounded [3; -4; 0]%Z).
  unfold detect_db_range.
  change (np_max (map np_abs16 [3; -4; 0]%Z)) with (Ok 4%Z : result Z).
  change (np_min (map np_abs16 (nonzero [3; -4; 0]%Z))) with (Ok 3%Z : result Z).
  cbn [mbind result_bind].
  rewrite (amplitude_db_pos 3) by lia. reflexivity.
Defined.

(** With a nonzero sample every reduction of [analyze_audio_levels] has an
    operand that is not empty. *)
Lemma analyze_audio_levels_nonzero_ok (w : list Z) :
  Exists (fun x => x <> 0%Z) w -> exists r, analyze_audio_levels w = Ok r.
Proof.
  intros Hnz.
  assert (Hne : nonzero w <> []) by (apply nonzero_nonempty; exact Hnz).
  assert (Hw : w <> []) by (intros ->; apply Hne; reflexivity).
  unfold analyze_audio_levels, detect_db_range.
  destruct (np_max_spec (map np_abs16 w)) as (M & HM & _).
  { intros E. apply map_eq_nil in E. contradiction. }
  destruct (np_min_spec (map np_abs16 w)) as (N & HN & _).
  { intros E. apply map_eq_nil in E. contradiction. }
  destruct (np_min_spec (map np_abs16 (nonzero w))) as (N' & HN' & _).
  { intros E. apply map_eq_nil in E. contradiction. }
  rewrite HM, HN, HN'. eexists. reflexivity.
Qed.

(** X4.  [analyze_audio_levels] returns exactly on the waveforms that hold a
    nonzero sample; on the empty and on the all-zero waveform it raises. *)
Theorem analyze_audio_levels_returns_iff_nonzero (w : list Z) :
  is_ok (analyze_audio_levels w) = true <-> Exists (fun x => x <> 0%Z) w.
Proof.
  split.
  - intros Hok.
    assert (Hdec : forall x : Z, {x <> 0%Z} + {~ x <> 0%Z}).
    { intros x. destruct (Z.eq_dec x 0%Z); [right; tauto|left; assumption]. }
    destruct (List.Exists_dec (fun x => x <> 0%Z) w Hdec) as [H|H]; [exact H|].
    exfalso.
    assert (Hz : Forall (fun x => x = 0%Z) w).
    { apply List.Forall_forall. intros x Hin.
      destruct (Z.eq_dec x 0%Z) as [E|E]; [exact E|].
      exfalso. apply H. apply List.Exists_exists. exists x. tauto. }
    destruct (analyze_audio_levels_all_zero w Hz) as [msg Hr].
    rewrite Hr in Hok. discriminate.
  - intros Hnz. destruct (analyze_audio_levels_nonzero_ok w Hnz) as [r ->].
    reflexivity.
Qed.

Lemma analyze_audio_levels_returns_iff_nonzero_witness :
  is_ok (analyze_audio_levels [0; 5; 0]%Z) = true.
Proof.
  apply (proj2 (analyze_audio_levels_returns_iff_nonzero [0; 5; 0]%Z)).
  apply Exists_cons_tl. apply Exists_cons_hd. lia.
Defined.

(** X5.  On a waveform without the sample [-32768], the amplitudes that
    [analyze_audio_levels] reports are ordered: the minimum is at least 0,
    the maximum at most 32767, and the mean lies between the two. *)
Theorem analyze_audio_levels_amplitudes_ordered
    (w : list Z) (r : audio_levels) :
  Forall (fun x => (-32768 < x <= 32767)%Z) w ->
  analyze_audio_levels w = Ok r ->
  exists m : R,
    mean_amplitude r = Fin m
    /\ (0 <= min_amplitude r)%Z
    /\ (IZR (min_amplitude r) <= m <= IZR (max_amplitude r))%R
    /\ (max_amplitude r <= 32767)%Z.
Proof.
  intros Hrange Hrun. unfold analyze_audio_levels in Hrun.
  destruct (np_max (map np_abs16 w)) as [M|e] eqn:HM; [|discriminate].
  destruct (np_min (map np_abs16 w)) as [N|e] eqn:HN; [|discriminate].
  cbn [mbind result_bind] in Hrun.
  destruct (detect_db_range w) as [dbr|e]; [|discriminate].
  cbn [mbind result_bind] in Hrun. injection Hrun as <-.
  cbn [mean_amplitude min_amplitude max_amplitude].
  assert (Hne : map np_abs16 w <> []).
  { intros E. rewrite E in HM. discriminate. }
  destruct (np_max_spec _ Hne) as (M' & HM' & HMin & HMle).
  rewrite HM in HM'. injection HM' as <-.
  destruct (np_min_spec _ Hne) as (N' & HN' & HNin & HNle).
  rewrite HN in HN'. injection HN' as <-.
  rewrite np_mean_nonempty by exact Hne.
  eexists. split; [reflexivity|].
  assert (Hall : Forall (fun a => (N <= a <= M)%Z) (map np_abs16 w)).
  { apply List.Forall_forall. intros a Ha. split; [apply HNle|apply HMle]; exact Ha. }
  pose proof (zsum_bounds _ _ _ Hall) as [Hlo Hhi].
  pose proof (INR_length_pos _ Hne) as Hlen.
  split.
  { apply in_map_iff in HNin. destruct HNin as (x & <- & Hx).
    rewrite np_abs16_abs by (apply (proj1 (List.Forall_forall _ _) Hrange); exact Hx).
    lia. }
  split.
  { apply IZR_le in Hlo. apply IZR_le in Hhi.
    rewrite mult_IZR, <- INR_IZR_INZ in Hlo, Hhi.
    split.
    - apply Rmult_le_reg_r with (INR (length (map np_abs16 w))); [exact Hlen|].
      unfold Rdiv. rewrite Rmult_assoc, Rinv_l by lra. lra.
    - apply Rmult_le_reg_r with (INR (length (map np_abs16 w))); [exact Hlen|].
      unfold Rdiv. rewrite Rmult_assoc, Rinv_l by lra. lra. }
  apply in_map_iff in HMin. destruct HMin as (x & <- & _).
  unfold np_abs16. apply wrap16_range.
Qed.

Lemma analyze_audio_levels_amplitudes_ordered_witness :
  exists r m,
    analyze_audio_levels [3; -4; 0]%Z = Ok r
    /\ mean_amplitude r = Fin m
    /\ (0 <= min_amplitude r)%Z
    /\ (IZR (min_amplitude r) <= m <= IZR (max_amplitude r))%R
    /\ (max_amplitude r <= 32767)%Z.
Proof.
  destruct (analyze_audio_levels_nonzero_ok [3; -4; 0]%Z) as [r Hrun];
    [constructor; lia|].
  destruct (analyze_audio_levels_amplitudes_ordered [3; -4; 0]%Z r)
    as (m & H); [repeat constructor; lia|exact Hrun|].
  exists r, m. split; [exact Hrun|exact H].
Defined.


(* ===================================================================== *)
(** * The band-pass filter *)
(* ===================================================================== *)

Section BandPass.

Open Scope Q_scope.

Lemma Qle_bool_false (x y : Q) : Qle_bool x y = false -> y < x.
Proof.
  intros H. apply Qnot_le_lt. intros Hle.
  apply Qle_bool_iff in Hle. congruence.
Qed.

(** The band edges after the two clamping assignments. *)
Lemma clamped_low_pos (low : Q) :
  0 < (if Qle_bool low 0 then 1 # 1000 else low).
Proof.
  destruct (Qle_bool low 0) eqn:E; [reflexivity|].
  apply Qle_bool_false. exact E.
Qed.

Lemma clamped_high_below_1 (high : Q) :
  (if Qle_bool 1 high then 999 # 1000 else high) < 1.
Proof.
  destruct (Qle_bool 1 high) eqn:E; [reflexivity|].
  apply Qle_bool_false. exact E.
Qed.

Lemma Qdiv_le_compat_pos (a b c : Q) : 0 < c -> a <= b -> a / c <= b / c.
Proof.
  intros Hc Hab. unfold Qdiv. apply Qmult_le_compat_r; [exact Hab|].
  apply Qlt_le_weak. apply Qinv_lt_0_compat. exact Hc.
Qed.

End BandPass.

(** X6.  At a positive sample rate [apply_bandpass_filter] either returns
    its input unchanged, or designs the filter for a band [l, h] with
    [0 < l < h < 1] and returns what the filtering returns: the design is
    never asked for an empty, inverted or out-of-range band. *)
Theorem apply_bandpass_filter_designs_valid_band
    (coefficients : Type)
    (signal_butter : nat -> list Q -> btype -> result coefficients)
    (signal_filtfilt : coefficients -> list Z -> result (list Z))
    (waveform : list Z) (sample_rate low_freq high_freq : Q) (order : nat) :
  (0 < sample_rate)%Q ->
  apply_bandpass_filter coefficients signal_butter signal_filtfilt
    waveform sample_rate low_freq high_freq order = Ok waveform
  \/ exists l h : Q,
       (0 < l)%Q /\ (l < h)%Q /\ (h < 1)%Q
       /\ apply_bandpass_filter coefficients signal_butter signal_filtfilt
            waveform sample_rate low_freq high_freq order
          = (ba ← signal_butter order [l; h] Band;
             signal_filtfilt ba waveform).
Proof.
  intros Hsr. unfold apply_bandpass_filter.
  rewrite !py_truediv_nyquist by exact Hsr. cbn [mbind result_bind].
  set (low := if Qle_bool (low_freq / (sample_rate / 2)) 0
              then (1 # 1000)%Q else (low_freq / (sample_rate / 2))%Q).
  set (high := if Qle_bool 1 (high_freq / (sample_rate / 2))
               then (999 # 1000)%Q else (high_freq / (sample_rate / 2))%Q).
  destruct (Qle_bool high low) eqn:E; [left; reflexivity|].
  right. exists low, high. split; [apply clamped_low_pos|].
  split; [apply Qle_bool_false; exact E|].
  split; [apply clamped_high_below_1|reflexivity].
Qed.

Lemma apply_bandpass_filter_designs_valid_band_witness :
  apply_bandpass_filter unit (fun _ _ _ => Ok tt) (fun _ w => Ok (rev w))
    [1; -2; 3]%Z 44100 300 3000 5 = Ok [1; -2; 3]%Z
  \/ exists l h : Q,
       (0 < l)%Q /\ (l < h)%Q /\ (h < 1)%Q
       /\ apply_bandpass_filter unit (fun _ _ _ => Ok tt)
            (fun _ w => Ok (rev w)) [1; -2; 3]%Z 44100 300 3000 5
          = (ba ← (fun _ _ _ => Ok tt) 5%nat [l; h] Band;
             (fun _ w => Ok (rev w)) ba [1; -2; 3]%Z).
Proof.
  apply (apply_bandpass_filter_designs_valid_band unit
           (fun _ _ _ => Ok tt) (fun _ w => Ok (rev w))
           [1; -2; 3]%Z 44100 300 3000 5).
  reflexivity.
Defined.

(** X7.  At a positive sample rate [apply_bandpass_filter] returns its
    input unchanged, without designing a filter, whenever the upper edge of
    the requested band is not above the lower edge. *)
Theorem apply_bandpass_filter_identity_on_inverted_band
    (coefficients : Type)
    (signal_butter : nat -> list Q -> btype -> result coefficients)
    (signal_filtfilt : coefficients -> list Z -> result (list Z))
    (waveform : list Z) (sample_rate low_freq high_freq : Q) (order : nat) :
  (0 < sample_rate)%Q -> (high_freq <= low_freq)%Q ->
  apply_bandpass_filter coefficients signal_butter signal_filtfilt
    waveform sample_rate low_freq high_freq order = Ok waveform.
Proof.
  intros Hsr Hinv. unfold apply_bandpass_filter.
  rewrite !py_truediv_nyquist by exact Hsr. cbn [mbind result_bind].
  pose proof (nyquist_pos sample_rate Hsr) as Hny.
  pose proof (Qdiv_le_compat_pos _ _ _ Hny Hinv) as Hq.
  set (low := (low_freq / (sample_rate / 2))%Q) in *.
  set (high := (high_freq / (sample_rate / 2))%Q) in *.
  assert (H : Qle_bool (if Qle_bool 1 high then (999 # 1000)%Q else high)
                       (if Qle_bool low 0 then (1 # 1000)%Q else low) = true).
  { apply Qle_bool_iff.
    destruct (Qle_bool low 0) eqn:El, (Qle_bool 1 high) eqn:Eh.
    - apply Qle_bool_iff in El, Eh. exfalso.
      assert (Hc : (1 <= 0)%Q).
      { eapply Qle_trans; [exact Eh|]. eapply Qle_trans; [exact Hq|exact El]. }
      exact (Hc eq_refl).
    - apply Qle_bool_iff in El.
      eapply Qle_trans; [exact Hq|]. eapply Qle_trans; [exact El|]. discriminate.
    - apply Qle_bool_iff in Eh.
      apply Qle_trans with 1%Q; [discriminate|].
      eapply Qle_trans; [exact Eh|exact Hq].
    - exact Hq. }
  rewrite H. reflexivity.
Qed.

Lemma apply_bandpass_filter_identity_on_inverted_band_witness :
  apply_bandpass_filter unit (fun _ _ _ => Ok tt) (fun _ w => Ok (rev w))
    [1; -2; 3]%Z 44100 3000 300 5 = Ok [1; -2; 3]%Z.
Proof.
  apply (apply_bandpass_filter_identity_on_inverted_band unit
           (fun _ _ _ => Ok tt) (fun _ w => Ok (rev w))
           [1; -2; 3]%Z 44100 3000 300 5).
  - reflexivity.
  - discriminate.
Defined.


(* ===================================================================== *)
(** * [np.argsort] sorts *)
(* ===================================================================== *)

Section ArgsortSorted.

Variable x : list R.

Lemma le_at_trans (a b c : nat) : le_at x a b -> le_at x b c -> le_at x a c.
Proof.
  intros (va & vb & Ha & Hb & Hab) (vb' & vc & Hb' & Hc & Hbc).
  rewrite Hb in Hb'. injection Hb' as <-.
  exists va, vc. split; [exact Ha|]. split; [exact Hc|lra].
Qed.

Lemma lt_at_le_at (i j : nat) : lt_at Rltb x i j = true -> le_at x i j.
Proof.
  unfold lt_at, le_at.
  destruct (x !! i) as [a|], (x !! j) as [b|]; try discriminate.
  intros H. exists a, b. split; [reflexivity|]. split; [reflexivity|].
  unfold Rltb in H. destruct (Rlt_dec a b); [lra|discriminate].
Qed.

Lemma not_lt_at_le_at (i j : nat) :
  (i < length x)%nat -> (j < length x)%nat ->
  lt_at Rltb x i j = false -> le_at x j i.
Proof.
  intros Hi Hj. unfold lt_at, le_at.
  destruct (lookup_lt_is_Some_2 x i Hi) as [a ->].
  destruct (lookup_lt_is_Some_2 x j Hj) as [b ->].
  intros H. exists b, a. split; [reflexivity|]. split; [reflexivity|].
  unfold Rltb in H. destruct (Rlt_dec a b); [discriminate|lra].
Qed.

Lemma insert_index_sorted (i : nat) (s : list nat) :
  (i < length x)%nat -> Forall (fun j => (j < length x)%nat) s ->
  StronglySorted (le_at x) s ->
  StronglySorted (le_at x) (insert_index Rltb x i s).
Proof.
  intros Hi Hvalid Hs. induction Hs as [|j rest Hrest IH Hj].
  - cbn [insert_index]. repeat constructor.
  - apply Forall_cons in Hvalid. destruct Hvalid as [Hjlen Hvalid].
    cbn [insert_index]. destruct (lt_at Rltb x i j) eqn:E.
    + apply lt_at_le_at in E. constructor.
      * constructor; assumption.
      * constructor; [exact E|].
        eapply Forall_impl; [exact Hj|]. intros k Hk.
        eapply le_at_trans; eassumption.
    + apply not_lt_at_le_at in E; [|assumption..]. constructor.
      * apply IH. exact Hvalid.
      * rewrite (insert_index_perm Rltb x i rest).
        constructor; assumption.
Qed.

(** The indices that [np.argsort] returns are in range and list the values
    in ascending order. *)
Lemma np_argsort_sorted :
  Forall (fun j => (j < length x)%nat) (np_argsort Rltb x)
  /\ StronglySorted (le_at x) (np_argsort Rltb x).
Proof.
  unfold np_argsort.
  assert (H : forall l acc,
             Forall (fun j => (j < length x)%nat) l ->
             Forall (fun j => (j < length x)%nat) acc ->
             StronglySorted (le_at x) acc ->
             Forall (fun j => (j < length x)%nat)
               (fold_left (fun acc i => insert_index Rltb x i acc) l acc)
             /\ StronglySorted (le_at x)
                  (fold_left (fun acc i => insert_index Rltb x i acc) l acc)).
  { induction l as [|i l IH]; intros acc Hl Hacc Hs; [split; assumption|].
    apply Forall_cons in Hl. destruct Hl as [Hi Hl].
    cbn [fold_left]. apply IH; [exact Hl| |].
    - rewrite (insert_index_perm Rltb x i acc). constructor; assumption.
    - apply insert_index_sorted; assumption. }
  apply H; [|constructor|constructor].
  apply List.Forall_forall. intros j Hj. apply in_seq in Hj. lia.
Qed.

End ArgsortSorted.

Section SortedLists.

Context {A : Type}.

(** Reversal turns an ascending list into a descending one. *)
Lemma StronglySorted_rev (R : relation A) (l : list A) :
  StronglySorted R l -> StronglySorted (flip R) (rev l).
Proof.
  induction 1 as [|a l Hl IH Ha]; [constructor|].
  cbn [rev]. apply StronglySorted_app_2; [|exact IH|repeat constructor].
  intros x1 x2 Hx1 Hx2. apply list_elem_of_singleton in Hx2. subst x2.
  unfold flip. apply list_elem_of_In, in_rev in Hx1.
  exact (proj1 (List.Forall_forall _ _) Ha x1 Hx1).
Qed.

Lemma StronglySorted_take (R : relation A) (n : nat) (l : list A) :
  StronglySorted R l -> StronglySorted R (take n l).
Proof.
  intros H. rewrite <- (take_drop n l) in H.
  exact (StronglySorted_app_1_l _ _ _ H).
Qed.

End SortedLists.


(* ===================================================================== *)
(** * [detect_harmonics] ranks the spectral peaks *)
(* ===================================================================== *)

Section OmapLemmas.

Context {A B C : Type}.

Lemma omap_lookup_seq (l : list A) :
  omap (fun i => l !! i) (seq 0 (length l)) = l.
Proof.
  assert (H : forall (k : list A) (pre : list A),
             omap (fun i => (pre ++ k) !! i) (seq (length pre) (length k)) = k).
  { induction k as [|a k IH]; intros pre; [reflexivity|].
    cbn [length seq omap list_omap].
    rewrite (lookup_app_r pre (a :: k)) by lia.
    rewrite Nat.sub_diag. cbn [lookup list_lookup].
    f_equal. specialize (IH (pre ++ [a])).
    rewrite length_app, <- app_assoc in IH. cbn [length app] in IH.
    replace (length pre + 1)%nat with (S (length pre)) in IH by lia.
    exact IH. }
  apply (H l []).
Qed.

Lemma omap_bind (f : A -> option B) (g : B -> option C) (l : list A) :
  omap (fun x => f x ≫= g) l = omap g (omap f l).
Proof.
  induction l as [|x l IH]; [reflexivity|].
  cbn [omap list_omap]. destruct (f x) as [y|]; cbn [mbind option_bind].
  - cbn [omap list_omap]. destruct (g y); rewrite IH; reflexivity.
  - exact IH.
Qed.

Lemma omap_take (f : A -> option B) (n : nat) (l : list A) :
  Forall (fun x => is_Some (f x)) l ->
  omap f (take n l) = take n (omap f l).
Proof.
  intros H. revert n. induction H as [|x l [y Hy] _ IH]; intros n.
  - destruct n; reflexivity.
  - destruct n as [|n]; [reflexivity|].
    cbn [take firstn omap list_omap]. rewrite Hy. cbn [take firstn].
    rewrite IH. reflexivity.
Qed.

Lemma omap_sorted (f : A -> option B) (R1 : relation A) (R2 : relation B)
    (l : list A) :
  (forall x y fx fy, R1 x y -> f x = Some fx -> f y = Some fy -> R2 fx fy) ->
  StronglySorted R1 l -> StronglySorted R2 (omap f l).
Proof.
  intros Hf. induction 1 as [|x l Hl IH Hx]; [constructor|].
  cbn [omap list_omap]. destruct (f x) as [fx|] eqn:Efx; [|exact IH].
  constructor; [exact IH|].
  apply List.Forall_forall. intros fy Hfy.
  apply In_omap in Hfy. destruct Hfy as (y & Hy & Efy).
  apply (Hf x y); [|assumption..].
  exact (proj1 (List.Forall_forall _ _) Hx y Hy).
Qed.

End OmapLemmas.

Section Ranking.

Open Scope R_scope.

Lemma fold_left_Rmax_spec (t : list R) (x : R) :
  forall y, In y (x :: t) -> y <= fold_left Rmax t x.
Proof.
  revert x. induction t as [|a t IH]; intros x y Hy; cbn [fold_left].
  - destruct Hy as [->|[]]. lra.
  - destruct Hy as [->|[->|Hy]].
    + eapply Rle_trans; [apply (Rmax_l y a)|]. apply IH. left. reflexivity.
    + eapply Rle_trans; [apply (Rmax_r x y)|]. apply IH. left. reflexivity.
    + apply IH. right. exact Hy.
Qed.

(** [np.max] is an upper bound of the array. *)
Lemma np_max_float_upper (a : list R) (mx y : R) :
  np_max_float a = Ok mx -> In y a -> y <= mx.
Proof.
  destruct a as [|x t]; [discriminate|]. intros E Hy. injection E as <-.
  apply fold_left_Rmax_spec. exact Hy.
Qed.

Lemma cabs_nonneg (z : complex) : 0 <= cabs z.
Proof. unfold cabs. apply sqrt_pos. Qed.

(** Magnitudes are not negative. *)
Lemma positive_spectrum_nonneg (w : list Z) (sample_rate : Z)
    (freqs mags : list R) (m : R) :
  positive_spectrum w sample_rate = Ok (freqs, mags) -> In m mags -> 0 <= m.
Proof.
  intros Hps Hin. unfold positive_spectrum in Hps.
  destruct (np_fft w) as [fft|e]; [|discriminate].
  destruct (py_inv sample_rate) as [d|e]; [|discriminate].
  cbn [mbind result_bind] in Hps. injection Hps as <- <-.
  apply select_In in Hin. destruct Hin as (i & _ & Hi).
  apply list_elem_of_lookup_2, list_elem_of_In, in_map_iff in Hi.
  destruct Hi as (z & <- & _). apply cabs_nonneg.
Qed.

(** A peak is strictly higher than the sample before its plateau, so a peak
    of a non-negative array is positive. *)
Lemma flat_peak_pos (x : list R) (p : nat) (m : R) :
  (forall y, In y x -> 0 <= y) ->
  flat_peak Rltb x p -> x !! p = Some m -> 0 < m.
Proof.
  intros Hnn (l & r & Hl & Hp & Hr & Hflat & Hleft & _) Hm.
  specialize (Hflat p Hp). unfold eq_at in Hflat. rewrite Hm in Hflat.
  unfold lt_at in Hleft.
  destruct (x !! (l - 1)%nat) as [a|] eqn:Ea; [|discriminate].
  destruct (x !! l) as [b|] eqn:Eb; [|discriminate].
  apply andb_true_iff in Hflat. destruct Hflat as [H1 H2].
  apply negb_true_iff in H1, H2.
  unfold Rltb in *.
  destruct (Rlt_dec a b); [|discriminate].
  destruct (Rlt_dec m b); [discriminate|].
  destruct (Rlt_dec b m); [discriminate|].
  assert (0 <= a).
  { apply Hnn. apply list_elem_of_In. eapply list_elem_of_lookup_2. exact Ea. }
  lra.
Qed.

(** The level of a peak relative to the largest magnitude. *)
Lemma relative_db_value (m mx : R) :
  0 < m -> 0 < mx ->
  relative_db m mx = Fin (20 * log10 (m / mx + / 10000000000)).
Proof.
  intros Hm Hmx. unfold relative_db, np_divide.
  destruct (Req_dec_T mx 0) as [E|_]; [lra|]. cbn [xadd_c].
  assert (0 < m / mx) by (apply Rdiv_lt_0_compat; assumption).
  rewrite np_log10_pos by lra. reflexivity.
Qed.

Lemma relative_db_mono (m1 m2 mx : R) :
  0 < m1 -> m1 <= m2 -> 0 < mx ->
  20 * log10 (m1 / mx + / 10000000000) <= 20 * log10 (m2 / mx + / 10000000000).
Proof.
  intros H1 H12 Hmx.
  assert (0 < m1 / mx) by (apply Rdiv_lt_0_compat; assumption).
  assert (m1 / mx <= m2 / mx).
  { unfold Rdiv. apply Rmult_le_compat_r; [|exact H12].
    left. apply Rinv_0_lt_compat. exact Hmx. }
  pose proof (log10_increasing (m1 / mx + / 10000000000)
                (m2 / mx + / 10000000000) ltac:(lra) ltac:(lra)).
  lra.
Qed.

Lemma ln_10_gt_1 : 1 < ln 10.
Proof.
  rewrite <- (ln_exp 1). apply ln_increasing; [apply exp_pos|].
  pose proof exp_le_3. lra.
Qed.

Lemma log10_hundredth : log10 (/ 100) = -2.
Proof.
  unfold log10. rewrite ln_Rinv by lra.
  replace 100 with (10 ^ 2) by lra. rewrite ln_pow by lra.
  simpl INR. field. pose proof ln_10_pos. lra.
Qed.

(** Between one hundredth of the largest magnitude and the largest magnitude
    the relative level lies strictly between -40 dB and a millionth of a
    decibel. *)
Lemma relative_db_bounds (m mx : R) :
  0 < mx -> mx * / 100 <= m <= mx ->
  -40 < 20 * log10 (m / mx + / 10000000000) < / 1000000.
Proof.
  intros Hmx [Hlo Hhi].
  assert (Hq : / 100 <= m / mx <= 1).
  { split.
    - apply Rmult_le_reg_r with mx; [exact Hmx|].
      unfold Rdiv. rewrite Rmult_assoc, Rinv_l by lra. lra.
    - apply Rmult_le_reg_r with mx; [exact Hmx|].
      unfold Rdiv. rewrite Rmult_assoc, Rinv_l by lra. lra. }
  set (q := m / mx) in *. pose proof ln_10_pos as H10.
  pose proof ln_10_gt_1 as H10'. split.
  - assert (log10 (/ 100) < log10 (q + / 10000000000)).
    { unfold log10. apply Rmult_lt_compat_r; [apply Rinv_0_lt_compat; lra|].
      apply ln_increasing; lra. }
    rewrite log10_hundredth in H. lra.
  - assert (Hln : ln (q + / 10000000000) < / 10000000000).
    { apply Rle_lt_trans with (ln (1 + / 10000000000)).
      - destruct (Req_dec q 1) as [->|Hne]; [lra|].
        left. apply ln_increasing; lra.
      - rewrite <- (ln_exp (/ 10000000000)) at 2.
        apply ln_increasing; [lra|]. apply exp_ineq1. lra. }
    unfold log10.
    assert (Hdiv : ln (q + / 10000000000) / ln 10 < / 10000000000).
    { destruct (Rle_or_lt (ln (q + / 10000000000)) 0) as [Hneg|Hpos].
      - apply Rle_lt_trans with 0; [|lra].
        unfold Rdiv. pose proof (Rinv_0_lt_compat _ H10). nra.
      - apply Rmult_lt_reg_r with (ln 10); [exact H10|].
        unfold Rdiv. rewrite Rmult_assoc, Rinv_l by lra. nra. }
    lra.
Qed.

End Ranking.

(** The peaks, rearranged by descending magnitude; [detect_harmonics]
    returns the first [num_harmonics] of them, each with its frequency and
    its level relative to the largest magnitude. *)
Lemma detect_harmonics_ranking (w : list Z) (sample_rate : Z)
    (num_harmonics : nat) (hs : list harmonic) :
  detect_harmonics w sample_rate num_harmonics = Ok hs ->
  exists (freqs mags : list R) (mx : R) (ranked : list nat),
    positive_spectrum w sample_rate = Ok (freqs, mags)
    /\ np_max_float mags = Ok mx
    /\ ranked ≡ₚ find_peaks Rltb mags (mx * / 100)%R
    /\ StronglySorted (flip (le_at mags)) ranked
    /\ Forall2 (fun p h =>
                  exists m, freqs !! p = Some (frequency h)
                            /\ mags !! p = Some m
                            /\ magnitude_db h = relative_db m mx)
               (take num_harmonics ranked) hs.
Proof.
  unfold detect_harmonics. intros Hrun.
  destruct (positive_spectrum w sample_rate) as [[freqs mags]|e] eqn:Hps;
    [|discriminate].
  cbn [mbind result_bind] in Hrun.
  destruct (np_max_float mags) as [mx|e] eqn:Hmx; [|discriminate].
  cbn [mbind result_bind] in Hrun.
  exists freqs, mags, mx.
  set (peaks := find_peaks Rltb mags (mx * / 100)%R) in *.
  destruct (Nat.eqb_spec (length peaks) 0) as [E|_]; injection Hrun as <-.
  { exists []. apply length_zero_iff_nil in E. rewrite E.
    split; [reflexivity|]. split; [exact Hmx|]. split; [reflexivity|].
    split; [constructor|]. rewrite take_nil. constructor. }
  set (pm := take_indices mags peaks) in *.
  set (order := rev (np_argsort Rltb pm)).
  assert (Hvalid : Forall (fun q => is_Some (mags !! q)) peaks).
  { apply List.Forall_forall. intros q Hq.
    destruct (find_peaks_spec Rltb Rltb_irrefl mags _ q Hq)
      as [_ (v & Hv & _)].
    exists v. exact Hv. }
  assert (Hpm : length pm = length peaks)
    by (apply take_indices_length; exact Hvalid).
  assert (Hperm : order ≡ₚ seq 0 (length peaks)).
  { unfold order. rewrite <- Hpm, <- (np_argsort_perm Rltb pm).
    symmetry. apply Permutation_rev. }
  assert (Horder : Forall (fun i => (i < length peaks)%nat) order).
  { apply List.Forall_forall. intros i Hi.
    apply list_elem_of_In in Hi. rewrite Hperm in Hi.
    apply list_elem_of_In, in_seq in Hi. lia. }
  assert (Hsome : Forall (fun i => is_Some (peaks !! i)) order).
  { eapply Forall_impl; [exact Horder|]. intros i Hi.
    apply lookup_lt_is_Some_2. exact Hi. }
  exists (omap (fun i => peaks !! i) order).
  split; [reflexivity|]. split; [exact Hmx|]. split.
  { rewrite Hperm. rewrite omap_lookup_seq. reflexivity. }
  split.
  { apply (omap_sorted _ (flip (le_at pm))).
    - intros i j p q (vj & vi & Hj & Hi & Hle) Hp Hq.
      unfold pm in Hj, Hi.
      rewrite (take_indices_lookup mags peaks j Hvalid) in Hj.
      rewrite (take_indices_lookup mags peaks i Hvalid) in Hi.
      rewrite Hq in Hj. rewrite Hp in Hi. cbn [mbind option_bind] in Hj, Hi.
      exists vj, vi. split; [exact Hj|]. split; [exact Hi|exact Hle].
    - unfold order. apply StronglySorted_rev. apply np_argsort_sorted. }
  rewrite <- omap_take by exact Hsome.
  assert (Htake : Forall (fun i => (i < length peaks)%nat)
                    (take num_harmonics order)).
  { apply List.Forall_forall. intros i Hi. apply list_elem_of_In in Hi.
    apply elem_of_take in Hi. destruct Hi as (j & Hi & _).
    apply (proj1 (List.Forall_forall _ _) Horder).
    apply list_elem_of_In. eapply list_elem_of_lookup_2. exact Hi. }
  fold order. induction Htake as [|i rest Hi _ IH]; [constructor|].
  cbn [omap list_omap].
  destruct (lookup_lt_is_Some_2 peaks i Hi) as [p Hp]. rewrite Hp.
  cbn [mbind option_bind].
  assert (Hpin : In p peaks).
  { apply list_elem_of_In. eapply list_elem_of_lookup_2. exact Hp. }
  destruct (proj1 (List.Forall_forall _ _) Hvalid p Hpin) as [m Hm].
  pose proof (lookup_lt_Some _ _ _ Hm) as Hplen.
  rewrite <- (positive_spectrum_lengths _ _ _ _ Hps) in Hplen.
  destruct (lookup_lt_is_Some_2 freqs p Hplen) as [freq Hfreq].
  rewrite Hfreq. cbn [mbind option_bind].
  assert (Hpmi : pm !! i = Some m).
  { unfold pm. rewrite (take_indices_lookup mags peaks _ Hvalid), Hp.
    exact Hm. }
  rewrite Hpmi. cbn [mbind option_bind].
  constructor; [|exact IH].
  exists m. cbn [frequency magnitude_db].
  split; [exact Hfreq|]. split; [exact Hm|reflexivity].
Qed.


(* ===================================================================== *)
(** * [detect_harmonics]: the entries are the strongest spectral peaks *)
(* ===================================================================== *)

(** C1, as amended.  For every waveform and sample rate, every entry returned
    by [detect_harmonics] is a peak of the positive-frequency magnitude
    spectrum: a local maximum (possibly flat) that is not lower than one
    hundredth of the largest magnitude.  Its frequency is positive and is an
    integer multiple of the bin spacing [sample_rate / n], where [n] is the
    number of samples, and its level is that of the peak relative to the
    largest magnitude.  The entries are the strongest peaks, strongest
    first: there are [min(num_harmonics, number of peaks)] of them, and a
    peak that is not among them is not stronger than any of them.  Nothing
    relates the entries to the lowest detected peak frequency. *)
Theorem detect_harmonics_entries_are_spectral_peaks
    (w : list Z) (sample_rate : Z) (num_harmonics : nat)
    (hs : list harmonic) :
  detect_harmonics w sample_rate num_harmonics = Ok hs ->
  exists (freqs mags : list R) (mx : R) (bins : list nat),
    positive_spectrum w sample_rate = Ok (freqs, mags)
    /\ np_max_float mags = Ok mx
    /\ Forall2 (fun p h =>
                  exists (m : R) (k : Z),
                    freqs !! p = Some (frequency h)
                    /\ mags !! p = Some m
                    /\ flat_peak Rltb mags p
                    /\ (mx * / 100 <= m)%R
                    /\ magnitude_db h = relative_db m mx
                    /\ frequency h
                       = (IZR k * (IZR sample_rate / INR (length w)))%R
                    /\ (0 < frequency h)%R)
               bins hs
    /\ length hs
       = Nat.min num_harmonics (length (find_peaks Rltb mags (mx * / 100)%R))
    /\ (length hs <= num_harmonics)%nat
    /\ StronglySorted (flip (le_at mags)) bins
    /\ (forall q,
          In q (find_peaks Rltb mags (mx * / 100)%R) -> ~ In q bins ->
          Forall (fun p => le_at mags q p) bins).
Proof.
  intros Hrun.
  destruct (detect_harmonics_ranking _ _ _ _ Hrun)
    as (freqs & mags & mx & ranked & Hps & Hmx & Hperm & Hsorted & Hall).
  exists freqs, mags, mx, (take num_harmonics ranked).
  assert (Hlen : length hs
                 = Nat.min num_harmonics
                     (length (find_peaks Rltb mags (mx * / 100)%R))).
  { rewrite <- (Forall2_length _ _ _ Hall), length_take.
    rewrite (Permutation_length Hperm). reflexivity. }
  split; [exact Hps|]. split; [exact Hmx|]. split; [|split; [exact Hlen|split]].
  - assert (Hin : Forall (fun p => In p (find_peaks Rltb mags (mx * / 100)%R))
                    (take num_harmonics ranked)).
    { apply List.Forall_forall. intros p Hp. apply list_elem_of_In.
      rewrite <- Hperm. apply list_elem_of_In in Hp.
      apply elem_of_take in Hp. destruct Hp as (j & Hp & _).
      eapply list_elem_of_lookup_2. exact Hp. }
    clear Hlen Hsorted Hperm Hrun.
    induction Hall as [|p h ps hs' (m & Hfreq & Hm & Hdb) _ IH];
      [constructor|].
    apply Forall_cons in Hin. destruct Hin as [Hp Hin].
    constructor; [|exact (IH Hin)].
    destruct (find_peaks_spec Rltb Rltb_irrefl mags _ p Hp)
      as [Hflat (v & Hv & Hheight)].
    rewrite Hm in Hv. injection Hv as <-.
    destruct (positive_spectrum_point w sample_rate freqs mags p
                (frequency h) m Hps Hfreq Hm) as (k & Hk & Hpos).
    exists m, k. repeat split; try assumption.
    unfold Rltb in Hheight.
    destruct (Rlt_dec m (mx * / 100)); [discriminate|lra].
  - rewrite Hlen. apply Nat.le_min_l.
  - split; [apply StronglySorted_take; exact Hsorted|].
    intros q Hq Hout. apply List.Forall_forall. intros p Hp.
    apply list_elem_of_In in Hq. rewrite <- Hperm in Hq.
    rewrite <- (take_drop num_harmonics ranked) in Hq, Hsorted.
    apply elem_of_app in Hq. destruct Hq as [Hq|Hq].
    { exfalso. apply Hout. apply list_elem_of_In. exact Hq. }
    apply list_elem_of_In in Hp.
    exact (StronglySorted_app_1_elem_of _ _ _ p q Hsorted Hp Hq).
Qed.

Lemma detect_harmonics_entries_are_spectral_peaks_witness :
  exists (freqs mags : list R) (mx : R) (bins : list nat),
    positive_spectrum two_pulse_trains 15 = Ok (freqs, mags)
    /\ np_max_float mags = Ok mx
    /\ Forall2 (fun p h =>
                  exists (m : R) (k : Z),
                    freqs !! p = Some (frequency h)
                    /\ mags !! p = Some m
                    /\ flat_peak Rltb mags p
                    /\ (mx * / 100 <= m)%R
                    /\ magnitude_db h = relative_db m mx
                    /\ frequency h
                       = (IZR k * (IZR 15 / INR (length two_pulse_trains)))%R
                    /\ (0 < frequency h)%R)
               bins
               [ mk_harmonic 5 (relative_db (500 / 100) (500 / 100));
                 mk_harmonic 3 (relative_db (300 / 100) (500 / 100)) ]
    /\ length [ mk_harmonic 5 (relative_db (500 / 100) (500 / 100));
                mk_harmonic 3 (relative_db (300 / 100) (500 / 100)) ]
       = Nat.min 10 (length (find_peaks Rltb mags (mx * / 100)%R))
    /\ (length [ mk_harmonic 5 (relative_db (500 / 100) (500 / 100));
                 mk_harmonic 3 (relative_db (300 / 100) (500 / 100)) ]
        <= 10)%nat
    /\ StronglySorted (flip (le_at mags)) bins
    /\ (forall q,
          In q (find_peaks Rltb mags (mx * / 100)%R) -> ~ In q bins ->
          Forall (fun p => le_at mags q p) bins).
Proof.
  apply (detect_harmonics_entries_are_spectral_peaks two_pulse_trains 15 10).
  exact detect_harmonics_two_pulse_trains.
Defined.


Section PeakFacts.

Open Scope R_scope.

(** What is known of the magnitude of a detected peak. *)
Lemma peak_magnitude (w : list Z) (sample_rate : Z) (freqs mags : list R)
    (mx : R) (p : nat) (m : R) :
  positive_spectrum w sample_rate = Ok (freqs, mags) ->
  np_max_float mags = Ok mx ->
  In p (find_peaks Rltb mags (mx * / 100)) ->
  mags !! p = Some m ->
  0 < m /\ 0 < mx /\ mx * / 100 <= m <= mx.
Proof.
  intros Hps Hmx Hp Hm.
  destruct (find_peaks_spec Rltb Rltb_irrefl mags _ p Hp)
    as [Hflat (v & Hv & Hheight)].
  rewrite Hm in Hv. injection Hv as <-.
  assert (Hpos : 0 < m).
  { apply (flat_peak_pos mags p m); [|exact Hflat|exact Hm].
    intros y Hy. exact (positive_spectrum_nonneg _ _ _ _ _ Hps Hy). }
  assert (Hle : m <= mx).
  { apply (np_max_float_upper mags); [exact Hmx|].
    apply list_elem_of_In. eapply list_elem_of_lookup_2. exact Hm. }
  split; [exact Hpos|]. split; [lra|]. split; [|exact Hle].
  unfold Rltb in Hheight. destruct (Rlt_dec m (mx * / 100)); [discriminate|lra].
Qed.

End PeakFacts.

(** X8.  The levels that [detect_harmonics] reports are finite numbers of
    decibels in descending order, each above -40 dB and below a millionth
    of a decibel: the entries are ordered from the strongest peak on, and
    no peak weaker than one hundredth of the largest magnitude is listed. *)
Theorem detect_harmonics_levels_descending
    (w : list Z) (sample_rate : Z) (num_harmonics : nat)
    (hs : list harmonic) :
  detect_harmonics w sample_rate num_harmonics = Ok hs ->
  exists ds : list R,
    map magnitude_db hs = map Fin ds
    /\ StronglySorted (fun a b => (b <= a)%R) ds
    /\ Forall (fun d => (-40 < d < / 1000000)%R) ds.
Proof.
  intros Hrun.
  destruct (detect_harmonics_ranking _ _ _ _ Hrun)
    as (freqs & mags & mx & ranked & Hps & Hmx & Hperm & Hsorted & Hall).
  assert (Hin : Forall (fun p => In p (find_peaks Rltb mags (mx * / 100)%R))
                  (take num_harmonics ranked)).
  { apply List.Forall_forall. intros p Hp. apply list_elem_of_In.
    rewrite <- Hperm. apply list_elem_of_In in Hp.
    apply elem_of_take in Hp. destruct Hp as (j & Hp & _).
    eapply list_elem_of_lookup_2. exact Hp. }
  pose proof (StronglySorted_take _ num_harmonics _ Hsorted) as Hs.
  clear Hperm Hsorted Hrun.
  assert (Hgoal : exists ds : list R,
             map magnitude_db hs = map Fin ds
             /\ StronglySorted (fun a b => (b <= a)%R) ds
             /\ Forall (fun d => (-40 < d < / 1000000)%R) ds
             /\ Forall2 (fun p d =>
                           exists m, mags !! p = Some m
                             /\ d = (20 * log10 (m / mx + / 10000000000))%R)
                        (take num_harmonics ranked) ds).
  { induction Hall as [|p h ps hs' (m & _ & Hm & Hdb) _ IH].
    - exists []. repeat split; constructor.
    - apply Forall_cons in Hin. destruct Hin as [Hp Hin].
      apply StronglySorted_inv in Hs. destruct Hs as [Hs Hhead].
      destruct (IH Hin Hs) as (ds & Hmap & Hds & Hbounds & Hrel).
      destruct (peak_magnitude _ _ _ _ _ _ _ Hps Hmx Hp Hm)
        as (Hmpos & Hmxpos & Hrange).
      exists ((20 * log10 (m / mx + / 10000000000))%R :: ds).
      split; [|split; [|split]].
      + cbn [map]. rewrite Hdb, relative_db_value by assumption.
        rewrite Hmap. reflexivity.
      + constructor; [exact Hds|].
        clear IH Hmap Hds Hbounds.
        induction Hrel as [|q d qs ds' (mq & Hmq & ->) _ IHrel];
          [constructor|].
        apply Forall_cons in Hhead. destruct Hhead as [Hq Hhead].
        apply Forall_cons in Hin. destruct Hin as [Hqin Hin].
        apply StronglySorted_inv in Hs. destruct Hs as [Hs _].
        constructor; [|apply IHrel; assumption].
        destruct Hq as (vq & vp & Hvq & Hvp & Hle).
        rewrite Hmq in Hvq. injection Hvq as <-.
        rewrite Hm in Hvp. injection Hvp as <-.
        destruct (peak_magnitude _ _ _ _ _ _ _ Hps Hmx Hqin Hmq)
          as (Hqpos & _ & _).
        apply relative_db_mono; assumption.
      + constructor; [|exact Hbounds].
        apply relative_db_bounds; assumption.
      + constructor; [|exact Hrel]. exists m. split; [exact Hm|reflexivity]. }
  destruct Hgoal as (ds & H1 & H2 & H3 & _). exists ds. tauto.
Qed.

Lemma detect_harmonics_levels_descending_witness :
  exists ds : list R,
    map magnitude_db
      [ mk_harmonic 5 (relative_db (500 / 100) (500 / 100));
        mk_harmonic 3 (relative_db (300 / 100) (500 / 100)) ]
    = map Fin ds
    /\ StronglySorted (fun a b => (b <= a)%R) ds
    /\ Forall (fun d => (-40 < d < / 1000000)%R) ds.
Proof.
  apply (detect_harmonics_levels_descending two_pulse_trains 15 10).
  exact detect_harmonics_two_pulse_trains.
Defined.

(** X9.  [detect_harmonics] reports the strongest peaks: it returns
    [min(num_harmonics, number of peaks)] entries, and every peak of the
    positive-frequency spectrum is either reported, with its frequency and
    relative level, or not stronger than any reported peak. *)
Theorem detect_harmonics_reports_strongest_peaks
    (w : list Z) (sample_rate : Z) (num_harmonics : nat)
    (hs : list harmonic) :
  detect_harmonics w sample_rate num_harmonics = Ok hs ->
  exists (freqs mags : list R) (mx : R),
    positive_spectrum w sample_rate = Ok (freqs, mags)
    /\ np_max_float mags = Ok mx
    /\ length hs
       = Nat.min num_harmonics
           (length (find_peaks Rltb mags (mx * / 100)%R))
    /\ forall (p : nat) (m : R),
         In p (find_peaks Rltb mags (mx * / 100)%R) ->
         mags !! p = Some m ->
         (exists h, In h hs /\ freqs !! p = Some (frequency h)
                    /\ magnitude_db h = relative_db m mx)
         \/ (forall h, In h hs ->
               exists m', (m <= m')%R /\ magnitude_db h = relative_db m' mx).
Proof.
  intros Hrun.
  destruct (detect_harmonics_ranking _ _ _ _ Hrun)
    as (freqs & mags & mx & ranked & Hps & Hmx & Hperm & Hsorted & Hall).
  exists freqs, mags, mx. split; [exact Hps|]. split; [exact Hmx|]. split.
  { rewrite <- (Forall2_length _ _ _ Hall), length_take.
    rewrite (Permutation_length Hperm). reflexivity. }
  intros p m Hp Hm.
  apply list_elem_of_In in Hp. rewrite <- Hperm in Hp.
  rewrite <- (take_drop num_harmonics ranked) in Hp, Hsorted.
  apply elem_of_app in Hp. destruct Hp as [Hp|Hp].
  - left. apply list_elem_of_lookup in Hp. destruct Hp as [i Hi].
    destruct (Forall2_lookup_l _ _ _ _ _ Hall Hi) as (h & Hh & m' & Hf & Hm' & Hdb).
    rewrite Hm in Hm'. injection Hm' as <-.
    exists h. split; [|split; assumption].
    apply list_elem_of_In. eapply list_elem_of_lookup_2. exact Hh.
  - right. intros h Hh.
    apply list_elem_of_In, list_elem_of_lookup in Hh. destruct Hh as [i Hi].
    destruct (Forall2_lookup_r _ _ _ _ _ Hall Hi) as (q & Hq & m' & _ & Hm' & Hdb).
    pose proof (StronglySorted_app_1_elem_of _ _ _ q p Hsorted
                  (list_elem_of_lookup_2 _ _ _ Hq) Hp)
      as (vp & vq & Hvp & Hvq & Hle).
    rewrite Hm in Hvp. injection Hvp as <-.
    rewrite Hm' in Hvq. injection Hvq as <-.
    exists m'. split; assumption.
Qed.

Lemma detect_harmonics_reports_strongest_peaks_witness :
  exists (freqs mags : list R) (mx : R),
    positive_spectrum two_pulse_trains 15 = Ok (freqs, mags)
    /\ np_max_float mags = Ok mx
    /\ length [ mk_harmonic 5 (relative_db (500 / 100) (500 / 100));
                mk_harmonic 3 (relative_db (300 / 100) (500 / 100)) ]
       = Nat.min 10 (length (find_peaks Rltb mags (mx * / 100)%R))
    /\ forall (p : nat) (m : R),
         In p (find_peaks Rltb mags (mx * / 100)%R) ->
         mags !! p = Some m ->
         (exists h,
             In h [ mk_harmonic 5 (relative_db (500 / 100) (500 / 100));
                    mk_harmonic 3 (relative_db (300 / 100) (500 / 100)) ]
             /\ freqs !! p = Some (frequency h)
             /\ magnitude_db h = relative_db m mx)
         \/ (forall h,
               In h [ mk_harmonic 5 (relative_db (500 / 100) (500 / 100));
                      mk_harmonic 3 (relative_db (300 / 100) (500 / 100)) ] ->
               exists m', (m <= m')%R /\ magnitude_db h = relative_db m' mx).
Proof.
  apply (detect_harmonics_reports_strongest_peaks two_pulse_trains 15 10).
  exact detect_harmonics_two_pulse_trains.
Defined.

Section Prefix.

Context {A B : Type}.

Lemma omap_full_length (f : A -> option B) (l : list A) :
  length (omap f l) = length l -> Forall (fun x => is_Some (f x)) l.
Proof.
  induction l as [|x l IH]; intros Hlen; [constructor|].
  cbn [omap list_omap] in Hlen. destruct (f x) as [y|] eqn:E.
  - cbn [length] in Hlen. constructor; [exists y; exact E|].
    apply IH. lia.
  - pose proof (omap_length_le f l). cbn [length] in Hlen. lia.
Qed.

End Prefix.

(** X10.  Asking [detect_harmonics] for fewer harmonics gives the first
    entries of the longer answer: the first [k] entries of the list returned
    for [num_harmonics] are the list returned for [k] (the dashboard shows
    [harmonics[:5]] of the default ten). *)
Theorem detect_harmonics_prefix
    (w : list Z) (sample_rate : Z) (num_harmonics k : nat)
    (hs : list harmonic) :
  (k <= num_harmonics)%nat ->
  detect_harmonics w sample_rate num_harmonics = Ok hs ->
  detect_harmonics w sample_rate k = Ok (take k hs).
Proof.
  intros Hk Hrun.
  destruct (detect_harmonics_count _ _ _ _ Hrun)
    as (freqs & mags & mx & Hps & Hmx & Hlen).
  unfold detect_harmonics in *. rewrite Hps in *.
  cbn [mbind result_bind] in *. rewrite Hmx in *.
  cbn [mbind result_bind] in *.
  set (peaks := find_peaks Rltb mags (mx * / 100)%R) in *.
  destruct (Nat.eqb_spec (length peaks) 0) as [E|_]; injection Hrun as <-.
  { rewrite take_nil. reflexivity. }
  set (pm := take_indices mags peaks) in *.
  set (order := rev (np_argsort Rltb pm)) in *.
  set (G := fun i : nat => _) in *.
  assert (Hsome : Forall (fun i => is_Some (G i)) (take num_harmonics order)).
  { apply omap_full_length. rewrite Hlen, length_take.
    unfold order. rewrite length_rev.
    rewrite (Permutation_length (np_argsort_perm Rltb pm)), length_seq.
    unfold pm. rewrite take_indices_length; [reflexivity|].
    apply List.Forall_forall. intros q Hq.
    destruct (find_peaks_spec Rltb Rltb_irrefl mags _ q Hq)
      as [_ (v & Hv & _)].
    exists v. exact Hv. }
  rewrite <- (omap_take G k _ Hsome), take_take.
  replace (Nat.min k num_harmonics) with k by lia. reflexivity.
Qed.

Lemma detect_harmonics_prefix_witness :
  detect_harmonics two_pulse_trains 15 1
  = Ok (take 1 [ mk_harmonic 5 (relative_db (500 / 100) (500 / 100));
                 mk_harmonic 3 (relative_db (300 / 100) (500 / 100)) ]).
Proof.
  apply (detect_harmonics_prefix two_pulse_trains 15 10 1).
  - lia.
  - exact detect_harmonics_two_pulse_trains.
Defined.


Section PeaksDistinct.

Context {A : Type}.
Variable lt : A -> A -> bool.

Lemma local_maxima_loop_lower (x : list A) (i_max fuel i p : nat) :
  In p (local_maxima_loop lt x i_max fuel i) -> (i <= p)%nat.
Proof.
  revert i. induction fuel as [|fuel IH]; intros i Hin; [contradiction|].
  cbn [local_maxima_loop] in Hin.
  destruct (i <? i_max)%nat; [|contradiction].
  pose proof (look_ahead_ge lt x i_max i (length x) (i + 1)) as Hge.
  set (r := look_ahead lt x i_max i (length x) (i + 1)) in *.
  destruct (lt_at lt x (i - 1) i);
    [|specialize (IH _ Hin); lia].
  destruct (lt_at lt x r i); [|specialize (IH _ Hin); lia].
  destruct Hin as [<-|Hin]; [|specialize (IH _ Hin); lia].
  pose proof (Nat.div_mod_eq (i + (r - 1)) 2).
  pose proof (Nat.mod_upper_bound (i + (r - 1)) 2 ltac:(lia)). lia.
Qed.

(** No index is reported twice as a local maximum. *)
Lemma local_maxima_loop_NoDup (x : list A) (i_max fuel i : nat) :
  NoDup (local_maxima_loop lt x i_max fuel i).
Proof.
  revert i. induction fuel as [|fuel IH]; intros i; [constructor|].
  cbn [local_maxima_loop].
  destruct (i <? i_max)%nat; [|constructor].
  pose proof (look_ahead_ge lt x i_max i (length x) (i + 1)) as Hge.
  set (r := look_ahead lt x i_max i (length x) (i + 1)) in *.
  destruct (lt_at lt x (i - 1) i); [|apply IH].
  destruct (lt_at lt x r i); [|apply IH].
  constructor; [|apply IH].
  intros Hin. apply list_elem_of_In, local_maxima_loop_lower in Hin.
  pose proof (Nat.div_mod_eq (i + (r - 1)) 2).
  pose proof (Nat.mod_upper_bound (i + (r - 1)) 2 ltac:(lia)). lia.
Qed.

Lemma NoDup_List_filter {B : Type} (f : B -> bool) (l : list B) :
  NoDup l -> NoDup (List.filter f l).
Proof.
  induction 1 as [|b l Hb _ IH]; [constructor|].
  cbn [List.filter]. destruct (f b); [|exact IH].
  constructor; [|exact IH].
  intros Hin. apply Hb. apply list_elem_of_In.
  apply list_elem_of_In, List.filter_In in Hin. tauto.
Qed.

Lemma find_peaks_NoDup (x : list A) (hmin : A) : NoDup (find_peaks lt x hmin).
Proof.
  unfold find_peaks, local_maxima_1d. apply NoDup_List_filter.
  apply local_maxima_loop_NoDup.
Qed.

End PeaksDistinct.

Section FrequencyAxis.

Open Scope R_scope.

(** The positive frequencies are pairwise different. *)
Lemma positive_frequencies_NoDup (c : R) (h : nat) :
  0 < c -> NoDup (map (fun k => INR k * c) (seq 1 h)).
Proof.
  intros Hc. apply (NoDup_fmap_2_strong (fun k => INR k * c));
    [|apply NoDup_seq].
  intros a b _ _ E. apply INR_eq. nra.
Qed.

End FrequencyAxis.

(** Below three samples there is no positive-frequency bin, and the maximum
    of the empty magnitude array raises. *)
Lemma detect_harmonics_needs_three_samples
    (w : list Z) (sample_rate : Z) (num_harmonics : nat) :
  (0 < sample_rate)%Z -> (length w < 3)%nat ->
  is_ok (detect_harmonics w sample_rate num_harmonics) = false.
Proof.
  intros Hsr Hshort. unfold detect_harmonics.
  destruct w as [|x0 w']; [reflexivity|].
  rewrite positive_spectrum_bins by (try discriminate; lia).
  assert (E : ((length (x0 :: w') - 1) / 2 = 0)%nat).
  { apply Nat.div_small. lia. }
  rewrite E. reflexivity.
Qed.

(** X11.  At a sample rate that is not negative, [detect_harmonics] returns
    a list exactly when the waveform has at least three samples and the
    sample rate is positive; otherwise it raises (no positive-frequency bin
    exists below three samples, and a zero rate divides by zero). *)
Theorem detect_harmonics_returns_iff
    (w : list Z) (sample_rate : Z) (num_harmonics : nat) :
  (0 <= sample_rate)%Z ->
  is_ok (detect_harmonics w sample_rate num_harmonics) = true
  <-> (3 <= length w)%nat /\ (0 < sample_rate)%Z.
Proof.
  intros Hsr. split.
  - intros Hok.
    destruct (Z.eq_dec sample_rate 0%Z) as [->|Hne].
    { unfold detect_harmonics in Hok. destruct w; discriminate Hok. }
    split; [|lia].
    destruct (Nat.lt_ge_cases (length w) 3) as [Hshort|Hlong];
      [|exact Hlong].
    rewrite (detect_harmonics_needs_three_samples w sample_rate num_harmonics)
      in Hok by (assumption || lia).
    discriminate Hok.
  - intros [Hlen Hpos].
    destruct (detect_harmonics_returns w sample_rate num_harmonics Hlen Hpos)
      as [hs ->].
    reflexivity.
Qed.

Lemma detect_harmonics_returns_iff_witness :
  is_ok (detect_harmonics two_pulse_trains 15 10) = true.
Proof.
  apply (detect_harmonics_returns_iff two_pulse_trains 15 10).
  - lia.
  - split; [cbn [two_pulse_trains length]; lia|lia].
Defined.

(** X12.  At a positive sample rate no frequency is reported twice by
    [detect_harmonics]. *)
Theorem detect_harmonics_frequencies_distinct
    (w : list Z) (sample_rate : Z) (num_harmonics : nat)
    (hs : list harmonic) :
  (0 < sample_rate)%Z ->
  detect_harmonics w sample_rate num_harmonics = Ok hs ->
  NoDup (map frequency hs).
Proof.
  intros Hsr Hrun.
  destruct (detect_harmonics_ranking _ _ _ _ Hrun)
    as (freqs & mags & mx & ranked & Hps & Hmx & Hperm & _ & Hall).
  assert (Hw : w <> []).
  { intros ->. discriminate Hps. }
  rewrite positive_spectrum_bins in Hps by assumption.
  injection Hps as Hfreqs _.
  assert (Hnd : NoDup freqs).
  { rewrite <- Hfreqs. apply positive_frequencies_NoDup.
    apply Rdiv_lt_0_compat; [apply IZR_lt; lia|].
    apply lt_0_INR. destruct w; [congruence|cbn [length]; lia]. }
  assert (Hranked : NoDup (take num_harmonics ranked)).
  { apply (NoDup_app (take num_harmonics ranked) (drop num_harmonics ranked)).
    rewrite take_drop, Hperm. apply find_peaks_NoDup. }
  clear Hperm Hfreqs Hrun.
  induction Hall as [|p h ps hs' (m & Hf & _ & _) Hrest IH]; [constructor|].
  apply NoDup_cons in Hranked. destruct Hranked as [Hp Hps].
  cbn [map]. constructor; [|apply IH; exact Hps].
  intros Hin. apply list_elem_of_In, in_map_iff in Hin.
  destruct Hin as (h' & Hfreq & Hh').
  apply list_elem_of_In, list_elem_of_lookup in Hh'. destruct Hh' as [i Hi].
  destruct (Forall2_lookup_r _ _ _ _ _ Hrest Hi) as (q & Hq & m' & Hf' & _).
  rewrite Hfreq in Hf'.
  pose proof (NoDup_lookup _ _ _ _ Hnd Hf Hf') as E. subst q.
  apply Hp. eapply list_elem_of_lookup_2. exact Hq.
Qed.

Lemma detect_harmonics_frequencies_distinct_witness :
  NoDup (map frequency
           [ mk_harmonic 5 (relative_db (500 / 100) (500 / 100));
             mk_harmonic 3 (relative_db (300 / 100) (500 / 100)) ]).
Proof.
  apply (detect_harmonics_frequencies_distinct two_pulse_trains 15 10).
  - lia.
  - exact detect_harmonics_two_pulse_trains.
Defined.


(* ===================================================================== *)
(** * The two readers and the file they open *)
(* ===================================================================== *)

Section Readers.

Variable env : environment.

Lemma get_wave_info_run (path : string) (f : Wave_read) :
  wave_open env path = Ok f -> framerate f <> 0%Z ->
  get_wave_info env path
  = mkIO [Call F_get_wave_info; Wave_open path; Wave_close]
      (Ok (mk_wave_info (framerate f) (nframes f) (nchannels f) (sampwidth f)
             (inject_Z (nframes f) / inject_Z (framerate f))%Q
             (if (nchannels f =? 1)%Z then "Mono" else "Stereo")%string)).
Proof.
  intros Hopen Hrate. unfold get_wave_info, io_wave_open. rewrite Hopen.
  cbn -[py_int_truediv]. unfold py_int_truediv.
  destruct (Z.eqb_spec (framerate f) 0) as [E|_]; [contradiction|].
  reflexivity.
Qed.

Lemma get_wave_info_zero_rate (path : string) (f : Wave_read) :
  wave_open env path = Ok f -> framerate f = 0%Z ->
  get_wave_info env path
  = mkIO [Call F_get_wave_info; Wave_open path]
      (Raise (Exception_ "Error reading WAV file info: division by zero")).
Proof.
  intros Hopen Hrate. unfold get_wave_info, io_wave_open. rewrite Hopen.
  cbn -[py_int_truediv]. unfold py_int_truediv. rewrite Hrate. reflexivity.
Qed.

Lemma get_wave_info_unreadable (path : string) (e : exn) :
  wave_open env path = Raise e ->
  get_wave_info env path
  = mkIO [Call F_get_wave_info; Wave_open path]
      (Raise (if is_Exception e
              then Exception_ ("Error reading WAV file info: " +:+ str e)
              else e)).
Proof.
  intros Hopen. unfold get_wave_info, io_wave_open. rewrite Hopen.
  cbn [mbind IO_bind emit io_lift app]. unfold try_except.
  destruct (is_Exception e); reflexivity.
Qed.

Lemma load_wave_data_unreadable (path : string) (e : exn) :
  wave_open env path = Raise e ->
  load_wave_data env path
  = mkIO [Call F_load_wave_data; Wave_open path]
      (Raise (if is_Exception e
              then Exception_ ("Error loading WAV data: " +:+ str e)
              else e)).
Proof.
  intros Hopen. unfold load_wave_data, io_wave_open. rewrite Hopen.
  cbn [mbind IO_bind emit io_lift app]. unfold try_except.
  destruct (is_Exception e); reflexivity.
Qed.

Lemma load_wave_data_odd (path : string) (f : Wave_read) :
  wave_open env path = Ok f ->
  (length (readframes f (nframes f)) mod 2 <> 0)%nat ->
  load_wave_data env path
  = mkIO [Call F_load_wave_data; Wave_open path]
      (Raise (Exception_ ("Error loading WAV data: "
                          +:+ "buffer size must be a multiple of element size"))).
Proof.
  intros Hopen Hodd. unfold load_wave_data, io_wave_open. rewrite Hopen.
  cbn -[np_frombuffer_int16 readframes py_int_truediv stride].
  unfold np_frombuffer_int16.
  destruct (Nat.eqb_spec (length (readframes f (nframes f)) mod 2) 0)
    as [E|_]; [contradiction|].
  reflexivity.
Qed.

Lemma load_wave_data_zero_rate (path : string) (f : Wave_read) :
  wave_open env path = Ok f ->
  (length (readframes f (nframes f)) mod 2 = 0)%nat ->
  framerate f = 0%Z ->
  load_wave_data env path
  = mkIO [Call F_load_wave_data; Wave_open path; Wave_close]
      (Raise (Exception_ "Error loading WAV data: division by zero")).
Proof.
  intros Hopen Heven Hrate. unfold load_wave_data, io_wave_open. rewrite Hopen.
  cbn -[np_frombuffer_int16 readframes py_int_truediv stride].
  unfold np_frombuffer_int16. rewrite Heven.
  cbn -[readframes py_int_truediv stride int16_pairs].
  unfold py_int_truediv. rewrite Hrate. reflexivity.
Qed.

Lemma load_wave_data_even (path : string) (f : Wave_read) :
  wave_open env path = Ok f ->
  (length (readframes f (nframes f)) mod 2 = 0)%nat ->
  framerate f <> 0%Z ->
  load_wave_data env path
  = mkIO [Call F_load_wave_data; Wave_open path; Wave_close]
      (Ok (mk_wave_data
             (first_channel f (int16_pairs (readframes f (nframes f))))
             (framerate f)
             (inject_Z (nframes f) / inject_Z (framerate f))%Q
             (nchannels f))).
Proof.
  intros Hopen Heven Hrate.
  apply (load_wave_data_run env path f _ Hopen); [|exact Hrate].
  unfold np_frombuffer_int16. rewrite Heven. reflexivity.
Qed.

End Readers.

Section StrideLength.

Context {A : Type}.

Lemma stride_from_length (step skip : nat) (a : list A) :
  (1 <= step)%nat -> (skip < step)%nat ->
  length (stride_from step skip a)
  = ((length a + (step - 1 - skip)) / step)%nat.
Proof.
  intros Hstep. revert skip. induction a as [|x a IH]; intros skip Hskip.
  - cbn [stride_from length]. symmetry. apply Nat.div_small. lia.
  - cbn [stride_from length]. destruct skip as [|skip].
    + cbn [length]. rewrite IH by lia.
      replace (S (length a) + (step - 1 - 0))%nat
        with (1 * step + (length a + (step - 1 - (step - 1))))%nat by lia.
      rewrite Nat.div_add_l by lia. rewrite Nat.sub_diag, Nat.add_0_r. lia.
    + rewrite IH by lia. f_equal. lia.
Qed.

(** [len(a[::step])] is [len(a) / step], rounded up. *)
Lemma stride_length (step : nat) (a : list A) :
  (1 <= step)%nat ->
  length (stride step a) = ((length a + (step - 1)) / step)%nat.
Proof.
  intros Hstep. unfold stride. rewrite stride_from_length by lia.
  f_equal. lia.
Qed.

End StrideLength.

(** X13.  [load_wave_data] on a file that opens and has a nonzero sample
    rate: when the data chunk has an even number of bytes it returns a
    waveform of [bytes / 2] samples for one channel and of half as many,
    rounded up, for any other number of channels, whatever the sample width;
    when the number of bytes is odd it raises the wrapped [np.frombuffer]
    error. *)
Theorem load_wave_data_sample_count
    (env : environment) (path : string) (f : Wave_read) :
  wave_open env path = Ok f ->
  framerate f <> 0%Z ->
  Z.of_nat (length (frames f)) = (nframes f * (nchannels f * sampwidth f))%Z ->
  ((length (frames f) mod 2 = 0)%nat ->
   exists wd,
     io_outcome (load_wave_data env path) = Ok wd
     /\ length (wd_waveform wd)
        = if (nchannels f =? 1)%Z
          then (length (frames f) / 2)%nat
          else ((length (frames f) / 2 + 1) / 2)%nat)
  /\ ((length (frames f) mod 2 <> 0)%nat ->
      io_outcome (load_wave_data env path)
      = Raise (Exception_
                 ("Error loading WAV data: "
                  +:+ "buffer size must be a multiple of element size"))).
Proof.
  intros Hopen Hrate Hlen.
  pose proof (readframes_all f Hlen) as Hread. split.
  - intros Heven. rewrite <- Hread in Heven.
    rewrite (load_wave_data_even env path f Hopen Heven Hrate).
    eexists. split; [reflexivity|]. cbn [wd_waveform]. unfold first_channel.
    rewrite Hread.
    destruct (nchannels f =? 1)%Z.
    + apply int16_pairs_length.
    + rewrite stride_length by lia. rewrite int16_pairs_length. reflexivity.
  - intros Hodd. rewrite <- Hread in Hodd.
    rewrite (load_wave_data_odd env path f Hopen Hodd). reflexivity.
Qed.

Lemma load_wave_data_sample_count_witness :
  exists wd,
    io_outcome (load_wave_data (single_file_environment (Ok wav_8bit_mono))
                  "tone.wav") = Ok wd
    /\ length (wd_waveform wd)
       = if (nchannels wav_8bit_mono =? 1)%Z
         then (length (frames wav_8bit_mono) / 2)%nat
         else ((length (frames wav_8bit_mono) / 2 + 1) / 2)%nat.
Proof.
  apply (load_wave_data_sample_count
           (single_file_environment (Ok wav_8bit_mono)) "tone.wav"
           wav_8bit_mono); [reflexivity|discriminate|reflexivity|reflexivity].
Defined.


(* ===================================================================== *)
(** * What the command-line pipeline does to the outside *)
(* ===================================================================== *)

Section TraceInvariants.

Variable Q : event -> Prop.

Lemma trace_bind {A B : Type} (m : IO A) (k : A -> IO B) :
  Forall Q (io_trace m) -> (forall a, Forall Q (io_trace (k a))) ->
  Forall Q (io_trace (m ≫= k)).
Proof.
  intros Hm Hk. destruct (io_outcome m) as [a|e] eqn:E.
  - rewrite (io_bind_ok m k a E). cbn [io_trace].
    apply Forall_app. split; [exact Hm|apply Hk].
  - rewrite (io_bind_raise m k e E). exact Hm.
Qed.

Lemma trace_bind_ret {A B : Type} (a : A) (k : A -> IO B) :
  Forall Q (io_trace (k a)) -> Forall Q (io_trace ((mret a : IO A) ≫= k)).
Proof.
  intros Hk. change (Forall Q (io_trace (IO_bind _ _ k (mkIO [] (Ok a))))).
  unfold IO_bind. destruct (k a) as [t r]. exact Hk.
Qed.

Lemma trace_try_except {A : Type} (body : IO A) (h : exn -> IO A) :
  Forall Q (io_trace body) -> (forall e, Forall Q (io_trace (h e))) ->
  Forall Q (io_trace (try_except body h)).
Proof.
  intros Hb Hh. destruct (io_outcome body) as [a|e] eqn:E.
  - rewrite (try_except_ok body h a E). exact Hb.
  - destruct (is_Exception e) eqn:He.
    + rewrite (try_except_raise body h e E He). cbn [io_trace].
      apply Forall_app. split; [exact Hb|apply Hh].
    + rewrite (try_except_pass body h e E He). exact Hb.
Qed.

Lemma trace_emit (ev : event) : Q ev -> Forall Q (io_trace (emit ev)).
Proof. intros H. constructor; [exact H|constructor]. Qed.

Lemma trace_print (l : out_line) : Q (Print l) -> Forall Q (io_trace (print l)).
Proof. apply trace_emit. Qed.

Lemma trace_ret {A : Type} (a : A) : Forall Q (io_trace (mret a : IO A)).
Proof. constructor. Qed.

Lemma trace_lift {A : Type} (r : result A) : Forall Q (io_trace (io_lift r)).
Proof. constructor. Qed.

Lemma trace_raise {A : Type} (e : exn) : Forall Q (io_trace (io_raise e : IO A)).
Proof. constructor. Qed.

End TraceInvariants.

Section FileEvents.

Lemma file_events_app (t1 t2 : list event) :
  file_events (t1 ++ t2) = file_events t1 ++ file_events t2.
Proof. unfold file_events. apply List.filter_app. Qed.

Lemma file_events_none (t : list event) :
  Forall (fun ev => (forall p, ev <> Wave_open p) /\ ev <> Wave_close) t ->
  file_events t = [].
Proof.
  induction 1 as [|ev t [Ho Hc] _ IH]; [reflexivity|].
  unfold file_events in *. cbn [List.filter].
  destruct ev; try exact IH; [exfalso; eapply Ho; reflexivity|congruence].
Qed.

End FileEvents.

Section Body.

Variable env : environment.

Local Ltac quiet tac :=
  repeat first
    [ apply trace_ret | apply trace_lift | apply trace_raise
    | apply trace_print; tac
    | apply trace_emit; tac
    | apply trace_try_except; [|intros ?]
    | apply trace_bind; [|intros ?]
    | match goal with
      | |- Forall _ (io_trace (match ?p with Some _ => _ | None => _ end)) =>
          destruct p as [[|? ?]|]
      end ].

Local Ltac not_file := split; [intros ?|]; discriminate.

(** The part of the body that follows the two readers. *)
Lemma body_split (path : string) (show_plots save_figures : bool) :
  exists rest : wave_info -> wave_data -> IO analysis,
    perform_complete_analysis_body env path show_plots save_figures
    = (file_info ← get_wave_info env path;
       wave_data ← load_wave_data env path;
       rest file_info wave_data)
    /\ (forall info wd,
          Forall (fun ev => (forall q, ev <> Wave_open q) /\ ev <> Wave_close)
            (io_trace (rest info wd)))
    /\ (show_plots = false ->
        forall info wd,
          io_outcome (rest info wd)
          = (a ← analyze_audio_levels (wd_waveform wd);
             Ok (mk_analysis info wd a))).
Proof.
  eexists (fun file_info wave_data => _). split; [reflexivity|]. split.
  - intros info wd. cbv beta.
    destruct show_plots, save_figures; quiet not_file.
  - intros -> info wd. cbv beta.
    destruct (analyze_audio_levels (wd_waveform wd)) as [a|e]; reflexivity.
Qed.

End Body.

Section BodyFileEvents.

Variable env : environment.

(** The file events of the body, by what the file is like. *)
Lemma body_file_events (path : string) (show_plots save_figures : bool) :
  let body := perform_complete_analysis_body env path show_plots save_figures in
  match wave_open env path with
  | Raise _ =>
      file_events (io_trace body) = [Wave_open path]
      /\ is_ok (io_outcome body) = false
  | Ok f =>
      if (framerate f =? 0)%Z
      then file_events (io_trace body) = [Wave_open path]
           /\ is_ok (io_outcome body) = false
      else if (length (readframes f (nframes f)) mod 2 =? 0)%nat
           then file_events (io_trace body)
                = [Wave_open path; Wave_close; Wave_open path; Wave_close]
           else file_events (io_trace body)
                = [Wave_open path; Wave_close; Wave_open path]
                /\ is_ok (io_outcome body) = false
  end.
Proof.
  intros body. subst body.
  destruct (body_split env path show_plots save_figures)
    as (rest & -> & Hquiet & _).
  destruct (wave_open env path) as [f|e] eqn:Hopen.
  2:{ rewrite (get_wave_info_unreadable env path e Hopen).
      split; reflexivity. }
  destruct (Z.eqb_spec (framerate f) 0) as [Hzero|Hrate].
  { rewrite (get_wave_info_zero_rate env path f Hopen Hzero).
    split; reflexivity. }
  rewrite (get_wave_info_run env path f Hopen Hrate).
  destruct (Nat.eqb_spec (length (readframes f (nframes f)) mod 2) 0)
    as [Heven|Hodd].
  2:{ rewrite (load_wave_data_odd env path f Hopen Hodd).
      split; reflexivity. }
  rewrite (load_wave_data_even env path f Hopen Heven Hrate).
  cbn [mbind IO_bind].
  match goal with
  | |- context [rest ?i ?d] =>
      pose proof (file_events_none _ (Hquiet i d)) as Hnone;
      destruct (rest i d) as [t r]
  end.
  cbn [io_trace] in Hnone. cbn [io_trace app].
  change (file_events (Call F_get_wave_info :: Wave_open path :: Wave_close
                       :: Call F_load_wave_data :: Wave_open path
                       :: Wave_close :: t))
    with (Wave_open path :: Wave_close :: Wave_open path :: Wave_close
          :: file_events t).
  rewrite Hnone. reflexivity.
Qed.

Lemma run_file_events (path : string) (show_plots save_figures : bool) :
  file_events
    (io_trace (perform_complete_analysis env path show_plots save_figures))
  = file_events
      (io_trace (perform_complete_analysis_body env path show_plots
                   save_figures)).
Proof.
  destruct (perform_complete_analysis_cases env path show_plots save_figures)
    as [(r & _ & ->)|[(e & _ & _ & ->)|(e & _ & _ & ->)]];
    cbn [io_trace]; [reflexivity| |reflexivity].
  rewrite file_events_app. apply app_nil_r.
Qed.

End BodyFileEvents.

(** X14.  In every run of [perform_complete_analysis] the file is opened
    and closed in turn: the file events of the run are an initial part of
    open, close, open, close, and all four of them when a result is
    returned; two files are never open at once. *)
Theorem perform_complete_analysis_file_events
    (env : environment) (path : string) (show_plots save_figures : bool) :
  file_events
    (io_trace (perform_complete_analysis env path show_plots save_figures))
    `prefix_of` [Wave_open path; Wave_close; Wave_open path; Wave_close]
  /\ (forall r,
        io_outcome (perform_complete_analysis env path show_plots save_figures)
        = Ok (Some r) ->
        file_events
          (io_trace
             (perform_complete_analysis env path show_plots save_figures))
        = [Wave_open path; Wave_close; Wave_open path; Wave_close]).
Proof.
  rewrite run_file_events.
  pose proof (body_file_events env path show_plots save_figures) as Hbody.
  cbv zeta in Hbody.
  assert (Hsuccess : forall r,
             io_outcome
               (perform_complete_analysis env path show_plots save_figures)
             = Ok (Some r) ->
             is_ok (io_outcome (perform_complete_analysis_body env path
                                  show_plots save_figures)) = true).
  { intros r Hr.
    destruct (perform_complete_analysis_cases env path show_plots save_figures)
      as [(r' & -> & _)|[(e & _ & _ & E)|(e & _ & _ & E)]]; [reflexivity| |];
      rewrite E in Hr; discriminate Hr. }
  destruct (wave_open env path) as [f|e].
  - destruct (framerate f =? 0)%Z.
    + destruct Hbody as [-> Hfail]. split.
      * exists [Wave_close; Wave_open path; Wave_close]. reflexivity.
      * intros r Hr. rewrite (Hsuccess r Hr) in Hfail. discriminate.
    + destruct (length (readframes f (nframes f)) mod 2 =? 0)%nat.
      * rewrite Hbody. split; [reflexivity|intros; reflexivity].
      * destruct Hbody as [-> Hfail]. split.
        -- exists [Wave_close]. reflexivity.
        -- intros r Hr. rewrite (Hsuccess r Hr) in Hfail. discriminate.
  - destruct Hbody as [-> Hfail]. split.
    + exists [Wave_close; Wave_open path; Wave_close]. reflexivity.
    + intros r Hr. rewrite (Hsuccess r Hr) in Hfail. discriminate.
Qed.

Lemma perform_complete_analysis_file_events_witness :
  file_events
    (io_trace (perform_complete_analysis
                 (single_file_environment (Ok wav_16bit_mono))
                 "tone.wav" true false))
    `prefix_of` [Wave_open "tone.wav"; Wave_close;
                 Wave_open "tone.wav"; Wave_close]
  /\ file_events
       (io_trace (perform_complete_analysis
                    (single_file_environment (Ok wav_16bit_mono))
                    "tone.wav" true false))
     = [Wave_open "tone.wav"; Wave_close; Wave_open "tone.wav"; Wave_close].
Proof.
  destruct (perform_complete_analysis_file_events
              (single_file_environment (Ok wav_16bit_mono)) "tone.wav"
              true false) as [Hprefix Hall].
  split; [exact Hprefix|]. eapply Hall. lazy. reflexivity.
Defined.

(** X15.  On a file that can be opened, [perform_complete_analysis] skips
    a call of [wav_obj.close()] exactly when the sample rate is 0 or the
    data read has an odd number of bytes: the last thing the program itself
    does to the file is then to open it, because the reader raises between
    [wave.open] and the [close] statement.  The program never closes that
    reader; this is left to the finaliser of the object, which is no part
    of the program. *)
Theorem perform_complete_analysis_skips_close
    (env : environment) (path : string) (show_plots save_figures : bool)
    (f : Wave_read) :
  wave_open env path = Ok f ->
  last (file_events
          (io_trace
             (perform_complete_analysis env path show_plots save_figures)))
  = Some (Wave_open path)
  <-> framerate f = 0%Z
      \/ (length (readframes f (nframes f)) mod 2 <> 0)%nat.
Proof.
  intros Hopen. rewrite run_file_events.
  pose proof (body_file_events env path show_plots save_figures) as Hbody.
  cbv zeta in Hbody. rewrite Hopen in Hbody.
  destruct (Z.eqb_spec (framerate f) 0) as [Hzero|Hrate].
  { destruct Hbody as [-> _]. split; [intros _; left; exact Hzero|reflexivity]. }
  destruct (Nat.eqb_spec (length (readframes f (nframes f)) mod 2) 0)
    as [Heven|Hodd].
  - rewrite Hbody. split; [discriminate|]. intros [H|H]; contradiction.
  - destruct Hbody as [-> _]. split; [intros _; right; exact Hodd|reflexivity].
Qed.

Lemma perform_complete_analysis_skips_close_witness :
  last (file_events
          (io_trace
             (perform_complete_analysis
                (single_file_environment
                   (Ok (mk_Wave_read 1 1 8000 3 [Byte.x80; Byte.x80; Byte.x80])))
                "tone.wav" true false)))
  = Some (Wave_open "tone.wav").
Proof.
  apply (proj2 (perform_complete_analysis_skips_close
                  (single_file_environment
                     (Ok (mk_Wave_read 1 1 8000 3
                            [Byte.x80; Byte.x80; Byte.x80])))
                  "tone.wav" true false
                  (mk_Wave_read 1 1 8000 3 [Byte.x80; Byte.x80; Byte.x80])
                  eq_refl)).
  right. discriminate.
Defined.

Section Output.

Variable env : environment.

Local Ltac walk tac :=
  repeat first
    [ apply trace_ret | apply trace_lift | apply trace_raise
    | apply trace_print; tac
    | apply trace_emit; tac
    | apply trace_try_except; [|intros ?]
    | apply trace_bind_ret
    | apply trace_bind; [|intros ?]
    | progress cbn [fst snd] ].

Lemma no_plot_without_show_plots (path : string) (save_figures : bool) :
  Forall (fun ev => (forall c, ev <> Plt c) /\ (forall d, ev <> Makedirs d))
    (io_trace (perform_complete_analysis env path false save_figures)).
Proof.
  unfold perform_complete_analysis, perform_complete_analysis_body,
    get_wave_info, load_wave_data, io_wave_open.
  walk ltac:(split; intros ?; discriminate).
Qed.

Lemma no_file_written_without_save_figures (path : string) (show_plots : bool) :
  Forall (fun ev => (forall p, ev <> Plt (Plt_savefig p))
                    /\ (forall d, ev <> Makedirs d))
    (io_trace (perform_complete_analysis env path show_plots false)).
Proof.
  unfold perform_complete_analysis, perform_complete_analysis_body,
    get_wave_info, load_wave_data, io_wave_open, plot_waveform,
    plot_spectrogram, io_plt.
  destruct show_plots; walk ltac:(split; intros ?; discriminate).
Qed.

End Output.

(** X16.  [perform_complete_analysis] produces no output that was not asked
    for: without [show_plots] it makes no matplotlib request and creates no
    directory, whatever [save_figures] is; without [save_figures] it saves
    no figure and creates no directory. *)
Theorem perform_complete_analysis_no_unrequested_output
    (env : environment) (path : string) (show_plots save_figures : bool) :
  (forall ev,
      In ev (io_trace (perform_complete_analysis env path false save_figures)) ->
      (forall c, ev <> Plt c) /\ (forall d, ev <> Makedirs d))
  /\ (forall ev,
        In ev (io_trace (perform_complete_analysis env path show_plots false)) ->
        (forall p, ev <> Plt (Plt_savefig p)) /\ (forall d, ev <> Makedirs d)).
Proof.
  split; intros ev Hin.
  - exact (proj1 (List.Forall_forall _ _)
             (no_plot_without_show_plots env path save_figures) ev Hin).
  - exact (proj1 (List.Forall_forall _ _)
             (no_file_written_without_save_figures env path show_plots) ev Hin).
Qed.

Lemma perform_complete_analysis_no_unrequested_output_witness :
  ((forall c, Wave_close <> Plt c) /\ (forall d, Wave_close <> Makedirs d))
  /\ ((forall p, Plt Plt_show <> Plt (Plt_savefig p))
      /\ (forall d, Plt Plt_show <> Makedirs d)).
Proof.
  destruct (perform_complete_analysis_no_unrequested_output
              (single_file_environment (Ok wav_16bit_mono)) "tone.wav"
              true true) as [Hshow Hsave].
  split.
  - apply Hshow. lazy. tauto.
  - apply Hsave. lazy. tauto.
Defined.

(** X17.  Without plots [perform_complete_analysis] returns a result
    exactly when the file can be opened, its sample rate is not 0, the data
    read has an even number of bytes, and the waveform built from it holds a
    nonzero sample. *)
Theorem perform_complete_analysis_succeeds_iff
    (env : environment) (path : string) (save_figures : bool) :
  (exists r,
      io_outcome (perform_complete_analysis env path false save_figures)
      = Ok (Some r))
  <-> exists f,
        wave_open env path = Ok f
        /\ framerate f <> 0%Z
        /\ (length (readframes f (nframes f)) mod 2 = 0)%nat
        /\ Exists (fun x => x <> 0%Z)
             (first_channel f (int16_pairs (readframes f (nframes f)))).
Proof.
  destruct (body_split env path false save_figures)
    as (rest & Hbody & _ & Hout).
  specialize (Hout eq_refl).
  assert (Hrun : forall r,
             io_outcome (perform_complete_analysis env path false save_figures)
             = Ok (Some r)
             <-> io_outcome (perform_complete_analysis_body env path false
                               save_figures) = Ok r).
  { intros r.
    destruct (perform_complete_analysis_cases env path false save_figures)
      as [(r' & E & ->)|[(e & E & _ & ->)|(e & E & _ & ->)]];
      rewrite E; cbn [io_outcome].
    - split; intros H; injection H as <-; reflexivity.
    - split; discriminate.
    - split; discriminate. }
  assert (Hdec : forall w : list Z,
             Exists (fun x => x <> 0%Z) w \/ Forall (fun x => x = 0%Z) w).
  { induction w as [|x w [IH|IH]].
    - right. constructor.
    - left. apply Exists_cons_tl. exact IH.
    - destruct (Z.eq_dec x 0%Z) as [E|E];
        [right; constructor; assumption|left; apply Exists_cons_hd; exact E]. }
  split.
  - intros [r Hr]. apply Hrun in Hr. rewrite Hbody in Hr.
    destruct (wave_open env path) as [f|e] eqn:Hopen.
    2:{ rewrite (get_wave_info_unreadable env path e Hopen) in Hr.
        discriminate Hr. }
    destruct (Z.eq_dec (framerate f) 0%Z) as [Hzero|Hrate].
    { rewrite (get_wave_info_zero_rate env path f Hopen Hzero) in Hr.
      discriminate Hr. }
    destruct (Nat.eq_dec (length (readframes f (nframes f)) mod 2) 0)
      as [Heven|Hodd].
    2:{ rewrite (get_wave_info_run env path f Hopen Hrate) in Hr.
        rewrite (load_wave_data_odd env path f Hopen Hodd) in Hr.
        discriminate Hr. }
    exists f. split; [reflexivity|]. split; [exact Hrate|].
    split; [exact Heven|].
    destruct (Hdec (first_channel f (int16_pairs (readframes f (nframes f)))))
      as [Hnz|Hz]; [exact Hnz|exfalso].
    rewrite (get_wave_info_run env path f Hopen Hrate) in Hr.
    rewrite (load_wave_data_even env path f Hopen Heven Hrate) in Hr.
    cbn [mbind IO_bind] in Hr.
    match type of Hr with
    | context [rest ?i ?d] =>
        pose proof (Hout i d) as Hrest; destruct (rest i d) as [t o]
    end.
    cbn [io_outcome wd_waveform] in Hrest.
    destruct (analyze_audio_levels_all_zero _ Hz) as [msg Hraise].
    rewrite Hraise in Hrest. cbn [mbind result_bind] in Hrest. subst o.
    discriminate Hr.
  - intros (f & Hopen & Hrate & Heven & Hnz).
    destruct (analyze_audio_levels_nonzero_ok _ Hnz) as [a Ha].
    eexists. apply Hrun. rewrite Hbody.
    rewrite (get_wave_info_run env path f Hopen Hrate).
    rewrite (load_wave_data_even env path f Hopen Heven Hrate).
    cbn [mbind IO_bind].
    match goal with
    | |- context [rest ?i ?d] =>
        pose proof (Hout i d) as Hrest; destruct (rest i d) as [t o]
    end.
    cbn [io_outcome wd_waveform] in Hrest. rewrite Ha in Hrest.
    cbn [mbind result_bind] in Hrest. subst o. reflexivity.
Qed.

Lemma perform_complete_analysis_succeeds_iff_witness :
  exists r,
    io_outcome (perform_complete_analysis
                  (single_file_environment (Ok wav_16bit_stereo))
                  "tone.wav" false true)
    = Ok (Some r).
Proof.
  apply (proj2 (perform_complete_analysis_succeeds_iff
                  (single_file_environment (Ok wav_16bit_stereo))
                  "tone.wav" true)).
  exists wav_16bit_stereo. split; [reflexivity|]. split; [discriminate|].
  split; [reflexivity|]. apply Exists_cons_hd. discriminate.
Defined.


(* ===================================================================== *)
(** * How many points the dashboard plots *)
(* ===================================================================== *)

Section Downsampling.

Context {A : Type}.

Lemma stride_1 (a : list A) : stride 1 a = a.
Proof.
  unfold stride. induction a as [|x a IH]; [reflexivity|].
  cbn [stride_from Nat.sub]. rewrite IH. reflexivity.
Qed.

(** [a[::len(a) // m]] for an array longer than [m]: nothing is dropped
    below [2 m] elements; from [2 m] elements on, between [m] and [3 m / 2]
    elements are kept. *)
Lemma downsample_bounds (m : Z) (a : list A) :
  (2 <= m)%Z -> (m < Z.of_nat (length a))%Z ->
  let kept := stride (Z.to_nat (Z.of_nat (length a) / m)) a in
  ((Z.of_nat (length a) < 2 * m)%Z -> kept = a)
  /\ ((2 * m <= Z.of_nat (length a))%Z ->
      (m <= Z.of_nat (length kept))%Z /\ (2 * Z.of_nat (length kept) <= 3 * m)%Z).
Proof.
  intros Hm Hlen kept. subst kept.
  set (L := Z.of_nat (length a)) in *. set (s := (L / m)%Z).
  pose proof (Z.div_mod L m ltac:(lia)) as Hdiv.
  pose proof (Z.mod_pos_bound L m ltac:(lia)) as Hmod.
  fold s in Hdiv.
  assert (Hs : (1 <= s)%Z) by nia.
  split.
  - intros Hshort. assert (E : s = 1%Z) by nia. rewrite E.
    change (Z.to_nat 1) with 1%nat. apply stride_1.
  - intros Hlong. assert (Hs2 : (2 <= s)%Z) by nia.
    rewrite stride_length by lia.
    rewrite Nat2Z.inj_div, Nat2Z.inj_add, Nat2Z.inj_sub by lia.
    rewrite Z2Nat.id by lia. fold L. change (Z.of_nat 1) with 1%Z.
    set (p := ((L + (s - 1)) / s)%Z).
    pose proof (Z.div_mod (L + (s - 1)) s ltac:(lia)) as Hp.
    pose proof (Z.mod_pos_bound (L + (s - 1)) s ltac:(lia)) as Hpm.
    fold p in Hp. split; nia.
Qed.

End Downsampling.

(** X18.  [create_waveform_plot] always returns a scatter figure.  It plots
    every sample of a waveform of fewer than 100000 samples; from 100000
    samples on it plots between 50000 and 75000 of them.  The nominal
    [max_points = 50000] is thus exceeded by up to a factor of two. *)
Theorem create_waveform_plot_points
    (w : list Z) (sample_rate : Z) (duration : Q) (title : string) :
  exists points : nat,
    create_waveform_plot w sample_rate duration title
    = Ok (mk_Figure Scatter title points)
    /\ ((Z.of_nat (length w) < 100000)%Z -> points = length w)
    /\ ((100000 <= Z.of_nat (length w))%Z ->
        (50000 <= Z.of_nat points <= 75000)%Z).
Proof.
  unfold create_waveform_plot. eexists. split; [reflexivity|].
  destruct (Z.ltb_spec 50000 (Z.of_nat (length w))) as [Hlong|Hshort].
  - destruct (downsample_bounds 50000 w ltac:(lia) Hlong) as [Hsame Hless].
    split.
    + intros H. rewrite Hsame by lia. reflexivity.
    + intros H. specialize (Hless ltac:(lia)). lia.
  - split; [reflexivity|lia].
Qed.

Lemma create_waveform_plot_points_witness :
  exists points : nat,
    create_waveform_plot (repeat 7%Z (Z.to_nat 99999)) 44100 (2 # 1) "tone.wav"
    = Ok (mk_Figure Scatter "tone.wav" points)
    /\ points = length (repeat 7%Z (Z.to_nat 99999)).
Proof.
  destruct (create_waveform_plot_points (repeat 7%Z (Z.to_nat 99999))
              44100 (2 # 1) "tone.wav") as (points & Hrun & Hsmall & _).
  exists points. split; [exact Hrun|]. apply Hsmall.
  rewrite repeat_length. lia.
Defined.

(** X19.  At a positive sample rate [create_phase_plot] of a waveform of
    [n >= 1] samples returns a scatter figure over the [(n - 1) // 2]
    positive frequency bins: all of them when there are fewer than 10000,
    and between 5000 and 7500 of them otherwise. *)
Theorem create_phase_plot_points
    (w : list Z) (sample_rate : Z) (title : string) :
  w <> [] -> (0 < sample_rate)%Z ->
  exists points : nat,
    create_phase_plot w sample_rate title = Ok (mk_Figure Scatter title points)
    /\ ((Z.of_nat ((length w - 1) / 2) < 10000)%Z ->
        points = ((length w - 1) / 2)%nat)
    /\ ((10000 <= Z.of_nat ((length w - 1) / 2))%Z ->
        (5000 <= Z.of_nat points <= 7500)%Z).
Proof.
  intros Hw Hsr.
  pose proof (positive_spectrum_bins w sample_rate Hw Hsr) as Hps.
  set (h := ((length w - 1) / 2)%nat) in *.
  unfold positive_spectrum in Hps. unfold create_phase_plot.
  destruct (np_fft w) as [fft|e]; [|discriminate Hps].
  destruct (py_inv sample_rate) as [d|e]; [|discriminate Hps].
  cbn [mbind result_bind] in *. injection Hps as Hfreqs _.
  rewrite Hfreqs. clear Hfreqs.
  set (freqs := map _ (seq 1 h)).
  assert (Hlen : length freqs = h).
  { unfold freqs. rewrite length_map, length_seq. reflexivity. }
  eexists. split; [reflexivity|]. rewrite <- Hlen.
  destruct (Z.ltb_spec 5000 (Z.of_nat (length freqs))) as [Hlong|Hshort].
  - destruct (downsample_bounds 5000 freqs ltac:(lia) Hlong) as [Hsame Hless].
    split.
    + intros H. rewrite Hsame by lia. reflexivity.
    + intros H. specialize (Hless ltac:(lia)). lia.
  - split; [reflexivity|lia].
Qed.

Lemma create_phase_plot_points_witness :
  exists points : nat,
    create_phase_plot [1; 2; 3; 4; 5]%Z 8000 "tone.wav"
    = Ok (mk_Figure Scatter "tone.wav" points)
    /\ points = ((length [1; 2; 3; 4; 5]%Z - 1) / 2)%nat.
Proof.
  destruct (create_phase_plot_points [1; 2; 3; 4; 5]%Z 8000 "tone.wav")
    as (points & Hrun & Hsmall & _); [discriminate|lia|].
  exists points. split; [exact Hrun|]. apply Hsmall.
  cbn [length]. change ((5 - 1) / 2)%nat with 2%nat. lia.
Defined.


(* ===================================================================== *)
(** * Speed of sound and synthetic waves *)
(* ===================================================================== *)

Section SpeedOfSound.

Open Scope R_scope.

(** The value of the formula for air above absolute zero. *)
Lemma speed_in_air (t : R) :
  - (27315 / 100) <= t ->
  calculate_speed_of_sound t "air"
  = Fin (3313 / 10 * sqrt (1 + t / (27315 / 100))).
Proof.
  intros Ht. unfold calculate_speed_of_sound.
  change (String.eqb "air" "air") with true. cbv iota.
  rewrite np_sqrt_nonneg by lra. reflexivity.
Qed.

Lemma sqrt_between (x lo hi : R) :
  0 <= lo -> lo * lo < x -> x < hi * hi -> 0 <= hi -> lo < sqrt x < hi.
Proof.
  intros Hlo Hx1 Hx2 Hhi.
  assert (0 <= lo * lo) by nra. split.
  - replace lo with (sqrt (lo * lo)) at 1 by (apply sqrt_square; exact Hlo).
    apply sqrt_lt_1; nra.
  - replace hi with (sqrt (hi * hi)) at 1 by (apply sqrt_square; exact Hhi).
    apply sqrt_lt_1; nra.
Qed.

End SpeedOfSound.

(** X20.  In air the speed of sound that [calculate_speed_of_sound] returns
    is a finite number that grows strictly with the temperature from
    absolute zero (-273.15 degrees Celsius) on; below absolute zero it is
    [nan]. *)
Theorem calculate_speed_of_sound_air_increasing (t1 t2 : R) :
  ((- (27315 / 100) <= t1 < t2)%R ->
   exists v1 v2 : R,
     calculate_speed_of_sound t1 "air" = Fin v1
     /\ calculate_speed_of_sound t2 "air" = Fin v2
     /\ (0 <= v1 < v2)%R)
  /\ ((t1 < - (27315 / 100))%R -> calculate_speed_of_sound t1 "air" = NaN).
Proof.
  split.
  - intros [H1 H12]. rewrite !speed_in_air by lra.
    eexists _, _. split; [reflexivity|]. split; [reflexivity|].
    pose proof (sqrt_pos (1 + t1 / (27315 / 100))) as Hpos.
    assert (Hlt : (sqrt (1 + t1 / (27315 / 100))
                   < sqrt (1 + t2 / (27315 / 100)))%R).
    { apply sqrt_lt_1; lra. }
    split; nra.
  - intros Hcold. unfold calculate_speed_of_sound.
    change (String.eqb "air" "air") with true. cbv iota.
    unfold np_sqrt.
    destruct (Rlt_dec (1 + t1 / (27315 / 100)) 0) as [_|H]; [reflexivity|].
    exfalso. apply H. lra.
Qed.

Lemma calculate_speed_of_sound_air_increasing_witness :
  exists v1 v2 : R,
    calculate_speed_of_sound 0 "air" = Fin v1
    /\ calculate_speed_of_sound 20 "air" = Fin v2
    /\ (0 <= v1 < v2)%R.
Proof.
  apply (proj1 (calculate_speed_of_sound_air_increasing 0 20)). lra.
Defined.

(** X21.  For every temperature that the dashboard's slider offers (-20 to
    50 degrees Celsius) and every medium name, [calculate_speed_of_sound]
    returns a finite speed above 318 m/s and at most 6420 m/s; in air it
    stays below 361 m/s, in water between 1309 and 1638 m/s. *)
Theorem calculate_speed_of_sound_on_slider (t : R) (medium : string) :
  (-20 <= t <= 50)%R ->
  exists v : R,
    calculate_speed_of_sound t medium = Fin v
    /\ (318 < v <= 6420)%R
    /\ (medium = "air"%string -> (v < 361)%R)
    /\ (medium = "water"%string -> (1309 <= v <= 1638)%R).
Proof.
  intros Ht. unfold calculate_speed_of_sound.
  destruct (String.eqb_spec medium "air") as [->|Hair].
  { rewrite np_sqrt_nonneg by lra. eexists. split; [reflexivity|].
    destruct (sqrt_between (1 + t / (27315 / 100)) (96 / 100) (1088 / 1000))
      as [Hlo Hhi]; try lra.
    split; [lra|]. split; [intros _; lra|discriminate]. }
  destruct (String.eqb_spec medium "water") as [->|Hwater].
  { eexists. split; [reflexivity|]. split; [lra|].
    split; [discriminate|intros _; lra]. }
  destruct (String.eqb medium "steel");
    [|destruct (String.eqb medium "aluminum");
      [|destruct (String.eqb medium "glass")]];
    (eexists; split; [reflexivity|]; split; [lra|]; split; intros E;
     congruence).
Qed.

Lemma calculate_speed_of_sound_on_slider_witness :
  exists v : R,
    calculate_speed_of_sound 20 "air" = Fin v
    /\ (318 < v <= 6420)%R
    /\ ("air"%string = "air"%string -> (v < 361)%R)
    /\ ("air"%string = "water"%string -> (1309 <= v <= 1638)%R).
Proof. apply (calculate_speed_of_sound_on_slider 20 "air"). lra. Defined.

Section Truncation.

Open Scope R_scope.

Lemma Int_part_nonneg (x : R) : 0 <= x -> (0 <= Int_part x)%Z.
Proof.
  intros Hx. destruct (base_Int_part x) as [_ H].
  assert (Hlt : IZR (-1) < IZR (Int_part x)) by lra.
  apply lt_IZR in Hlt. lia.
Qed.

Lemma Int_part_upper (x : R) (b : Z) : x <= IZR b -> (Int_part x <= b)%Z.
Proof.
  intros Hx. destruct (base_Int_part x) as [H _].
  apply le_IZR. lra.
Qed.

(** Truncation keeps a number inside a symmetric integer range. *)
Lemma py_int_of_float_bounds (x : R) (b : Z) :
  - IZR b <= x <= IZR b -> (- b <= py_int_of_float x <= b)%Z.
Proof.
  intros [Hlo Hhi]. unfold py_int_of_float.
  destruct (Rle_dec 0 x) as [Hx|Hx].
  - pose proof (Int_part_nonneg x Hx). pose proof (Int_part_upper x b Hhi).
    assert (0 <= b)%Z by (apply le_IZR; lra). lia.
  - assert (Hnx : 0 <= - x) by lra.
    pose proof (Int_part_nonneg (- x) Hnx).
    pose proof (Int_part_upper (- x) b ltac:(lra)).
    assert (0 <= b)%Z by (apply le_IZR; lra). lia.
Qed.

Lemma py_int_of_float_nonneg (x : R) : 0 <= x -> (0 <= py_int_of_float x)%Z.
Proof.
  intros Hx. unfold py_int_of_float.
  destruct (Rle_dec 0 x); [apply Int_part_nonneg; exact Hx|contradiction].
Qed.

(** A sample of magnitude at most 1, scaled by an amplitude between 0 and
    1 and by 32767, converts to an [int16] between -32767 and 32767. *)
Lemma scaled_sample_range (x amplitude : R) :
  -1 <= x <= 1 -> 0 <= amplitude <= 1 ->
  (-32767 <= astype_int16 (x * amplitude * 32767) <= 32767)%Z.
Proof.
  intros Hx Ha. unfold astype_int16.
  pose proof (py_int_of_float_bounds (x * amplitude * 32767) 32767) as H.
  rewrite wrap16_id; [apply H|specialize (H ltac:(nra)); lia].
  nra.
Qed.

End Truncation.

(** X22.  With an amplitude between 0 and 1 and a duration that is not
    negative, [generate_synthetic_wave] returns, for every wave type,
    [int(sample_rate * duration)] samples, all between -32767 and 32767:
    the sample -32768 never occurs.  [normalize_waveform] therefore maps a
    synthetic wave that is not all zero to values between -1 and 1. *)
Theorem generate_synthetic_wave_in_range
    (signal_square : R -> R) (signal_sawtooth : R -> R -> R)
    (wave_type : string) (frequency duration : R) (sample_rate : Z)
    (amplitude : R) :
  (forall x, -1 <= signal_square x <= 1)%R ->
  (forall x width, -1 <= signal_sawtooth x width <= 1)%R ->
  (0 <= amplitude <= 1)%R ->
  (0 <= IZR sample_rate * duration)%R ->
  exists wave : list Z,
    generate_synthetic_wave signal_square signal_sawtooth
      wave_type frequency duration sample_rate amplitude
    = Ok (wave, sample_rate)
    /\ Z.of_nat (length wave) = py_int_of_float (IZR sample_rate * duration)
    /\ Forall (fun x => (-32767 <= x <= 32767)%Z) wave
    /\ (Exists (fun x => x <> 0%Z) wave ->
        exists r : list Q,
          normalize_waveform wave = Ok (Float64Array r)
          /\ length r = length wave
          /\ Forall (fun q => (-1 <= q <= 1)%Q) r).
Proof.
  intros Hsq Hsaw Hamp Hdur.
  pose proof (py_int_of_float_nonneg _ Hdur) as Hnum.
  unfold generate_synthetic_wave, np_linspace_open.
  set (num := py_int_of_float (IZR sample_rate * duration)) in *.
  destruct (Z.ltb_spec num 0) as [H|_]; [lia|].
  cbn [mbind result_bind].
  set (phase := map _ (map _ (seq 0 (Z.to_nat num)))).
  set (shape := if String.eqb wave_type "sine" then _ else _).
  assert (Hshape : length shape = Z.to_nat num
                   /\ Forall (fun x => -1 <= x <= 1)%R shape).
  { assert (Hphase : length phase = Z.to_nat num).
    { unfold phase. rewrite !length_map, length_seq. reflexivity. }
    assert (Hsin : Forall (fun x => -1 <= x <= 1)%R (map sin phase)).
    { apply List.Forall_forall. intros y Hy. apply in_map_iff in Hy.
      destruct Hy as (x & <- & _). apply SIN_bound. }
    unfold shape.
    destruct (String.eqb wave_type "sine");
      [split; [rewrite length_map; exact Hphase|exact Hsin]|].
    destruct (String.eqb wave_type "square").
    { split; [rewrite length_map; exact Hphase|].
      apply List.Forall_forall. intros y Hy. apply in_map_iff in Hy.
      destruct Hy as (x & <- & _). apply Hsq. }
    destruct (String.eqb wave_type "sawtooth").
    { split; [rewrite length_map; exact Hphase|].
      apply List.Forall_forall. intros y Hy. apply in_map_iff in Hy.
      destruct Hy as (x & <- & _). apply Hsaw. }
    destruct (String.eqb wave_type "triangle").
    { split; [rewrite length_map; exact Hphase|].
      apply List.Forall_forall. intros y Hy. apply in_map_iff in Hy.
      destruct Hy as (x & <- & _). apply Hsaw. }
    split; [rewrite length_map; exact Hphase|exact Hsin]. }
  destruct Hshape as [Hlen Hbound]. clearbody shape. clear phase.
  eexists. split; [reflexivity|].
  assert (Hrange : Forall (fun x => (-32767 <= x <= 32767)%Z)
                     (map (fun x => astype_int16 (x * 32767))
                        (map (fun x => (x * amplitude)%R) shape))).
  { rewrite map_map. apply List.Forall_forall. intros y Hy.
    apply in_map_iff in Hy. destruct Hy as (x & <- & Hx).
    apply scaled_sample_range; [|exact Hamp].
    exact (proj1 (List.Forall_forall _ _) Hbound x Hx). }
  split; [rewrite !length_map, Hlen; lia|]. split; [exact Hrange|].
  intros Hnz.
  destruct (normalize_waveform_unit_range _
              (Forall_impl _ _ _ Hrange
                 (fun x (H : (-32767 <= x <= 32767)%Z) =>
                    (ltac:(lia) : (-32768 < x <= 32767)%Z)))
              Hnz)
    as (r & Hr & Hrlen & Hunit & _).
  exists r. split; [exact Hr|]. split; assumption.
Qed.

Lemma generate_synthetic_wave_in_range_witness :
  exists wave : list Z,
    generate_synthetic_wave (fun _ => 1%R) (fun _ _ => (-1)%R)
      "square" 440 1 2 (8 / 10)
    = Ok (wave, 2%Z)
    /\ Z.of_nat (length wave) = py_int_of_float (IZR 2 * 1)
    /\ Forall (fun x => (-32767 <= x <= 32767)%Z) wave
    /\ (Exists (fun x => x <> 0%Z) wave ->
        exists r : list Q,
          normalize_waveform wave = Ok (Float64Array r)
          /\ length r = length wave
          /\ Forall (fun q => (-1 <= q <= 1)%Q) r).
Proof.
  apply (generate_synthetic_wave_in_range (fun _ => 1%R) (fun _ _ => (-1)%R)
           "square" 440 1 2 (8 / 10)).
  - intros _. lra.
  - intros _ _. lra.
  - lra.
  - lra.
Defined.


(* ===================================================================== *)
(** * The menus *)
(* ===================================================================== *)

Section Indexing.

Context {A : Type}.

Lemma py_getitem_in_range (l : list A) (i : Z) :
  (0 <= i < Z.of_nat (length l))%Z ->
  exists x, py_getitem l i = Some x /\ l !! Z.to_nat i = Some x /\ In x l.
Proof.
  intros Hi. unfold py_getitem.
  destruct (Z.leb_spec 0 i) as [_|H]; [|lia].
  destruct (lookup_lt_is_Some_2 l (Z.to_nat i) ltac:(lia)) as [x Hx].
  exists x. split; [exact Hx|]. split; [exact Hx|].
  apply list_elem_of_In. eapply list_elem_of_lookup_2. exact Hx.
Qed.

Lemma py_mod_in_range (a n : Z) :
  (0 < n)%Z -> exists i, py_mod a n = Some i /\ i = (a mod n)%Z
                         /\ (0 <= i < n)%Z.
Proof.
  intros Hn. unfold py_mod. destruct (Z.eqb_spec n 0) as [E|_]; [lia|].
  eexists. split; [reflexivity|]. split; [reflexivity|].
  apply Z.mod_pos_bound. exact Hn.
Qed.

End Indexing.

(** What [list_wav_files] returns is in the directory listing. *)
Lemma list_wav_files_listed
    (os_path_exists : string -> bool)
    (os_listdir : string -> result (list string))
    (wav_files : list string) (f : string) :
  list_wav_files os_path_exists os_listdir = Ok wav_files ->
  In f wav_files ->
  exists files,
    os_path_exists "data" = true /\ os_listdir "data" = Ok files
    /\ In f files /\ str_endswith (str_lower f) ".wav" = true.
Proof.
  unfold list_wav_files. intros Hlist Hin.
  destruct (os_path_exists "data"); [|injection Hlist as <-; contradiction].
  destruct (os_listdir "data") as [files|e]; [|discriminate].
  cbn [mbind result_bind] in Hlist. injection Hlist as <-.
  apply List.filter_In in Hin. exists files. tauto.
Qed.

Section SelectFile.

Variable os_path_exists : string -> bool.
Variable os_listdir : string -> result (list string).
Variable os_path_join : string -> string -> string.
Variable str_strip : string -> string.
Variable py_int_of_string : string -> option Z.

Lemma display_menu_in_range (wav_files : list string) (i : Z) :
  (0 <= i < Z.of_nat (length wav_files))%Z ->
  snd (display_menu wav_files i) = None.
Proof.
  intros Hi. unfold display_menu.
  destruct (py_getitem_in_range wav_files i Hi) as (f & -> & _).
  reflexivity.
Qed.

(** With the selection in range, the keyboard loop raises nothing and
    returns [None] or the path of a listed file. *)
Lemma select_wav_file_loop_safe (wav_files : list string) (keys : list key_input) :
  forall i, (0 <= i < Z.of_nat (length wav_files))%Z ->
  match snd (select_wav_file_loop os_path_join wav_files i keys) with
  | Returned None _ => True
  | Returned (Some p) _ =>
      exists f, In f wav_files /\ p = os_path_join "data" f
  | Raised _ => False
  | Waiting => True
  end.
Proof.
  induction keys as [|k keys IH]; intros i Hi; [exact I|].
  cbn [select_wav_file_loop].
  destruct k as [[|] name|]; [|apply IH; exact Hi|exact I].
  assert (Hmove : forall delta,
    match snd (match py_mod (i + delta) (Z.of_nat (length wav_files)) with
               | Some i0 =>
                   let (lines, o) := display_menu wav_files i0 in
                   match o with
                   | Some e => (lines, Raised e)
                   | None =>
                       after_printing lines
                         (select_wav_file_loop os_path_join wav_files i0 keys)
                   end
               | None => ([], Raised E_ZeroDivisionError)
               end) with
    | Returned None _ => True
    | Returned (Some p) _ =>
        exists f, In f wav_files /\ p = os_path_join "data" f
    | Raised _ => False
    | Waiting => True
    end).
  { intros delta.
    destruct (py_mod_in_range (i + delta) (Z.of_nat (length wav_files))
                ltac:(lia)) as (j & -> & _ & Hj).
    pose proof (display_menu_in_range wav_files j Hj) as Hd.
    destruct (display_menu wav_files j) as [lines o]. cbn [snd] in Hd.
    subst o. cbn [after_printing snd]. apply IH. exact Hj. }
  destruct (String.eqb name "up"); [apply Hmove|].
  destruct (String.eqb name "down"); [apply Hmove|].
  destruct (String.eqb name "enter").
  { destruct (py_getitem_in_range wav_files i Hi) as (f & -> & _ & Hin).
    cbn [snd]. exists f. split; [exact Hin|reflexivity]. }
  destruct (String.eqb name "q"); [exact I|].
  destruct (String.eqb name "esc"); [exact I|].
  apply IH. exact Hi.
Qed.

(** The loop that reads numbers raises only what [input] raises and the
    clause [except ValueError] does not catch. *)
Lemma select_wav_file_by_number_safe (wav_files : list string)
    (stdin : list line_input) :
  match snd (select_wav_file_by_number os_path_join str_strip
               py_int_of_string wav_files stdin) with
  | Returned None _ => True
  | Returned (Some p) _ =>
      exists f, In f wav_files /\ p = os_path_join "data" f
  | Raised e => e = E_EOFError \/ e = E_KeyboardInterrupt
  | Waiting => True
  end.
Proof.
  induction stdin as [|[line| | |] rest IH];
    [exact I| |exact IH|left; reflexivity|right; reflexivity].
  cbn [select_wav_file_by_number after_printing snd].
  destruct (String.eqb (str_lower (str_strip line)) "q"); [exact I|].
  destruct (py_int_of_string (str_strip line)) as [n|]; [|exact IH].
  destruct (Z.leb_spec 1 n) as [H1|H1]; cbn [andb]; [|exact IH].
  destruct (Z.leb_spec n (Z.of_nat (length wav_files))) as [H2|H2];
    [|exact IH].
  destruct (py_getitem_in_range wav_files (n - 1) ltac:(lia))
    as (f & -> & _ & Hin).
  cbn [snd]. exists f. split; [exact Hin|reflexivity].
Qed.

(** How the keyboard loop ends on arrow presses followed by [enter]. *)
Lemma select_wav_file_loop_navigation (wav_files : list string)
    (arrows rest : list key_input) :
  forallb navigation_key arrows = true ->
  forall i, (0 <= i < Z.of_nat (length wav_files))%Z ->
  exists f,
    wav_files !! Z.to_nat ((i + arrow_offset arrows)
                           mod Z.of_nat (length wav_files)) = Some f
    /\ snd (select_wav_file_loop os_path_join wav_files i
              (arrows ++ Key_event KEY_DOWN "enter" :: rest))
       = Returned (Some (os_path_join "data" f)) rest.
Proof.
  induction arrows as [|k arrows IH]; intros Hnav i Hi.
  - cbn [app arrow_offset select_wav_file_loop].
    change (String.eqb "enter" "up") with false.
    change (String.eqb "enter" "down") with false.
    change (String.eqb "enter" "enter") with true. cbv iota.
    destruct (py_getitem_in_range wav_files i Hi) as (f & -> & Hf & _).
    exists f. rewrite Z.add_0_r, Z.mod_small by lia.
    split; [exact Hf|reflexivity].
  - cbn [forallb] in Hnav. apply andb_true_iff in Hnav.
    destruct Hnav as [Hk Hnav]. specialize (IH Hnav).
    cbn [app select_wav_file_loop arrow_offset].
    destruct k as [[|] name|]; [| |discriminate Hk].
    + cbn [navigation_key] in Hk.
      apply andb_true_iff in Hk. destruct Hk as [Hk Hesc].
      apply andb_true_iff in Hk. destruct Hk as [Henter Hq].
      apply negb_true_iff in Henter, Hq, Hesc.
      assert (Hmove : forall delta,
        exists f,
          wav_files !! Z.to_nat ((i + (delta + arrow_offset arrows))
                                 mod Z.of_nat (length wav_files)) = Some f
          /\ snd (match py_mod (i + delta) (Z.of_nat (length wav_files)) with
                  | Some i0 =>
                      let (lines, o) := display_menu wav_files i0 in
                      match o with
                      | Some e => (lines, Raised e)
                      | None =>
                          after_printing lines
                            (select_wav_file_loop os_path_join wav_files i0
                               (arrows ++ Key_event KEY_DOWN "enter" :: rest))
                      end
                  | None => ([], Raised E_ZeroDivisionError)
                  end)
             = Returned (Some (os_path_join "data" f)) rest).
      { intros delta.
        destruct (py_mod_in_range (i + delta) (Z.of_nat (length wav_files))
                    ltac:(lia)) as (j & -> & Hjv & Hj).
        pose proof (display_menu_in_range wav_files j Hj) as Hd.
        destruct (display_menu wav_files j) as [lines o]. cbn [snd] in Hd.
        subst o. cbn [after_printing snd].
        destruct (IH j Hj) as (f & Hf & Hrun). exists f.
        split; [|exact Hrun].
        rewrite <- Hf, Hjv, Zplus_mod_idemp_l.
        replace (i + (delta + arrow_offset arrows))%Z
          with (i + delta + arrow_offset arrows)%Z by lia.
        reflexivity. }
      destruct (String.eqb name "up"); [apply Hmove|].
      destruct (String.eqb name "down"); [apply Hmove|].
      rewrite Henter, Hq, Hesc. rewrite Z.add_0_l. apply IH. exact Hi.
    + apply IH. exact Hi.
Qed.

End SelectFile.

Section Console.

Context {I A : Type}.

Lemma snd_after_printing (lines : list menu_line) (r : menu_run I A) :
  snd (after_printing lines r) = snd r.
Proof. reflexivity. Qed.

Lemma snd_on_console (whole : I -> console) (r : menu_run I A) :
  snd (on_console whole r)
  = match snd r with
    | Returned a rest => Returned a (whole rest)
    | Raised e => Raised e
    | Waiting => Waiting
    end.
Proof. reflexivity. Qed.

End Console.

Section Options.

Lemma display_options_menu_in_range (i : Z) :
  (0 <= i < 3)%Z -> snd (display_options_menu i) = None.
Proof.
  intros Hi. unfold display_options_menu.
  destruct (py_getitem_in_range options_list i Hi) as (o & -> & _).
  reflexivity.
Qed.


(** With the selection in range, the keyboard loop of the options menu
    raises nothing and returns a listed option. *)
Lemma get_analysis_options_loop_safe (keys : list key_input) :
  forall i, (0 <= i < 3)%Z ->
  match snd (get_analysis_options_loop i keys) with
  | Returned o _ => In o options_list
  | Raised _ => False
  | Waiting => True
  end.
Proof.
  induction keys as [|k keys IH]; intros i Hi; [exact I|].
  cbn [get_analysis_options_loop].
  destruct k as [[|] name|]; [|apply IH; exact Hi|left; reflexivity].
  assert (Hmove : forall delta,
    match snd (match py_mod (i + delta) (Z.of_nat (length options_list)) with
               | Some i0 =>
                   let (lines, o) := display_options_menu i0 in
                   match o with
                   | Some e => (lines, Raised e)
                   | None =>
                       after_printing lines
                         (get_analysis_options_loop i0 keys)
                   end
               | None => ([], Raised E_ZeroDivisionError)
               end) with
    | Returned o _ => In o options_list
    | Raised _ => False
    | Waiting => True
    end).
  { intros delta.
    destruct (py_mod_in_range (i + delta) (Z.of_nat (length options_list))
                ltac:(cbn; lia)) as (j & -> & _ & Hj).
    change (Z.of_nat (length options_list)) with 3%Z in Hj.
    pose proof (display_options_menu_in_range j Hj) as Hd.
    destruct (display_options_menu j) as [lines o]. cbn [snd] in Hd.
    subst o. cbn [after_printing snd]. apply IH. exact Hj. }
  destruct (String.eqb name "up"); [apply Hmove|].
  destruct (String.eqb name "down"); [apply Hmove|].
  destruct (String.eqb name "enter").
  { destruct (py_getitem_in_range options_list i Hi) as (o & -> & _ & Hin).
    exact Hin. }
  destruct (String.eqb name "esc"); [left; reflexivity|].
  apply IH. exact Hi.
Qed.

Lemma get_analysis_options_by_number_safe (str_strip : string -> string)
    (stdin : list line_input) :
  match snd (get_analysis_options_by_number str_strip stdin) with
  | Returned o _ => In o options_list
  | Raised e => e = E_EOFError \/ e = E_KeyboardInterrupt
  | Waiting => True
  end.
Proof.
  induction stdin as [|[line| | |] rest IH];
    [exact I| |exact IH|left; reflexivity|right; reflexivity].
  cbn [get_analysis_options_by_number after_printing snd].
  destruct (str_strip line) as [|c s] eqn:E; [left; reflexivity|].
  destruct (String.eqb (String c s) "1"); [left; reflexivity|].
  destruct (String.eqb (String c s) "2"); [right; left; reflexivity|].
  destruct (String.eqb (String c s) "3"); [right; right; left; reflexivity|].
  exact IH.
Qed.

End Options.

(** X23.  [select_wav_file] never fails on an index: whatever the user
    types or presses, it raises neither [IndexError] nor
    [ZeroDivisionError], and every path it returns is [data] joined with a
    name of the directory listing that ends in [.wav], in any letter case. *)
Theorem select_wav_file_returns_listed_file
    (os_path_exists : string -> bool)
    (os_listdir : string -> result (list string))
    (os_path_join : string -> string -> string)
    (str_strip : string -> string)
    (py_int_of_string : string -> option Z)
    (keyboard_available : bool) (input : console) :
  let run := select_wav_file os_path_exists os_listdir os_path_join
               str_strip py_int_of_string keyboard_available input in
  (forall p rest,
      snd run = Returned (Some p) rest ->
      exists files f,
        os_listdir "data" = Ok files /\ In f files
        /\ str_endswith (str_lower f) ".wav" = true
        /\ p = os_path_join "data" f)
  /\ snd run <> Raised E_IndexError
  /\ snd run <> Raised E_ZeroDivisionError.
Proof.
  intros run. subst run. unfold select_wav_file.
  destruct (list_wav_files os_path_exists os_listdir) as [wav_files|e] eqn:Hl;
    [|repeat split; intros; discriminate].
  assert (Hlisted : forall f p,
             In f wav_files -> p = os_path_join "data" f ->
             exists files f0,
               os_listdir "data" = Ok files /\ In f0 files
               /\ str_endswith (str_lower f0) ".wav" = true
               /\ p = os_path_join "data" f0).
  { intros f p Hin ->.
    destruct (list_wav_files_listed _ _ _ f Hl Hin)
      as (files & _ & Hdir & Hf & Hwav).
    exists files, f. tauto. }
  destruct wav_files as [|f0 wav_files'];
    [repeat split; intros; discriminate|].
  set (wav_files := f0 :: wav_files') in *.
  destruct keyboard_available; cbn [negb].
  - pose proof (display_menu_in_range wav_files 0
                  ltac:(cbn [wav_files length]; lia)) as Hd.
    destruct (display_menu wav_files 0) as [lines o]. cbn [snd] in Hd.
    subst o. rewrite snd_after_printing, snd_on_console.
    pose proof (select_wav_file_loop_safe os_path_join wav_files (fst input) 0
                  ltac:(cbn [wav_files length]; lia)) as Hsafe.
    destruct (snd (select_wav_file_loop os_path_join wav_files 0 (fst input)))
      as [[p|] rest|e|]; try contradiction;
      repeat split; try discriminate.
    intros p' rest' E. injection E as <- _.
    destruct Hsafe as (f & Hin & Hp). exact (Hlisted f p Hin Hp).
  - rewrite snd_after_printing, snd_on_console.
    pose proof (select_wav_file_by_number_safe os_path_join str_strip
                  py_int_of_string wav_files (snd input)) as Hsafe.
    destruct (snd (select_wav_file_by_number os_path_join str_strip
                     py_int_of_string wav_files (snd input)))
      as [[p|] rest|e|]; repeat split; try discriminate;
      try (destruct Hsafe as [->| ->]; discriminate).
    intros p' rest' E. injection E as <- _.
    destruct Hsafe as (f & Hin & Hp). exact (Hlisted f p Hin Hp).
Qed.

Lemma select_wav_file_returns_listed_file_witness :
  exists files f,
    Ok ["notes.txt"; "Tone.WAV"]%string = Ok files /\ In f files
    /\ str_endswith (str_lower f) ".wav" = true
    /\ ("data" +:+ "/" +:+ "Tone.WAV")%string
       = ("data" +:+ "/" +:+ f)%string.
Proof.
  destruct (select_wav_file_returns_listed_file
              (fun _ => true) (fun _ => Ok ["notes.txt"; "Tone.WAV"]%string)
              (fun dir name => (dir +:+ "/" +:+ name)%string)
              (fun s => s) (fun _ => None) true
              ([Key_event KEY_DOWN "enter"], []))
    as [Hlisted _].
  apply (Hlisted ("data" +:+ "/" +:+ "Tone.WAV")%string ([], [])). reflexivity.
Defined.

(** X24.  In the keyboard menu of [select_wav_file] the selection moves
    around the list: after any key events that hold no press of [enter],
    [q] or [esc], pressing [enter] returns the file whose position is the
    number of presses of [down] minus the number of presses of [up],
    modulo the number of files; key releases and other keys change
    nothing. *)
Theorem select_wav_file_arrow_keys
    (os_path_exists : string -> bool)
    (os_listdir : string -> result (list string))
    (os_path_join : string -> string -> string)
    (str_strip : string -> string)
    (py_int_of_string : string -> option Z)
    (wav_files : list string) (arrows rest : list key_input)
    (stdin : list line_input) :
  list_wav_files os_path_exists os_listdir = Ok wav_files ->
  wav_files <> [] ->
  forallb navigation_key arrows = true ->
  exists f,
    wav_files !! Z.to_nat (arrow_offset arrows
                           mod Z.of_nat (length wav_files)) = Some f
    /\ snd (select_wav_file os_path_exists os_listdir os_path_join
              str_strip py_int_of_string true
              (arrows ++ Key_event KEY_DOWN "enter" :: rest, stdin))
       = Returned (Some (os_path_join "data" f)) (rest, stdin).
Proof.
  intros Hl Hne Hnav. unfold select_wav_file. rewrite Hl.
  destruct wav_files as [|f0 wav_files']; [congruence|].
  set (wav_files := f0 :: wav_files') in *. cbn [negb fst snd].
  pose proof (display_menu_in_range wav_files 0
                ltac:(cbn [wav_files length]; lia)) as Hd.
  destruct (display_menu wav_files 0) as [lines o]. cbn [snd] in Hd.
  subst o. rewrite snd_after_printing, snd_on_console.
  destruct (select_wav_file_loop_navigation os_path_join wav_files arrows rest
              Hnav 0 ltac:(cbn [wav_files length]; lia)) as (f & Hf & Hrun).
  rewrite Z.add_0_l in Hf. exists f. split; [exact Hf|].
  rewrite Hrun. reflexivity.
Qed.

Lemma select_wav_file_arrow_keys_witness :
  exists f,
    ["a.wav"; "b.wav"; "c.wav"]%string
      !! Z.to_nat (arrow_offset [Key_event KEY_DOWN "up"; Key_event KEY_UP "up"]
                   mod Z.of_nat (length ["a.wav"; "b.wav"; "c.wav"]%string))
    = Some f
    /\ snd (select_wav_file (fun _ => true)
              (fun _ => Ok ["a.wav"; "b.wav"; "c.wav"]%string)
              (fun dir name => (dir +:+ "/" +:+ name)%string)
              (fun s => s) (fun _ => None) true
              ([Key_event KEY_DOWN "up"; Key_event KEY_UP "up"]
               ++ Key_event KEY_DOWN "enter" :: [], []))
       = Returned (Some ("data" +:+ "/" +:+ f)%string) ([], []).
Proof.
  apply (select_wav_file_arrow_keys (fun _ => true)
           (fun _ => Ok ["a.wav"; "b.wav"; "c.wav"]%string)
           (fun dir name => (dir +:+ "/" +:+ name)%string)
           (fun s => s) (fun _ => None)
           ["a.wav"; "b.wav"; "c.wav"]%string
           [Key_event KEY_DOWN "up"; Key_event KEY_UP "up"] [] []).
  - reflexivity.
  - discriminate.
  - reflexivity.
Defined.



(** X26.  When [main] runs an analysis, the file analysed is [data] joined
    with a name of the directory listing that ends in [.wav], the options
    are one of the three listed ones, and the analysis is
    [perform_complete_analysis] on that file with these options; with the
    option that shows no plots it makes no matplotlib request and creates no
    directory, and without the option that saves figures it writes no
    file. *)
Theorem main_analyses_selected_file
    (env : environment)
    (os_path_exists : string -> bool)
    (os_listdir : string -> result (list string))
    (str_strip : string -> string)
    (py_int_of_string : string -> option Z)
    (keyboard_available : bool) (input : console)
    (file : string) (options : analysis_option)
    (run : IO (option analysis)) :
  snd (main env os_path_exists os_listdir str_strip py_int_of_string
         keyboard_available input)
  = Analysed file options run ->
  (exists files f,
      os_listdir "data" = Ok files /\ In f files
      /\ str_endswith (str_lower f) ".wav" = true
      /\ file = os_path_join env "data" f)
  /\ In options options_list
  /\ run = perform_complete_analysis env file
             (option_show_plots options) (option_save_figures options)
  /\ (option_show_plots options = false ->
      forall ev, In ev (io_trace run) ->
                 (forall c, ev <> Plt c) /\ (forall d, ev <> Makedirs d))
  /\ (option_save_figures options = false ->
      forall ev, In ev (io_trace run) ->
                 (forall p, ev <> Plt (Plt_savefig p))
                 /\ (forall d, ev <> Makedirs d)).
Proof.
  unfold main. intros Hmain.
  set (selection := select_wav_file os_path_exists os_listdir
                      (os_path_join env) str_strip py_int_of_string
                      keyboard_available input) in *.
  assert (Hsel : forall p rest,
             snd selection = Returned (Some p) rest ->
             exists files f,
               os_listdir "data" = Ok files /\ In f files
               /\ str_endswith (str_lower f) ".wav" = true
               /\ p = os_path_join env "data" f).
  { intros p rest E. subst selection. revert E.
    unfold select_wav_file.
    destruct (list_wav_files os_path_exists os_listdir)
      as [wav_files|e] eqn:Hl; [|discriminate].
    assert (Hlisted : forall f, In f wav_files ->
               exists files f0,
                 os_listdir "data" = Ok files /\ In f0 files
                 /\ str_endswith (str_lower f0) ".wav" = true
                 /\ os_path_join env "data" f = os_path_join env "data" f0).
    { intros f Hin.
      destruct (list_wav_files_listed _ _ _ f Hl Hin)
        as (files & _ & Hdir & Hf & Hwav).
      exists files, f. tauto. }
    destruct wav_files as [|f0 wav_files']; [discriminate|].
    set (wav_files := f0 :: wav_files') in *.
    destruct keyboard_available; cbn [negb].
    - pose proof (display_menu_in_range wav_files 0
                    ltac:(cbn [wav_files length]; lia)) as Hd.
      destruct (display_menu wav_files 0) as [lines o]. cbn [snd] in Hd.
      subst o. rewrite snd_after_printing, snd_on_console.
      pose proof (select_wav_file_loop_safe (os_path_join env) wav_files
                    (fst input) 0 ltac:(cbn [wav_files length]; lia))
        as Hsafe.
      destruct (snd (select_wav_file_loop (os_path_join env) wav_files 0
                       (fst input)))
        as [[q|] rest'|e|]; try contradiction; try discriminate.
      intros E. injection E as <- _.
      destruct Hsafe as (f & Hin & ->). exact (Hlisted f Hin).
    - rewrite snd_after_printing, snd_on_console.
      pose proof (select_wav_file_by_number_safe (os_path_join env) str_strip
                    py_int_of_string wav_files (snd input)) as Hsafe.
      destruct (snd (select_wav_file_by_number (os_path_join env) str_strip
                       py_int_of_string wav_files (snd input)))
        as [[q|] rest'|e|]; try contradiction; try discriminate.
      intros E. injection E as <- _.
      destruct Hsafe as (f & Hin & ->). exact (Hlisted f Hin). }
  destruct (snd selection) as [[[|c s]|] rest|e|]; try discriminate Hmain.
  specialize (Hsel (String c s) rest eq_refl).
  destruct (snd (get_analysis_options str_strip keyboard_available rest))
    as [o rest'|e|] eqn:Eo; try discriminate Hmain.
  injection Hmain as <- <- <-.
  split; [exact Hsel|].
  assert (Hin : In o options_list).
  { revert Eo. unfold get_analysis_options.
    destruct keyboard_available; cbn [negb].
    - pose proof (display_options_menu_in_range 0 ltac:(lia)) as Hd.
      destruct (display_options_menu 0) as [lines o']. cbn [snd] in Hd.
      subst o'. rewrite snd_after_printing, snd_on_console.
      pose proof (get_analysis_options_loop_safe (fst rest) 0 ltac:(lia))
        as Hsafe.
      destruct (snd (get_analysis_options_loop 0 (fst rest)))
        as [o' r|e|]; try discriminate.
      intros E. injection E as <- _. exact Hsafe.
    - rewrite snd_after_printing, snd_on_console.
      pose proof (get_analysis_options_by_number_safe str_strip (snd rest))
        as Hsafe.
      destruct (snd (get_analysis_options_by_number str_strip (snd rest)))
        as [o' r|e|]; try discriminate.
      intros E. injection E as <- _. exact Hsafe. }
  split; [exact Hin|]. split; [reflexivity|]. split.
  - intros Hshow ev Hev. rewrite Hshow in Hev.
    exact (proj1 (List.Forall_forall _ _)
             (no_plot_without_show_plots env _ _) ev Hev).
  - intros Hsave ev Hev. rewrite Hsave in Hev.
    exact (proj1 (List.Forall_forall _ _)
             (no_file_written_without_save_figures env _ _) ev Hev).
Qed.

Lemma main_analyses_selected_file_witness :
  (exists files f,
      Ok ["notes.txt"; "tone.wav"]%string = Ok files /\ In f files
      /\ str_endswith (str_lower f) ".wav" = true
      /\ "data/tone.wav"%string
         = os_path_join (single_file_environment (Ok wav_16bit_mono)) "data" f)
  /\ In (mk_analysis_option "Analysis only (no plots)" false false)
        options_list
  /\ perform_complete_analysis (single_file_environment (Ok wav_16bit_mono))
       "data/tone.wav" false false
     = perform_complete_analysis (single_file_environment (Ok wav_16bit_mono))
         "data/tone.wav"
         (option_show_plots
            (mk_analysis_option "Analysis only (no plots)" false false))
         (option_save_figures
            (mk_analysis_option "Analysis only (no plots)" false false))
  /\ (option_show_plots
        (mk_analysis_option "Analysis only (no plots)" false false) = false ->
      forall ev,
        In ev (io_trace (perform_complete_analysis
                           (single_file_environment (Ok wav_16bit_mono))
                           "data/tone.wav" false false)) ->
        (forall c, ev <> Plt c) /\ (forall d, ev <> Makedirs d))
  /\ (option_save_figures
        (mk_analysis_option "Analysis only (no plots)" false false) = false ->
      forall ev,
        In ev (io_trace (perform_complete_analysis
                           (single_file_environment (Ok wav_16bit_mono))
                           "data/tone.wav" false false)) ->
        (forall p, ev <> Plt (Plt_savefig p))
        /\ (forall d, ev <> Makedirs d)).
Proof.
  apply (main_analyses_selected_file
           (single_file_environment (Ok wav_16bit_mono))
           (fun _ => true) (fun _ => Ok ["notes.txt"; "tone.wav"]%string)
           (fun s => s) (fun _ => None) true
           ([ Key_event KEY_DOWN "enter";
              Key_event KEY_DOWN "up"; Key_event KEY_UP "up";
              Key_event KEY_DOWN "enter" ], [])
           "data/tone.wav"
           (mk_analysis_option "Analysis only (no plots)" false false)
           (perform_complete_analysis
              (single_file_environment (Ok wav_16bit_mono))
              "data/tone.wav" false false)).
  reflexivity.
Defined.


(* ===================================================================== *)
(** * The analysis behind the dashboard *)
(* ===================================================================== *)

Section DashboardSteps.

(** A handler that calls nothing and always raises keeps the order of the
    calls of the body. *)
Lemma steps_try_except_reraise {A : Type} (body : IO A) (h : exn -> IO A)
    (cs : list func) :
  steps body cs ->
  (forall e, silent (h e) /\ is_ok (io_outcome (h e)) = false) ->
  steps (try_except body h) cs.
Proof.
  intros [Hpre Hall] Hh. destruct (io_outcome body) as [a|e] eqn:E.
  - rewrite (try_except_ok body h a E). split; [exact Hpre|].
    intros _. apply Hall. reflexivity.
  - destruct (is_Exception e) eqn:He.
    + rewrite (try_except_raise body h e E He). destruct (Hh e) as [Hs Hfail].
      unfold steps. cbn [io_trace io_outcome].
      rewrite calls_app, Hs, app_nil_r. split; [exact Hpre|].
      rewrite Hfail. discriminate.
    + rewrite (try_except_pass body h e E He). split; [exact Hpre|].
      discriminate.
Qed.

Lemma reraise_after_cleanup {A : Type} (cleanup : result unit) (e : exn) :
  silent (io_lift cleanup ;; (io_raise e : IO A))
  /\ is_ok (io_outcome (io_lift cleanup ;; (io_raise e : IO A))) = false.
Proof. destruct cleanup as [[]|e']; split; reflexivity. Qed.

Lemma io_lift_ok_bind {A B : Type} (a : A) (k : A -> IO B) :
  io_lift (Ok a) ≫= k = k a.
Proof.
  unfold io_lift, mbind, IO_bind. destruct (k a) as [t r]. reflexivity.
Qed.

End DashboardSteps.

Section DashboardFigures.

Variable signal_spectrogram :
  list Z -> Z -> nat -> nat -> result (nat * nat).
Variable signal_welch : list Z -> Z -> nat -> result nat.

(** From three samples on, the six figures are built exactly when the two
    library calls succeed. *)
Lemma create_all_visualizations_ok (w : list Z) (sample_rate : Z)
    (duration : Q) (filename : string) :
  (3 <= length w)%nat -> (0 < sample_rate)%Z ->
  is_ok (create_all_visualizations signal_spectrogram signal_welch
           w sample_rate duration filename)
  = is_ok (signal_spectrogram w sample_rate (Nat.min 1024 (length w / 8))
             (Nat.min 1024 (length w / 8) / 2))
    && is_ok (signal_welch w sample_rate (Nat.min 1024 (length w / 4))).
Proof.
  intros Hlen Hsr.
  destruct (create_phase_plot_ok w sample_rate
              ("Phase Response - " +:+ filename)) as [p_phase Hphase].
  { intros ->. cbn in Hlen. lia. }
  { lia. }
  unfold create_all_visualizations.
  unfold create_waveform_plot at 1. cbn [mbind result_bind].
  rewrite create_frequency_spectrum_plot_ok by assumption.
  cbn [mbind result_bind].
  unfold create_spectrogram_plot.
  destruct (signal_spectrogram _ _ _ _) as [[nf nt]|e]; [|reflexivity].
  cbn [mbind result_bind].
  unfold create_psd_plot.
  destruct (signal_welch _ _ _) as [n|e]; [|reflexivity].
  cbn [mbind result_bind]. rewrite Hphase. reflexivity.
Qed.

End DashboardFigures.

(** X27.  [analyze_audio] calls, in this order, [get_wave_info],
    [load_wave_data], [analyze_audio_levels] and [detect_harmonics]; a run
    that raises stops after an initial part of this sequence, and a run that
    returns has made all four calls.  Unlike the command-line pipeline, the
    dashboard detects harmonics. *)
Theorem analyze_audio_call_order
    (env : environment)
    (signal_spectrogram : list Z -> Z -> nat -> nat -> result (nat * nat))
    (signal_welch : list Z -> Z -> nat -> result nat)
    (remove_if_exists : string -> result unit)
    (filename : string) (converted : result string) :
  steps (analyze_audio env signal_spectrogram signal_welch remove_if_exists
           filename converted)
        dashboard_pipeline.
Proof.
  unfold analyze_audio, dashboard_pipeline.
  apply steps_bind_silent; [apply silent_lift|]. intros tmp_path.
  apply steps_try_except_reraise; [|intros e; apply reraise_after_cleanup].
  apply (steps_bind _ _ [F_get_wave_info]); [apply steps_get_wave_info|].
  intros file_info.
  apply (steps_bind _ _ [F_load_wave_data]); [apply steps_load_wave_data|].
  intros wave_data.
  apply (steps_bind _ _ [F_analyze_audio_levels]); [apply steps_call|].
  intros _.
  apply steps_bind_silent; [apply silent_lift|]. intros audio_levels.
  apply (steps_bind _ _ [F_detect_harmonics] []); [apply steps_call|].
  intros _.
  apply steps_bind_silent; [apply silent_lift|]. intros harmonics.
  apply steps_bind_silent; [apply silent_lift|]. intros figures.
  apply steps_silent. apply silent_ret.
Qed.

(** X28.  On an upload that converts to a WAV file which opens, has a
    positive sample rate and an even number of data bytes,
    [analyze_audio] returns its results exactly when the waveform has at
    least three samples, one of them nonzero, and the two library calls
    behind the spectrogram and the power spectral density succeed; on
    silence and on shorter files it raises. *)
Theorem analyze_audio_succeeds_iff
    (env : environment)
    (signal_spectrogram : list Z -> Z -> nat -> nat -> result (nat * nat))
    (signal_welch : list Z -> Z -> nat -> result nat)
    (remove_if_exists : string -> result unit)
    (filename path : string) (f : Wave_read) :
  wave_open env path = Ok f ->
  (0 < framerate f)%Z ->
  (length (readframes f (nframes f)) mod 2 = 0)%nat ->
  let waveform := first_channel f (int16_pairs (readframes f (nframes f))) in
  is_ok (io_outcome (analyze_audio env signal_spectrogram signal_welch
                       remove_if_exists filename (Ok path))) = true
  <-> (3 <= length waveform)%nat
      /\ Exists (fun x => x <> 0%Z) waveform
      /\ is_ok (signal_spectrogram waveform (framerate f)
                  (Nat.min 1024 (length waveform / 8))
                  (Nat.min 1024 (length waveform / 8) / 2)) = true
      /\ is_ok (signal_welch waveform (framerate f)
                  (Nat.min 1024 (length waveform / 4))) = true.
Proof.
  intros Hopen Hrate Heven waveform.
  assert (Hout :
    is_ok (io_outcome (analyze_audio env signal_spectrogram signal_welch
                         remove_if_exists filename (Ok path)))
    = is_ok (analyze_audio_levels waveform)
      && is_ok (detect_harmonics waveform (framerate f) 10)
      && is_ok (create_all_visualizations signal_spectrogram signal_welch
                  waveform (framerate f)
                  (inject_Z (nframes f) / inject_Z (framerate f))%Q
                  filename)).
  { unfold analyze_audio. rewrite io_lift_ok_bind.
    rewrite (get_wave_info_run env path f Hopen ltac:(lia)).
    rewrite (load_wave_data_even env path f Hopen Heven ltac:(lia)).
    fold waveform.
    cbn [io_lift mbind IO_bind wd_waveform wd_sample_rate wd_duration emit
         app try_except io_outcome].
    destruct (analyze_audio_levels waveform) as [a|e];
      [|unfold try_except; destruct (is_Exception e);
       destruct (remove_if_exists path) as [[]|e']; reflexivity].
    cbn [io_lift mbind IO_bind emit app try_except io_outcome].
    destruct (detect_harmonics waveform (framerate f) 10) as [hs|e];
      [|unfold try_except; destruct (is_Exception e);
       destruct (remove_if_exists path) as [[]|e']; reflexivity].
    cbn [io_lift mbind IO_bind emit app try_except io_outcome].
    destruct (create_all_visualizations _ _ _ _ _ _) as [figs|e];
      [reflexivity|unfold try_except; destruct (is_Exception e);
       destruct (remove_if_exists path) as [[]|e']; reflexivity]. }
  rewrite Hout. clear Hout. split.
  - intros H. apply andb_true_iff in H. destruct H as [H Hfigs].
    apply andb_true_iff in H. destruct H as [Hlevels Hharm].
    assert (Hlen : (3 <= length waveform)%nat).
    { destruct (Nat.lt_ge_cases (length waveform) 3) as [Hshort|Hlong];
        [|exact Hlong].
      rewrite (detect_harmonics_needs_three_samples _ _ _ Hrate Hshort)
        in Hharm.
      discriminate Hharm. }
    rewrite create_all_visualizations_ok in Hfigs by assumption.
    apply andb_true_iff in Hfigs. destruct Hfigs as [Hspec Hwelch].
    split; [exact Hlen|]. split; [|split; assumption].
    assert (Hdec : Exists (fun x => x <> 0%Z) waveform
                   \/ Forall (fun x => x = 0%Z) waveform).
    { clear. induction waveform as [|x w [IH|IH]].
      - right. constructor.
      - left. apply Exists_cons_tl. exact IH.
      - destruct (Z.eq_dec x 0%Z) as [E|E];
          [right; constructor; assumption|left; apply Exists_cons_hd; exact E]. }
    destruct Hdec as [Hnz|Hz]; [exact Hnz|].
    destruct (analyze_audio_levels_all_zero _ Hz) as [msg Hraise].
    rewrite Hraise in Hlevels. discriminate Hlevels.
  - intros (Hlen & Hnz & Hspec & Hwelch).
    destruct (analyze_audio_levels_nonzero_ok _ Hnz) as [a ->].
    destruct (detect_harmonics_returns waveform (framerate f) 10 Hlen Hrate)
      as [hs ->].
    rewrite create_all_visualizations_ok by assumption.
    rewrite Hspec, Hwelch. reflexivity.
Qed.

Lemma analyze_audio_succeeds_iff_witness :
  is_ok (io_outcome
           (analyze_audio
              (single_file_environment
                 (Ok (mk_Wave_read 1 2 8000 3
                        [Byte.x01; Byte.x00; Byte.x02; Byte.x00;
                         Byte.x03; Byte.x00])))
              (fun _ _ _ _ => Ok (1, 1)%nat) (fun _ _ _ => Ok 1%nat)
              (fun _ => Ok tt) "tone.wav" (Ok "tmp.wav"%string))) = true.
Proof.
  apply (proj2 (analyze_audio_succeeds_iff
                  (single_file_environment
                     (Ok (mk_Wave_read 1 2 8000 3
                            [Byte.x01; Byte.x00; Byte.x02; Byte.x00;
                             Byte.x03; Byte.x00])))
                  (fun _ _ _ _ => Ok (1, 1)%nat) (fun _ _ _ => Ok 1%nat)
                  (fun _ => Ok tt) "tone.wav" "tmp.wav"
                  (mk_Wave_read 1 2 8000 3
                     [Byte.x01; Byte.x00; Byte.x02; Byte.x00;
                      Byte.x03; Byte.x00])
                  eq_refl ltac:(cbn; lia) eq_refl)).
  split; [vm_compute; lia|].
  split; [vm_compute; apply Exists_cons_hd; discriminate|].
  split; reflexivity.
Defined.


(* ===================================================================== *)
(** * The frequency plot of the command-line tool *)
(* ===================================================================== *)

(** X29.  The curve that [plot_frequency_analysis] draws for a waveform of
    [n >= 1] samples at a positive sample rate has [n // 2] points: the
    bins [k = 0 .. n // 2 - 1] at the frequencies [k * sample_rate / n],
    starting with the zero frequency, each with the finite level
    [20 log10 (|X_k| + 1e-10)].  The dashboard's spectrum has the bins
    [1 .. (n - 1) // 2] instead. *)
Theorem plot_frequency_analysis_data_bins (w : list Z) (sample_rate : Z) :
  w <> [] -> (0 < sample_rate)%Z ->
  plot_frequency_analysis_data w sample_rate
  = Ok (map (fun k => (INR k * (IZR sample_rate / INR (length w)))%R)
          (seq 0 (length w / 2)),
        map (fun k =>
               Fin (20 * log10 (cabs (dft_bin w k) + / 10000000000))%R)
          (seq 0 (length w / 2))).
Proof.
  intros Hw Hsr. set (n := length w).
  assert (Hn : (0 < n)%nat) by (destruct w; [congruence|cbn; lia]).
  assert (Hhalf : (n / 2 <= (n - 1) / 2 + 1)%nat).
  { pose proof (Nat.div_mod_eq n 2). pose proof (Nat.div_mod_eq (n - 1) 2).
    pose proof (Nat.mod_upper_bound n 2 ltac:(lia)).
    pose proof (Nat.mod_upper_bound (n - 1) 2 ltac:(lia)). lia. }
  unfold plot_frequency_analysis_data.
  assert (Hfft : np_fft w = Ok (map (dft_bin w) (seq 0 n)))
    by (destruct w; [congruence|reflexivity]).
  rewrite Hfft. cbn [mbind result_bind].
  unfold py_inv. destruct (Z.eqb_spec sample_rate 0) as [E|_]; [lia|].
  cbn [mbind result_bind].
  rewrite !length_map, length_seq. unfold np_fftfreq.
  rewrite length_map, fftfreq_bins_length by lia.
  rewrite fftfreq_val by lia. fold n.
  f_equal. f_equal.
  - unfold fftfreq_bins. rewrite map_app, take_app_le
      by (rewrite !length_map, length_seq; exact Hhalf).
    rewrite <- !fmap_take, take_seq.
    replace (Nat.min (n / 2) ((n - 1) / 2 + 1)) with (n / 2)%nat by lia.
    rewrite map_map. apply map_ext. intros k.
    rewrite (INR_IZR_INZ k). reflexivity.
  - rewrite <- fmap_take, <- fmap_take, take_seq.
    replace (Nat.min (n / 2) n) with (n / 2)%nat
      by (pose proof (Nat.div_mod_eq n 2); lia).
    rewrite !map_map. apply map_ext. intros k.
    pose proof (cabs_nonneg (dft_bin w k)).
    rewrite np_log10_pos by lra. reflexivity.
Qed.

Lemma plot_frequency_analysis_data_bins_witness :
  plot_frequency_analysis_data [1; -2; 3]%Z 8000
  = Ok (map (fun k => (INR k * (IZR 8000 / INR (length [1; -2; 3]%Z)))%R)
          (seq 0 (length [1; -2; 3]%Z / 2)),
        map (fun k =>
               Fin (20 * log10 (cabs (dft_bin [1; -2; 3]%Z k)
                                + / 10000000000))%R)
          (seq 0 (length [1; -2; 3]%Z / 2))).
Proof.
  apply (plot_frequency_analysis_data_bins [1; -2; 3]%Z 8000);
    [discriminate|lia].
Defined.


(* ===================================================================== *)
(** * Temporary files of the conversion *)
(* ===================================================================== *)

Section TemporaryFiles.

Variable tmp_create : gset string -> string -> result string.
Variable write_upload : string -> result unit.
Variable audio : Type.
Variable from_mp3 : string -> result audio.
Variable from_file : string -> option string -> result audio.
Variable export : audio -> string -> result unit.

(** A temporary file gets a name that is not in use. *)
Hypothesis tmp_create_fresh :
  forall files suffix path,
    tmp_create files suffix = Ok path -> (path ∉ files).

Lemma run_bind {A B : Type} (m : FS A) (k : A -> FS B) (files : gset string) :
  run_fs (m ≫= k) files
  = match run_fs m files with
    | (Ok a, files') => run_fs (k a) files'
    | (Raise e, files') => (Raise e, files')
    end.
Proof. reflexivity. Qed.

Lemma run_try {A : Type} (body : FS A) (h : exn -> FS A) (files : gset string) :
  run_fs (fs_try body h) files
  = match run_fs body files with
    | (Ok a, files') => (Ok a, files')
    | (Raise e, files') =>
        if is_Exception e then run_fs (h e) files' else (Raise e, files')
    end.
Proof. reflexivity. Qed.

Lemma run_named_temporary_file (suffix : string) (files : gset string) :
  run_fs (named_temporary_file tmp_create suffix) files
  = match tmp_create files suffix with
    | Ok path => (Ok path, files ∪ {[ path ]})
    | Raise e => (Raise e, files)
    end.
Proof. reflexivity. Qed.

Lemma run_unlink_present (path : string) (files : gset string) :
  path ∈ files -> run_fs (fs_unlink path) files = (Ok tt, files ∖ {[ path ]}).
Proof.
  intros Hin. unfold fs_unlink. cbn [run_fs].
  rewrite bool_decide_true by exact Hin. reflexivity.
Qed.

(** The handler of [convert_audio_to_wav] removes the input file when it
    exists, and raises the wrapped exception. *)
Lemma run_handler (path : string) (e : exn) (files : gset string) :
  run_fs (present ← fs_exists path;
          (if present : bool then fs_unlink path else mret tt);;
          fs_lift (Raise (Exception_ ("Error converting audio: " +:+ str e))
                   : result string))
         files
  = (Raise (Exception_ ("Error converting audio: " +:+ str e)),
     files ∖ {[ path ]}).
Proof.
  rewrite run_bind. unfold fs_exists at 1. cbn [run_fs].
  destruct (bool_decide (path ∈ files)) eqn:E.
  - apply bool_decide_eq_true in E. rewrite run_bind.
    rewrite run_unlink_present by exact E. reflexivity.
  - apply bool_decide_eq_false in E. rewrite run_bind.
    cbn [mret FS_ret run_fs fs_lift].
    rewrite difference_disjoint_L by (apply disjoint_singleton_r; exact E).
    reflexivity.
Qed.

End TemporaryFiles.

(** X30.  Temporary files of [convert_audio_to_wav], when
    [NamedTemporaryFile] picks names that are not in use.  A conversion that
    returns a path leaves exactly one new file, the one it returns.  But
    when the upload is not a WAV file, decodes, and the export to WAV
    raises, the wrapped exception is raised and the output file created for
    the export stays behind: the handler removes only the input file.  (An
    exception that is not derived from [Exception] passes through the
    handler, and both temporary files stay.) *)
Theorem convert_audio_to_wav_temporary_files
    (tmp_create : gset string -> string -> result string)
    (write_upload : string -> result unit)
    (audio : Type)
    (from_mp3 : string -> result audio)
    (from_file : string -> option string -> result audio)
    (export : audio -> string -> result unit)
    (pydub_available : bool) (file_extension : string)
    (files : gset string) :
  (forall fs suffix path, tmp_create fs suffix = Ok path -> (path ∉ fs)) ->
  (forall path files',
      convert_audio_to_wav tmp_create write_upload audio from_mp3 from_file
        export pydub_available file_extension files
      = (Converted path, files') ->
      (path ∉ files) /\ files' = files ∪ {[ path ]})
  /\ (forall (tmp_input tmp_output : string) (a : audio) (e : exn),
        pydub_available = true ->
        String.eqb file_extension ".wav" = false ->
        tmp_create files file_extension = Ok tmp_input ->
        write_upload tmp_input = Ok tt ->
        (if String.eqb file_extension ".mp3" then from_mp3 tmp_input
         else if String.eqb file_extension ".flac"
              then from_file tmp_input (Some "flac"%string)
              else from_file tmp_input None) = Ok a ->
        tmp_create (files ∪ {[ tmp_input ]}) ".wav" = Ok tmp_output ->
        export a tmp_output = Raise e ->
        convert_audio_to_wav tmp_create write_upload audio from_mp3 from_file
          export pydub_available file_extension files
        = (if is_Exception e
           then (Conversion_failed
                   (Exception_ ("Error converting audio: " +:+ str e)),
                 files ∪ {[ tmp_output ]})
           else (Conversion_failed e,
                 files ∪ {[ tmp_input ]} ∪ {[ tmp_output ]}))
        /\ (tmp_output ∉ files)).
Proof.
  intros Hfresh. split.
  - intros path files' Hrun. unfold convert_audio_to_wav in Hrun.
    destruct (negb pydub_available && negb (String.eqb file_extension ".wav"));
      [discriminate Hrun|].
    rewrite run_bind, run_named_temporary_file in Hrun.
    destruct (tmp_create files file_extension) as [tmp_input|e] eqn:Hin;
      [|discriminate Hrun].
    pose proof (Hfresh _ _ _ Hin) as Hnew.
    rewrite run_bind in Hrun. unfold fs_lift at 1 in Hrun. cbn [run_fs] in Hrun.
    destruct (write_upload tmp_input) as [[]|e]; [|discriminate Hrun].
    rewrite run_try in Hrun.
    destruct (String.eqb file_extension ".wav").
    { cbn [mret FS_ret run_fs] in Hrun. injection Hrun as <- <-.
      split; [exact Hnew|reflexivity]. }
    rewrite run_bind in Hrun. unfold fs_lift at 1 in Hrun. cbn [run_fs] in Hrun.
    destruct (if String.eqb file_extension ".mp3" then _ else _) as [a|e];
      [|destruct (is_Exception e); [rewrite run_handler in Hrun|];
        discriminate Hrun].
    rewrite run_bind, run_named_temporary_file in Hrun.
    destruct (tmp_create (files ∪ {[tmp_input]}) ".wav")
      as [tmp_output|e] eqn:Hout;
      [|destruct (is_Exception e); [rewrite run_handler in Hrun|];
        discriminate Hrun].
    pose proof (Hfresh _ _ _ Hout) as Hnew'.
    rewrite run_bind in Hrun. unfold fs_lift at 1 in Hrun. cbn [run_fs] in Hrun.
    destruct (export a tmp_output) as [[]|e];
      [|destruct (is_Exception e); [rewrite run_handler in Hrun|];
        discriminate Hrun].
    rewrite run_bind, run_unlink_present in Hrun
      by (apply elem_of_union_l, elem_of_union_r, elem_of_singleton;
          reflexivity).
    cbn [mret FS_ret run_fs] in Hrun. injection Hrun as <- <-.
    apply not_elem_of_union in Hnew'. destruct Hnew' as [Hout1 Hout2].
    apply not_elem_of_singleton in Hout2.
    split; [exact Hout1|].
    apply set_eq. intros x.
    rewrite elem_of_difference, !elem_of_union, !elem_of_singleton.
    split.
    + intros [[[H|H]|H] Hne]; [left; exact H|contradiction|right; exact H].
    + intros [H|H].
      * split; [left; left; exact H|]. intros ->. contradiction.
      * split; [right; exact H|]. intros E. subst x. apply Hout2. exact E.
  - intros tmp_input tmp_output a e -> Hext Hin Hwrite Hdecode Hout Hexport.
    pose proof (Hfresh _ _ _ Hin) as Hnew.
    pose proof (Hfresh _ _ _ Hout) as Hnew'.
    apply not_elem_of_union in Hnew'. destruct Hnew' as [Hout1 Hout2].
    apply not_elem_of_singleton in Hout2.
    split; [|exact Hout1].
    unfold convert_audio_to_wav. rewrite Hext. cbn [negb andb].
    rewrite run_bind, run_named_temporary_file, Hin.
    rewrite run_bind. unfold fs_lift at 1. cbn [run_fs]. rewrite Hwrite.
    rewrite run_try.
    rewrite run_bind. unfold fs_lift at 1. cbn [run_fs]. rewrite Hdecode.
    rewrite run_bind, run_named_temporary_file, Hout.
    rewrite run_bind. unfold fs_lift at 1. cbn [run_fs]. rewrite Hexport.
    destruct (is_Exception e); [|reflexivity].
    rewrite run_handler. f_equal.
    apply set_eq. intros x.
    rewrite elem_of_difference, !elem_of_union, !elem_of_singleton.
    split.
    + intros [[[H|H]|H] Hne]; [left; exact H|contradiction|right; exact H].
    + intros [H|H].
      * split; [left; left; exact H|]. intros ->. contradiction.
      * split; [right; exact H|]. intros E. subst x. apply Hout2. exact E.
Qed.

Lemma convert_audio_to_wav_temporary_files_witness :
  convert_audio_to_wav (fun fs _ => Ok (fresh fs)) (fun _ => Ok tt) unit
    (fun _ => Ok tt) (fun _ _ => Ok tt)
    (fun _ _ => Raise (OSError "No space left on device"))
    true ".mp3" ∅
  = (Conversion_failed
       (Exception_ ("Error converting audio: "
                    +:+ str (OSError "No space left on device"))),
     ∅ ∪ {[ fresh (∅ ∪ {[ fresh (∅ : gset string) ]} : gset string) ]})
  /\ (fresh (∅ ∪ {[ fresh (∅ : gset string) ]} : gset string)
      ∉ (∅ : gset string)).
Proof.
  apply (proj2 (convert_audio_to_wav_temporary_files
                  (fun fs _ => Ok (fresh fs)) (fun _ => Ok tt) unit
                  (fun _ => Ok tt) (fun _ _ => Ok tt)
                  (fun _ _ => Raise (OSError "No space left on device"))
                  true ".mp3" ∅
                  (fun fs suffix path E =>
                     eq_ind (fresh fs) (fun p => p ∉ fs) (is_fresh fs) path
                       (f_equal (fun r => match r with
                                          | Ok p => p
                                          | Raise _ => fresh fs
                                          end) E)))
           (fresh (∅ : gset string))
           (fresh (∅ ∪ {[ fresh (∅ : gset string) ]} : gset string))
           tt (OSError "No space left on device"));
    reflexivity.
Defined.

